(** * acloud: remote command execution over SSH, and creator dispatch

    A shallow embedding of [internal/lib/ssh.py] (the functions [_SshCall],
    [_SshLogOutput], [ShellCmdWithRetry] and the classes [IP] and [Ssh]) and of
    [GetAvdCreatorClass] from [create/create.py].

    Python code that raises keeps the effects it had before raising, so the
    computations below live in a state monad whose result says how the call
    ended: the state is returned on both paths.  The operating system is an
    oracle [os] telling how the n-th spawned process behaves; everything the
    code does to the outside (logging, printing, spawning, arming a timer,
    sleeping) is appended to a trace. *)

From Stdlib Require Import String Ascii List ZArith Lia Bool Arith Sorted.
Import ListNotations.

Local Open Scope string_scope.
Local Open Scope list_scope.
Local Open Scope Z_scope.

(** ** Python values *)

(** The character [chr(34)]. *)
Definition dquote : string := String (ascii_of_nat 34) EmptyString.

(** Truth value of [None] or a [str]: only a nonempty string is true. *)
Definition truthy (v : option string) : bool :=
  match v with
  | Some (String _ _) => true
  | _ => false
  end.

(** [a or b] on such values. *)
Definition py_or (a b : option string) : option string :=
  if truthy a then a else b.

(** Truth value of [None] or an [int] (the [timeout] arguments). *)
Definition truthy_int (v : option Z) : bool :=
  match v with
  | Some z => negb (z =? 0)
  | None => false
  end.

(** ["%s" % v] for [None] or a [str]. *)
Definition str_of (v : option string) : string :=
  match v with
  | Some s => s
  | None => "None"
  end.

(** [bool(s)] for a [str]. *)
Definition nonempty (s : string) : bool :=
  match s with
  | EmptyString => false
  | String _ _ => true
  end.

(** Whitespace as [str.strip()] sees it: space, and chr(9) to chr(13). *)
Definition is_space (c : ascii) : bool :=
  let n := nat_of_ascii c in
  ((n =? 32) || ((9 <=? n) && (n <=? 13)))%nat.

Fixpoint lstrip (s : string) : string :=
  match s with
  | EmptyString => EmptyString
  | String c r => if is_space c then lstrip r else s
  end.

Fixpoint string_rev (s : string) : string :=
  match s with
  | EmptyString => EmptyString
  | String c r => string_rev r ++ String c EmptyString
  end.

Definition rstrip (s : string) : string := string_rev (lstrip (string_rev s)).

Definition strip (s : string) : string := rstrip (lstrip s).

(** ** Exceptions *)

(** The classes of the exceptions this code raises or lets through. *)
Inductive exn_class : Type :=
| DeviceConnectionError_t
| CalledProcessError_t
| UnknownType_t
| UnsupportedInstanceImageType_t
| TypeError_t
| RetriesExhausted_t.

Inductive exn : Type :=
| DeviceConnectionError (msg : string)
    (* errors.DeviceConnectionError *)
| CalledProcessError (returncode : option Z) (cmd : string)
    (* subprocess.CalledProcessError(returncode, cmd) *)
| UnknownType (msg : string)
    (* errors.UnknownType *)
| UnsupportedInstanceImageType (msg : string)
    (* errors.UnsupportedInstanceImageType *)
| TypeError
    (* str.join over a list holding None *)
| RetriesExhausted (attempts : nat) (last : exn).
    (* the retry engine's failure once the attempt budget is used up *)

Definition class_of (e : exn) : exn_class :=
  match e with
  | DeviceConnectionError _ => DeviceConnectionError_t
  | CalledProcessError _ _ => CalledProcessError_t
  | UnknownType _ => UnknownType_t
  | UnsupportedInstanceImageType _ => UnsupportedInstanceImageType_t
  | TypeError => TypeError_t
  | RetriesExhausted _ _ => RetriesExhausted_t
  end.

Definition exn_class_eqb (a b : exn_class) : bool :=
  match a, b with
  | DeviceConnectionError_t, DeviceConnectionError_t
  | CalledProcessError_t, CalledProcessError_t
  | UnknownType_t, UnknownType_t
  | UnsupportedInstanceImageType_t, UnsupportedInstanceImageType_t
  | TypeError_t, TypeError_t
  | RetriesExhausted_t, RetriesExhausted_t => true
  | _, _ => false
  end.

(** [isinstance(e, exception_types)]. *)
Definition isinstance (e : exn) (exception_types : list exn_class) : bool :=
  existsb (exn_class_eqb (class_of e)) exception_types.

(** How a call ends.  [Hang] is a loop that never leaves; the loops below are
    shown to leave. *)
Inductive result (A : Type) : Type :=
| Ok (a : A)
| Raise (e : exn)
| Hang.
Arguments Ok {A} a.
Arguments Raise {A} e.
Arguments Hang {A}.

(** ** The outside world *)

(** What the code does to the outside, in order. *)
Inductive event : Type :=
| EvInfo (msg : string)          (* logger.info *)
| EvDebug (msg : string)         (* logger.debug *)
| EvPrint (msg : string)         (* print *)
| EvPopen (cmd : string)         (* subprocess.Popen(cmd, shell=True, ...) *)
| EvTimerStart (timeout : Z)     (* threading.Timer(timeout, kill).start() *)
| EvTimerCancel                  (* timer.cancel() *)
| EvStdoutClose                  (* process.stdout.close() *)
| EvSleep (secs : Z).            (* time.sleep, called by the retry engine *)

(** How a command behaves once spawned, left to itself. *)
Record Behaviour : Type := mkBehaviour {
  writes : list (Z * string);  (* (time, line) written to stdout or stderr *)
  runtime : Z;                 (* seconds until it exits on its own *)
  status : Z;                  (* the exit status it then has *)
  lag : nat                    (* poll() calls that still find it running
                                  once the reader has nothing else to do *)
}.

(** [SIGKILL], the signal [Popen.kill] sends; a process ended by signal n has
    [returncode] -n. *)
Definition SIGKILL : Z := 9.

(** A [subprocess.Popen] object: what is still to be observed of the process. *)
Record Popen : Type := mkPopen {
  stdout : list (Z * string);   (* lines not read yet, with their time *)
  exits_at : Z;                 (* when the process ends *)
  exit_status : Z;              (* the status poll() will find *)
  polls_left : nat;             (* poll() calls that still answer None *)
  returncode : option Z         (* the attribute: None until poll() reaps *)
}.

(** A write of no bytes leaves nothing in the pipe, so every line [readline]
    returns before the end of the stream is nonempty. *)
Definition Popen_of (b : Behaviour) : Popen :=
  {| stdout := filter (fun w => nonempty (snd w)) (writes b);
     exits_at := runtime b;
     exit_status := status b;
     polls_left := lag b;
     returncode := None |}.

(** The armed timer calls [process.kill] at [timeout] unless the process is
    over by then: the process ends there, by SIGKILL, and what it would have
    written later never reaches the pipe. *)
Definition arm_timer (timeout : Z) (p : Popen) : Popen :=
  if timeout <? exits_at p then
    {| stdout := filter (fun w => fst w <? timeout) (stdout p);
       exits_at := timeout;
       exit_status := - SIGKILL;
       polls_left := polls_left p;
       returncode := returncode p |}
  else p.

(** [process.stdout.readline()]: the next line, or the empty string at the end
    of the stream (the module is Python 2 code: the pipe yields [str], which
    the loop compares with the empty [str]). *)
Definition readline (p : Popen) : string * Popen :=
  match stdout p with
  | [] => (EmptyString, p)
  | (_, l) :: rest =>
      (l, {| stdout := rest; exits_at := exits_at p;
             exit_status := exit_status p; polls_left := polls_left p;
             returncode := returncode p |})
  end.

(** [process.poll()]: None while the process runs, else its return code,
    which it also stores in the attribute. *)
Definition poll (p : Popen) : option Z * Popen :=
  match polls_left p with
  | S n =>
      (None, {| stdout := stdout p; exits_at := exits_at p;
                exit_status := exit_status p; polls_left := n;
                returncode := returncode p |})
  | O =>
      (Some (exit_status p),
       {| stdout := stdout p; exits_at := exits_at p;
          exit_status := exit_status p; polls_left := O;
          returncode := Some (exit_status p) |})
  end.

(** ** The session object and the program state *)

(** [class IP]. *)
Record IP : Type := mkIP {
  external : option string;
  internal : option string
}.

Definition IP__init__ (external internal ip : option string) : IP :=
  {| external := py_or external ip;
     internal := py_or internal ip |}.

(** The attributes of [class Ssh]. *)
Record Ssh : Type := mkSsh {
  _ip : option string;
  _gce_user : string;
  _ssh_private_key_path : string;
  _extra_args_ssh_tunnel : option string
}.

(** [Ssh.__init__]. *)
Definition Ssh__init__ (ip : IP) (gce_user ssh_private_key_path : string)
    (extra_args_ssh_tunnel : option string) (report_internal_ip : bool) : Ssh :=
  {| _ip := if report_internal_ip then internal ip else external ip;
     _gce_user := gce_user;
     _ssh_private_key_path := ssh_private_key_path;
     _extra_args_ssh_tunnel := extra_args_ssh_tunnel |}.

(** The store the methods run in: the object [self] refers to, the number of
    processes spawned so far, and the trace. *)
Record State : Type := mkState {
  session : Ssh;
  spawned : nat;
  trace : list event
}.

Definition M (A : Type) : Type := State -> result A * State.

Definition ret {A : Type} (a : A) : M A := fun st => (Ok a, st).

Definition raise {A : Type} (e : exn) : M A := fun st => (Raise e, st).

Definition hang {A : Type} : M A := fun st => (Hang, st).

Definition bind {A B : Type} (m : M A) (k : A -> M B) : M B :=
  fun st =>
    match m st with
    | (Ok a, st') => k a st'
    | (Raise e, st') => (Raise e, st')
    | (Hang, st') => (Hang, st')
    end.

Declare Scope py_scope.
Delimit Scope py_scope with py.
Notation "x <- m ;; k" := (bind m (fun x => k))
  (at level 61, m at next level, right associativity) : py_scope.
Notation "m ;; k" := (bind m (fun _ => k))
  (at level 61, right associativity) : py_scope.
Local Open Scope py_scope.

Definition get_self : M Ssh := fun st => (Ok (session st), st).

Definition emit (e : event) : M unit :=
  fun st =>
    (Ok tt, {| session := session st; spawned := spawned st;
               trace := trace st ++ [e] |}).

Definition logger_info (msg : string) : M unit := emit (EvInfo msg).
Definition logger_debug (msg : string) : M unit := emit (EvDebug msg).
Definition print (msg : string) : M unit := emit (EvPrint msg).
Definition time_sleep (secs : Z) : M unit := emit (EvSleep secs).

(** One turn of a [while True:] loop either goes round again or breaks. *)
Inductive step (S : Type) : Type :=
| Continue (s : S)
| Break (s : S).
Arguments Continue {S} s.
Arguments Break {S} s.

(** [while True: body], run for at most [fuel] turns. *)
Fixpoint while_true {S : Type} (fuel : nat) (body : S -> M (step S)) (s : S)
    : M S :=
  match fuel with
  | O => hang
  | Datatypes.S fuel' =>
      r <- body s ;;
      match r with
      | Break s' => ret s'
      | Continue s' => while_true fuel' body s'
      end
  end.

(** [v == n] for [None] or an [int]. *)
Definition int_eq (v : option Z) (n : Z) : bool :=
  match v with
  | Some z => z =? n
  | None => false
  end.

Definition is_not_None {A : Type} (v : option A) : bool :=
  match v with
  | Some _ => true
  | None => false
  end.

(** [sep.join(items)]: a [TypeError] when an item is [None]. *)
Fixpoint strings_of (items : list (option string)) : option (list string) :=
  match items with
  | [] => Some []
  | None :: _ => None
  | Some s :: rest =>
      match strings_of rest with
      | Some ss => Some (s :: ss)
      | None => None
      end
  end.

Definition join (sep : string) (items : list (option string)) : M string :=
  match strings_of items with
  | Some ss => ret (String.concat sep ss)
  | None => raise TypeError
  end.

(** ** ssh.py, module level *)

Definition _SSH_CMD (rsa_key_file : string) : string :=
  ("-i " ++ rsa_key_file ++ " "
   ++ "-q -o UserKnownHostsFile=/dev/null -o StrictHostKeyChecking=no")%string.

Definition _SSH_IDENTITY (login_user : string) (ip_addr : option string)
    : string :=
  ("-l " ++ login_user ++ " " ++ str_of ip_addr)%string.

Definition _SSH_CMD_MAX_RETRY : nat := 4.

Definition _SSH_CMD_RETRY_SLEEP : Z := 3.

(** The four creator classes [create.py] imports. *)
Inductive AvdCreatorClass : Type :=
| LocalImageRemoteInstance
| LocalImageLocalInstance
| RemoteImageRemoteInstance
| RemoteImageLocalInstance.

Section Acloud.

(** The operating system: how the n-th process spawned, running [cmd],
    behaves. *)
Variable os : nat -> string -> Behaviour.

(** [distutils.spawn.find_executable]: the path of a program, or None. *)
Variable find_executable : string -> option string.

(** [acloud.internal.constants] and [utils.DEFAULT_RETRY_BACKOFF_FACTOR] are
    not among the source files: their values are parameters. *)
Variables SSH_BIN SCP_BIN : string.
Variable DEFAULT_RETRY_BACKOFF_FACTOR : Z.
Variables INSTANCE_TYPE_REMOTE INSTANCE_TYPE_LOCAL : string.
Variables IMAGE_SRC_LOCAL IMAGE_SRC_REMOTE : string.

(** [subprocess.Popen(cmd, shell=True, stdin=None, stdout=PIPE,
    stderr=STDOUT)]: stderr joins stdout, so [writes] is the one stream. *)
Definition subprocess_Popen (cmd : string) : M Popen :=
  fun st =>
    (Ok (Popen_of (os (spawned st) cmd)),
     {| session := session st; spawned := S (spawned st);
        trace := trace st ++ [EvPopen cmd] |}).

(** [timer = threading.Timer(timeout, process.kill); timer.start()]. *)
Definition Timer_start (timeout : Z) (process : Popen) : M Popen :=
  emit (EvTimerStart timeout) ;;
  ret (arm_timer timeout process).

(** [if timeout:] around the two lines above; [timeout] is then an int. *)
Definition start_timer_if (timeout : option Z) (process : Popen) : M Popen :=
  match timeout with
  | Some t => if truthy_int timeout then Timer_start t process else ret process
  | None => ret process
  end.

(** [if timeout: timer.cancel()]. *)
Definition cancel_timer_if (timeout : option Z) : M unit :=
  if truthy_int timeout then emit EvTimerCancel else ret tt.

(** Turns that are enough for either loop below: each turn that does not break
    takes a line from the pipe or uses up a poll. *)
Definition turns (process : Popen) : nat :=
  S (length (stdout process) + polls_left process).

(** The body of the loop of [_SshCall]. *)
Definition _SshCall_body (process : Popen) : M (step Popen) :=
  let '(code, process) := poll process in
  if is_not_None code then ret (Break process) else ret (Continue process).

Definition _SshCall (cmd : string) (timeout : option Z) : M (option Z) :=
  logger_info ("Running command " ++ dquote ++ cmd ++ dquote) ;;
  process <- subprocess_Popen cmd ;;
  process <- start_timer_if timeout process ;;
  process <- while_true (turns process) _SshCall_body process ;;
  cancel_timer_if timeout ;;
  emit EvStdoutClose ;;
  ret (returncode process).

(** The body of the loop of [_SshLogOutput]; [and] evaluates [poll()] only
    when the line read is empty. *)
Definition _SshLogOutput_body (show_output : bool) (process : Popen)
    : M (step Popen) :=
  let '(output, process) := readline process in
  let '(leave, process) :=
    if (output =? "")%string
    then (let '(code, process) := poll process in (is_not_None code, process))
    else (false, process) in
  if leave then ret (Break process)
  else
    (if nonempty output
     then (if show_output then print (strip output)
           else logger_debug (strip output))
     else ret tt) ;;
    ret (Continue process).

Definition _SshLogOutput (cmd : string) (timeout : option Z)
    (show_output : bool) : M unit :=
  logger_info ("Running command " ++ dquote ++ cmd ++ dquote) ;;
  process <- subprocess_Popen cmd ;;
  process <- start_timer_if timeout process ;;
  process <- while_true (turns process) (_SshLogOutput_body show_output)
               process ;;
  cancel_timer_if timeout ;;
  emit EvStdoutClose ;;
  if int_eq (returncode process) 255 then
    raise (DeviceConnectionError
             ("Failed to send command to instance (" ++ cmd ++ ")"))
  else if negb (int_eq (returncode process) 0) then
    raise (CalledProcessError (returncode process) cmd)
  else ret tt.

(** Modelled from the spec: [utils.RetryExceptionType], the retry policy engine
    (its file is not among the sources).  The engine invokes the operation
    once; on a failure whose class is retryable it sleeps
    [sleep_multiplier * retry_backoff_factor ^ (attempt - 1)] seconds, counts
    the attempt and retries while attempts remain; once none remains it
    surfaces a failure of its own that tells the number of attempts and the
    last failure; any other failure propagates at once.  [attempt] is the
    number of the running attempt, from 1, [remaining] the attempts left after
    it; the number of attempts made comes back beside the outcome. *)
Fixpoint Retry_from {A : Type} (exception_types : list exn_class)
    (sleep_multiplier retry_backoff_factor : Z) (functor : M A)
    (remaining attempt : nat) (st : State) : (result A * State) * nat :=
  match functor st with
  | (Raise e, st') =>
      if isinstance e exception_types then
        match remaining with
        | O => ((Raise (RetriesExhausted attempt e), st'), attempt)
        | S remaining' =>
            let secs :=
              sleep_multiplier
              * retry_backoff_factor ^ Z.of_nat (attempt - 1) in
            Retry_from exception_types sleep_multiplier retry_backoff_factor
              functor remaining' (S attempt) (snd (time_sleep secs st'))
        end
      else ((Raise e, st'), attempt)
  | outcome => (outcome, attempt)
  end.

(** Modelled from the spec: the entry of the engine, as [ShellCmdWithRetry]
    calls it; the first attempt has number 1 and [max_retries - 1] attempts
    remain after it.  The keyword arguments the source passes on for the
    functor ([cmd], [timeout], [show_output]) are already applied in
    [functor]. *)
Definition RetryExceptionType {A : Type} (exception_types : list exn_class)
    (max_retries : nat) (functor : M A)
    (sleep_multiplier retry_backoff_factor : Z) : M A :=
  fun st =>
    fst (Retry_from exception_types sleep_multiplier retry_backoff_factor
           functor (max_retries - 1) 1 st).

Definition ShellCmdWithRetry (cmd : string) (timeout : option Z)
    (show_output : bool) : M unit :=
  RetryExceptionType [DeviceConnectionError_t] _SSH_CMD_MAX_RETRY
    (_SshLogOutput cmd timeout show_output)
    _SSH_CMD_RETRY_SLEEP DEFAULT_RETRY_BACKOFF_FACTOR.

(** ** ssh.py, the methods of [Ssh] *)

Definition GetBaseCmd (execute_bin : string) : M string :=
  self <- get_self ;;
  let base_cmd := [find_executable execute_bin] in
  let base_cmd :=
    base_cmd ++ [Some (_SSH_CMD (_ssh_private_key_path self))] in
  let base_cmd :=
    if truthy (_extra_args_ssh_tunnel self)
    then base_cmd ++ [_extra_args_ssh_tunnel self]
    else base_cmd in
  if (execute_bin =? SSH_BIN)%string then
    let base_cmd :=
      base_cmd ++ [Some (_SSH_IDENTITY (_gce_user self) (_ip self))] in
    join " " base_cmd
  else if (execute_bin =? SCP_BIN)%string then
    join " " base_cmd
  else
    raise (UnknownType
             ("Don't support the execute bin " ++ execute_bin ++ ".")).

Definition Run (target_command : string) (timeout : option Z)
    (show_output : bool) : M unit :=
  base <- GetBaseCmd SSH_BIN ;;
  ShellCmdWithRetry (base ++ " " ++ target_command) timeout show_output.

(** [for _ in range(n): if _SshCall(cmd, timeout) == 0: return], telling
    whether it returned. *)
Fixpoint WaitForSsh_loop (n : nat) (items : list (option string))
    (timeout : option Z) : M bool :=
  match n with
  | O => ret false
  | S n' =>
      cmd <- join " " items ;;
      code <- _SshCall cmd timeout ;;
      if int_eq code 0 then ret true
      else WaitForSsh_loop n' items timeout
  end.

(** The decorator [utils.TimeExecute] (not among the sources) wraps the call
    to report its duration; the body is what follows.  The defaults are
    [timeout=20] and [max_retry=_SSH_CMD_MAX_RETRY]. *)
Definition WaitForSsh (timeout : option Z) (max_retry : nat) : M unit :=
  base <- GetBaseCmd SSH_BIN ;;
  let remote_cmd := [Some base] in
  let remote_cmd := remote_cmd ++ [Some "uptime"] in
  returned <- WaitForSsh_loop max_retry remote_cmd timeout ;;
  if returned then ret tt
  else raise (DeviceConnectionError
                "Ssh isn't ready in the remote instance.").

Definition ScpPushFile (src_file dst_file : string) : M unit :=
  self <- get_self ;;
  base <- GetBaseCmd SCP_BIN ;;
  let scp_command := [Some base] in
  let scp_command := scp_command ++ [Some src_file] in
  let scp_command :=
    scp_command
    ++ [Some (_gce_user self ++ "@" ++ str_of (_ip self) ++ ":"
              ++ dst_file)%string]
  in
  cmd <- join " " scp_command ;;
  ShellCmdWithRetry cmd None false.

Definition ScpPullFile (src_file dst_file : string) : M unit :=
  self <- get_self ;;
  base <- GetBaseCmd SCP_BIN ;;
  let scp_command := [Some base] in
  let scp_command :=
    scp_command
    ++ [Some (_gce_user self ++ "@" ++ str_of (_ip self) ++ ":"
              ++ src_file)%string]
  in
  let scp_command := scp_command ++ [Some dst_file] in
  cmd <- join " " scp_command ;;
  ShellCmdWithRetry cmd None false.

(** ** create.py *)

Definition GetAvdCreatorClass (instance_type image_source : string)
    : result AvdCreatorClass :=
  if ((instance_type =? INSTANCE_TYPE_REMOTE)
      && (image_source =? IMAGE_SRC_LOCAL))%string then
    Ok LocalImageRemoteInstance
  else if ((instance_type =? INSTANCE_TYPE_LOCAL)
           && (image_source =? IMAGE_SRC_LOCAL))%string then
    Ok LocalImageLocalInstance
  else if ((instance_type =? INSTANCE_TYPE_REMOTE)
           && (image_source =? IMAGE_SRC_REMOTE))%string then
    Ok RemoteImageRemoteInstance
  else if ((instance_type =? INSTANCE_TYPE_LOCAL)
           && (image_source =? IMAGE_SRC_REMOTE))%string then
    Ok RemoteImageLocalInstance
  else
    Raise (UnsupportedInstanceImageType
             ("unsupported creation of instance type: " ++ instance_type
              ++ ", image source: " ++ image_source)).

(** ** Vocabulary of the statements *)

(** The process object of the n-th spawn once the timer, if any, is armed. *)
Definition process_of (n : nat) (cmd : string) (timeout : option Z) : Popen :=
  match timeout with
  | Some t =>
      if truthy_int timeout then arm_timer t (Popen_of (os n cmd))
      else Popen_of (os n cmd)
  | None => Popen_of (os n cmd)
  end.

(** The return code the code reads from that process. *)
Definition returncode_of (n : nat) (cmd : string) (timeout : option Z) : Z :=
  exit_status (process_of n cmd timeout).

(** The lines its pipe delivers. *)
Definition lines_of (n : nat) (cmd : string) (timeout : option Z)
    : list string :=
  map snd (stdout (process_of n cmd timeout)).

(** Where a line of output goes. *)
Definition sink (show_output : bool) (line : string) : event :=
  if show_output then EvPrint (strip line) else EvDebug (strip line).

Definition timer_started (timeout : option Z) : list event :=
  match timeout with
  | Some t => if truthy_int timeout then [EvTimerStart t] else []
  | None => []
  end.

Definition timer_cancelled (timeout : option Z) : list event :=
  if truthy_int timeout then [EvTimerCancel] else [].

(** What one call of [_SshCall] leaves in the trace. *)
Definition call_events (cmd : string) (timeout : option Z) : list event :=
  [EvInfo ("Running command " ++ dquote ++ cmd ++ dquote); EvPopen cmd]
  ++ timer_started timeout ++ timer_cancelled timeout ++ [EvStdoutClose].

(** What one call of [_SshLogOutput] leaves in the trace when the pipe
    delivers [lines]. *)
Definition log_events (cmd : string) (timeout : option Z) (show_output : bool)
    (lines : list string) : list event :=
  [EvInfo ("Running command " ++ dquote ++ cmd ++ dquote); EvPopen cmd]
  ++ timer_started timeout ++ map (sink show_output) lines
  ++ timer_cancelled timeout ++ [EvStdoutClose].

(** The seconds slept, in order. *)
Fixpoint sleeps (tr : list event) : list Z :=
  match tr with
  | [] => []
  | EvSleep secs :: rest => secs :: sleeps rest
  | _ :: rest => sleeps rest
  end.

(** The state after [k] more spawns and the events [evs]. *)
Definition advance (st : State) (k : nat) (evs : list event) : State :=
  {| session := session st; spawned := (spawned st + k)%nat;
     trace := trace st ++ evs |}.

(** How [_SshLogOutput] ends on return code [c]. *)
Definition outcome_for (c : Z) (cmd : string) : result unit :=
  if c =? 255 then
    Raise (DeviceConnectionError
             ("Failed to send command to instance (" ++ cmd ++ ")"))
  else if c =? 0 then Ok tt
  else Raise (CalledProcessError (Some c) cmd).

Definition is_Break {S : Type} (r : result (step S)) : bool :=
  match r with
  | Ok (Break _) => true
  | _ => false
  end.

(** The public operations of a session, as calls. *)
Inductive public_call : Type :=
| CallRun (target_command : string) (timeout : option Z) (show_output : bool)
| CallGetBaseCmd (execute_bin : string)
| CallWaitForSsh (timeout : option Z) (max_retry : nat)
| CallScpPushFile (src_file dst_file : string)
| CallScpPullFile (src_file dst_file : string).

(** The state a call leaves, however it ends. *)
Definition perform (c : public_call) (st : State) : State :=
  match c with
  | CallRun target_command timeout show_output =>
      snd (Run target_command timeout show_output st)
  | CallGetBaseCmd execute_bin => snd (GetBaseCmd execute_bin st)
  | CallWaitForSsh timeout max_retry => snd (WaitForSsh timeout max_retry st)
  | CallScpPushFile src_file dst_file => snd (ScpPushFile src_file dst_file st)
  | CallScpPullFile src_file dst_file => snd (ScpPullFile src_file dst_file st)
  end.

Definition lifetime (calls : list public_call) (st : State) : State :=
  fold_left (fun s c => perform c s) calls st.

(** The combination of instance type and image source each creator class
    stands for. *)
Definition combination (c : AvdCreatorClass) : string * string :=
  match c with
  | LocalImageRemoteInstance => (INSTANCE_TYPE_REMOTE, IMAGE_SRC_LOCAL)
  | LocalImageLocalInstance => (INSTANCE_TYPE_LOCAL, IMAGE_SRC_LOCAL)
  | RemoteImageRemoteInstance => (INSTANCE_TYPE_REMOTE, IMAGE_SRC_REMOTE)
  | RemoteImageLocalInstance => (INSTANCE_TYPE_LOCAL, IMAGE_SRC_REMOTE)
  end.

(** ** The two loops leave *)

Lemma advance_0 (st : State) : advance st 0 [] = st.
Proof.
  destruct st as [se sp tr]. unfold advance. simpl.
  now rewrite Nat.add_0_r, app_nil_r.
Qed.

Lemma advance_advance (st : State) (k k' : nat) (evs evs' : list event) :
  advance (advance st k evs) k' evs' = advance st (k + k') (evs ++ evs').
Proof.
  unfold advance. simpl. now rewrite Nat.add_assoc, app_assoc.
Qed.

Lemma emit_advance (e : event) (st : State) :
  emit e st = (Ok tt, advance st 0 [e]).
Proof. unfold emit, advance. now rewrite Nat.add_0_r. Qed.

Lemma sleeps_app (l1 l2 : list event) :
  sleeps (l1 ++ l2) = sleeps l1 ++ sleeps l2.
Proof.
  induction l1 as [|e l1 IH]; simpl; [reflexivity|].
  destruct e; simpl; now rewrite IH.
Qed.

(** The process once [poll()] has found it over. *)
Definition reaped (p : Popen) : Popen :=
  {| stdout := stdout p; exits_at := exits_at p;
     exit_status := exit_status p; polls_left := O;
     returncode := Some (exit_status p) |}.

(** The same with its pipe read to the end. *)
Definition drained (p : Popen) : Popen :=
  {| stdout := []; exits_at := exits_at p;
     exit_status := exit_status p; polls_left := O;
     returncode := Some (exit_status p) |}.

Lemma while_true_S {S : Type} (fuel : nat) (body : S -> M (step S)) (s : S)
    (st : State) :
  while_true (Datatypes.S fuel) body s st
  = match body s st with
    | (Ok (Break s'), st') => (Ok s', st')
    | (Ok (Continue s'), st') => while_true fuel body s' st'
    | (Raise e, st') => (Raise e, st')
    | (Hang, st') => (Hang, st')
    end.
Proof.
  cbn [while_true]. unfold bind.
  destruct (body s st) as [[[s'|s']|e|] st']; reflexivity.
Qed.

Lemma SshCall_body_running (out : list (Z * string)) (ex es : Z) (pl : nat)
    (rc : option Z) (st : State) :
  _SshCall_body (mkPopen out ex es (S pl) rc) st
  = (Ok (Continue (mkPopen out ex es pl rc)), st).
Proof. reflexivity. Qed.

Lemma SshCall_body_over (out : list (Z * string)) (ex es : Z)
    (rc : option Z) (st : State) :
  _SshCall_body (mkPopen out ex es O rc) st
  = (Ok (Break (reaped (mkPopen out ex es O rc))), st).
Proof. reflexivity. Qed.

Lemma SshCall_loop_leaves (fuel : nat) :
  forall (p : Popen) (st : State),
    (polls_left p < fuel)%nat ->
    while_true fuel _SshCall_body p st = (Ok (reaped p), st).
Proof.
  induction fuel as [|fuel IH]; intros p st Hfuel; [lia|].
  destruct p as [out ex es pl rc]. simpl in Hfuel.
  rewrite while_true_S. destruct pl as [|pl].
  - now rewrite SshCall_body_over.
  - rewrite SshCall_body_running, IH by (simpl; lia). reflexivity.
Qed.

Lemma SshLogOutput_body_line (show_output : bool) (ts : Z) (c : ascii)
    (line : string) (out : list (Z * string)) (ex es : Z) (pl : nat)
    (rc : option Z) (st : State) :
  _SshLogOutput_body show_output
    (mkPopen ((ts, String c line) :: out) ex es pl rc) st
  = (Ok (Continue (mkPopen out ex es pl rc)),
     advance st 0 [sink show_output (String c line)]).
Proof.
  unfold _SshLogOutput_body, readline, advance, sink. cbn [stdout String.eqb].
  destruct show_output; cbn [nonempty]; unfold bind, print, logger_debug,
    emit, ret; now rewrite Nat.add_0_r.
Qed.

Lemma SshLogOutput_body_running (show_output : bool) (ex es : Z) (pl : nat)
    (rc : option Z) (st : State) :
  _SshLogOutput_body show_output (mkPopen [] ex es (S pl) rc) st
  = (Ok (Continue (mkPopen [] ex es pl rc)), st).
Proof. reflexivity. Qed.

Lemma SshLogOutput_body_over (show_output : bool) (ex es : Z)
    (rc : option Z) (st : State) :
  _SshLogOutput_body show_output (mkPopen [] ex es O rc) st
  = (Ok (Break (drained (mkPopen [] ex es O rc))), st).
Proof. reflexivity. Qed.

Lemma SshLogOutput_loop_leaves (show_output : bool) (fuel : nat) :
  forall (p : Popen) (st : State),
    (length (stdout p) + polls_left p < fuel)%nat ->
    Forall (fun w => nonempty (snd w) = true) (stdout p) ->
    while_true fuel (_SshLogOutput_body show_output) p st
    = (Ok (drained p),
       advance st 0 (map (sink show_output) (map snd (stdout p)))).
Proof.
  induction fuel as [|fuel IH]; intros p st Hfuel Hne; [lia|].
  destruct p as [out ex es pl rc]. simpl in Hfuel, Hne.
  rewrite while_true_S. destruct out as [|[ts line] out].
  - destruct pl as [|pl].
    + rewrite SshLogOutput_body_over. cbn [map stdout].
      now rewrite advance_0.
    + rewrite SshLogOutput_body_running, IH
        by (simpl in *; try lia; constructor).
      reflexivity.
  - inversion Hne as [|w l Hline Hrest]; subst. simpl in Hline.
    destruct line as [|c line]; [discriminate|].
    rewrite SshLogOutput_body_line, IH by (simpl in *; try lia; assumption).
    rewrite advance_advance. reflexivity.
Qed.

(** ** One call of [_SshCall] and of [_SshLogOutput] *)

Lemma bind_Ok {A B : Type} (m : M A) (k : A -> M B) (st st' : State) (a : A) :
  m st = (Ok a, st') -> bind m k st = k a st'.
Proof. intros H. unfold bind. now rewrite H. Qed.

Lemma subprocess_Popen_run (cmd : string) (st : State) :
  subprocess_Popen cmd st
  = (Ok (Popen_of (os (spawned st) cmd)), advance st 1 [EvPopen cmd]).
Proof. unfold subprocess_Popen, advance. now rewrite Nat.add_1_r. Qed.

Lemma start_timer_if_run (n : nat) (cmd : string) (timeout : option Z)
    (st : State) :
  start_timer_if timeout (Popen_of (os n cmd)) st
  = (Ok (process_of n cmd timeout), advance st 0 (timer_started timeout)).
Proof.
  unfold start_timer_if, process_of, timer_started.
  destruct timeout as [t|]; [destruct (truthy_int (Some t))|].
  - unfold Timer_start. now rewrite (bind_Ok _ _ _ _ _ (emit_advance _ _)).
  - now rewrite advance_0.
  - now rewrite advance_0.
Qed.

Lemma cancel_timer_if_run (timeout : option Z) (st : State) :
  cancel_timer_if timeout st = (Ok tt, advance st 0 (timer_cancelled timeout)).
Proof.
  unfold cancel_timer_if, timer_cancelled.
  destruct (truthy_int timeout); [apply emit_advance|].
  now rewrite advance_0.
Qed.

Lemma process_of_lines_nonempty (n : nat) (cmd : string) (timeout : option Z) :
  Forall (fun w => nonempty (snd w) = true) (stdout (process_of n cmd timeout)).
Proof.
  assert (H0 : Forall (fun w : Z * string => nonempty (snd w) = true)
                 (stdout (Popen_of (os n cmd)))).
  { apply Forall_forall. intros w Hw. simpl in Hw.
    now apply filter_In in Hw. }
  unfold process_of. destruct timeout as [t|]; [|exact H0].
  destruct (truthy_int (Some t)); [|exact H0].
  unfold arm_timer. destruct (t <? exits_at (Popen_of (os n cmd))); [|exact H0].
  apply Forall_forall. intros w Hw. cbn [stdout] in Hw.
  apply filter_In in Hw. destruct Hw as [Hw _].
  revert w Hw. now apply Forall_forall.
Qed.

Lemma SshCall_run (cmd : string) (timeout : option Z) (st : State) :
  _SshCall cmd timeout st
  = (Ok (Some (returncode_of (spawned st) cmd timeout)),
     advance st 1 (call_events cmd timeout)).
Proof.
  unfold _SshCall, logger_info.
  erewrite bind_Ok by apply emit_advance.
  erewrite bind_Ok by apply subprocess_Popen_run.
  erewrite bind_Ok by apply start_timer_if_run.
  erewrite bind_Ok by (apply SshCall_loop_leaves; unfold turns; lia).
  erewrite bind_Ok by apply cancel_timer_if_run.
  erewrite bind_Ok by apply emit_advance.
  unfold ret, call_events, returncode_of. rewrite !advance_advance.
  cbn [Nat.add spawned advance session trace reaped returncode].
  rewrite !Nat.add_0_r. reflexivity.
Qed.

Lemma SshLogOutput_run (cmd : string) (timeout : option Z)
    (show_output : bool) (st : State) :
  _SshLogOutput cmd timeout show_output st
  = (outcome_for (returncode_of (spawned st) cmd timeout) cmd,
     advance st 1
       (log_events cmd timeout show_output
          (lines_of (spawned st) cmd timeout))).
Proof.
  unfold _SshLogOutput, logger_info.
  erewrite bind_Ok by apply emit_advance.
  erewrite bind_Ok by apply subprocess_Popen_run.
  erewrite bind_Ok by apply start_timer_if_run.
  erewrite bind_Ok
    by (apply SshLogOutput_loop_leaves;
        [unfold turns; lia | apply process_of_lines_nonempty]).
  erewrite bind_Ok by apply cancel_timer_if_run.
  erewrite bind_Ok by apply emit_advance.
  rewrite !advance_advance.
  cbn [Nat.add spawned advance session trace drained returncode int_eq].
  rewrite !Nat.add_0_r.
  unfold outcome_for, returncode_of, log_events, lines_of, raise, ret.
  destruct (exit_status (process_of (spawned st) cmd timeout) =? 255);
    [reflexivity|].
  destruct (exit_status (process_of (spawned st) cmd timeout) =? 0);
    reflexivity.
Qed.

(** ** Interpreting the return code *)

(** C1: whatever the command, the timeout and the output flag,
    [_SshLogOutput] returns normally when the return code of the process is 0,
    raises [DeviceConnectionError] when it is 255, and raises
    [CalledProcessError] carrying the code for every other code. *)
Theorem SshLogOutput_interprets_returncode (cmd : string) (timeout : option Z)
    (show_output : bool) (st : State) :
  let c := returncode_of (spawned st) cmd timeout in
  fst (_SshLogOutput cmd timeout show_output st)
  = if c =? 0 then Ok tt
    else if c =? 255 then
      Raise (DeviceConnectionError
               ("Failed to send command to instance (" ++ cmd ++ ")"))
    else Raise (CalledProcessError (Some c) cmd).
Proof.
  intros c. rewrite SshLogOutput_run. cbn [fst]. fold c. unfold outcome_for.
  destruct (c =? 0) eqn:E0; destruct (c =? 255) eqn:E255; try reflexivity.
  apply Z.eqb_eq in E0, E255. congruence.
Qed.

(** ** Streaming the output *)

Lemma readline_poll (process : Popen) :
  fst (poll (snd (readline process))) = fst (poll process).
Proof.
  destruct process as [[|[ts l] out] ex es [|pl] rc]; reflexivity.
Qed.

Lemma filter_map_snd (f : string -> bool) (l : list (Z * string)) :
  map snd (filter (fun w => f (snd w)) l) = filter f (map snd l).
Proof.
  induction l as [|w l IH]; [reflexivity|].
  simpl. destruct (f (snd w)); simpl; now rewrite IH.
Qed.

(** C6: one turn of the loop of [_SshLogOutput] breaks exactly when the line
    read is empty and [poll()] is not None; otherwise it goes round again
    after handing a nonempty line to [print] when [show_output] is set and to
    [logger.debug] when not.  The whole call leaves, and between spawning and
    closing it forwards every line the pipe delivers, in order, however
    early the process is over; with no timer these are all the nonempty
    lines the command writes. *)
Theorem SshLogOutput_streams_output (cmd : string) (timeout : option Z)
    (show_output : bool) (st : State) (process : Popen) :
  let output := fst (readline process) in
  is_Break (fst (_SshLogOutput_body show_output process st))
  = ((output =? "")%string && is_not_None (fst (poll process)))
  /\ snd (_SshLogOutput_body show_output process st)
     = advance st 0 (if nonempty output then [sink show_output output] else [])
  /\ fst (_SshLogOutput cmd timeout show_output st) <> Hang
  /\ trace (snd (_SshLogOutput cmd timeout show_output st))
     = trace st
       ++ [EvInfo ("Running command " ++ dquote ++ cmd ++ dquote); EvPopen cmd]
       ++ timer_started timeout
       ++ map (sink show_output) (lines_of (spawned st) cmd timeout)
       ++ timer_cancelled timeout ++ [EvStdoutClose]
  /\ lines_of (spawned st) cmd None
     = filter nonempty (map snd (writes (os (spawned st) cmd))).
Proof.
  intros output. repeat split.
  - rewrite <- readline_poll. subst output.
    unfold _SshLogOutput_body.
    destruct (readline process) as [out p1]. cbn [fst snd].
    destruct out as [|c out]; cbn [String.eqb andb].
    + destruct (poll p1) as [[code|] p2]; reflexivity.
    + cbn [nonempty]. unfold bind.
      destruct show_output; reflexivity.
  - subst output. unfold _SshLogOutput_body.
    destruct (readline process) as [out p1]. cbn [fst snd].
    destruct out as [|c out]; cbn [String.eqb nonempty].
    + destruct (poll p1) as [[code|] p2]; cbn; now rewrite advance_0.
    + unfold bind, sink.
      destruct show_output; unfold print, logger_debug;
        rewrite emit_advance; reflexivity.
  - rewrite SshLogOutput_run. cbn [fst]. unfold outcome_for.
    destruct (_ =? 255); [discriminate|].
    destruct (_ =? 0); discriminate.
  - rewrite SshLogOutput_run. reflexivity.
  - unfold lines_of, process_of. cbn [Popen_of stdout].
    apply filter_map_snd.
Qed.

(** ** The retry engine *)

Section Engine.

Context {A : Type}.
Variable exception_types : list exn_class.
Variables sleep_multiplier retry_backoff_factor : Z.
Variable functor : M A.

Let retry := Retry_from exception_types sleep_multiplier retry_backoff_factor
               functor.

Lemma Retry_from_eq (remaining attempt : nat) (st : State) :
  retry remaining attempt st
  = match functor st with
    | (Raise e, st') =>
        if isinstance e exception_types then
          match remaining with
          | O => ((Raise (RetriesExhausted attempt e), st'), attempt)
          | S remaining' =>
              retry remaining' (S attempt)
                (advance st' 0
                   [EvSleep (sleep_multiplier
                             * retry_backoff_factor ^ Z.of_nat (attempt - 1))])
          end
        else ((Raise e, st'), attempt)
    | outcome => (outcome, attempt)
    end.
Proof.
  unfold retry. destruct remaining; cbn [Retry_from];
    destruct (functor st) as [[a|e|] st']; try reflexivity.
  destruct (isinstance e exception_types); [|reflexivity].
  unfold time_sleep. now rewrite emit_advance.
Qed.

(** The attempts made stay within the budget. *)
Lemma Retry_from_attempts (remaining : nat) :
  forall (attempt : nat) (st : State),
    (attempt <= snd (retry remaining attempt st) <= attempt + remaining)%nat.
Proof.
  induction remaining as [|remaining IH]; intros attempt st;
    rewrite Retry_from_eq; destruct (functor st) as [[a|e|] st'];
    cbn [snd]; try lia;
    destruct (isinstance e exception_types); cbn [snd]; try lia.
  specialize (IH (S attempt)
                (advance st' 0
                   [EvSleep (sleep_multiplier
                             * retry_backoff_factor ^ Z.of_nat (attempt - 1))])).
  lia.
Qed.


(** When each call of the operation spawns one process, as many processes
    are spawned as attempts are made. *)
Lemma Retry_from_spawned
    (Hone : forall s, spawned (snd (functor s)) = S (spawned s))
    (remaining : nat) :
  forall (attempt : nat) (st : State),
    spawned (snd (fst (retry remaining attempt st)))
    = (spawned st + (snd (retry remaining attempt st) - attempt) + 1)%nat.
Proof.
  induction remaining as [|remaining IH]; intros attempt st;
    rewrite Retry_from_eq; specialize (Hone st);
    destruct (functor st) as [[a|e|] st']; cbn [fst snd] in *;
    try lia;
    destruct (isinstance e exception_types); cbn [fst snd]; try lia.
  set (st2 := advance st' 0 _).
  rewrite IH.
  pose proof (Retry_from_attempts remaining (S attempt) st2) as Hn.
  fold retry in Hn |- *.
  subst st2. cbn [advance spawned] in *. lia.
Qed.

(** The engine leaves the session object as the operation leaves it. *)
Lemma Retry_from_session
    (Hsame : forall s, session (snd (functor s)) = session s)
    (remaining : nat) :
  forall (attempt : nat) (st : State),
    session (snd (fst (retry remaining attempt st))) = session st.
Proof.
  induction remaining as [|remaining IH]; intros attempt st;
    rewrite Retry_from_eq; specialize (Hsame st);
    destruct (functor st) as [[a|e|] st']; cbn [fst snd] in *;
    try assumption;
    destruct (isinstance e exception_types); cbn [fst snd]; try assumption.
  now rewrite IH.
Qed.

End Engine.

(** ** The retry path of [ShellCmdWithRetry] *)

Lemma sleeps_log_events (cmd : string) (timeout : option Z)
    (show_output : bool) (lines : list string) :
  sleeps (log_events cmd timeout show_output lines) = [].
Proof.
  unfold log_events. rewrite !sleeps_app.
  assert (Hlines : sleeps (map (sink show_output) lines) = []).
  { induction lines as [|l lines IH]; [reflexivity|].
    destruct show_output; exact IH. }
  rewrite Hlines. unfold timer_started, timer_cancelled.
  destruct timeout as [t|]; [destruct (truthy_int (Some t))|]; reflexivity.
Qed.

Section Shell.

Variable cmd : string.
Variable timeout : option Z.
Variable show_output : bool.

Let retry := Retry_from [DeviceConnectionError_t] _SSH_CMD_RETRY_SLEEP
               DEFAULT_RETRY_BACKOFF_FACTOR
               (_SshLogOutput cmd timeout show_output).

Lemma SshLogOutput_quiet (s : State) :
  sleeps (trace (snd (_SshLogOutput cmd timeout show_output s)))
  = sleeps (trace s).
Proof.
  rewrite SshLogOutput_run. cbn [snd advance trace].
  now rewrite sleeps_app, sleeps_log_events, app_nil_r.
Qed.

Lemma SshLogOutput_spawns_one (s : State) :
  spawned (snd (_SshLogOutput cmd timeout show_output s)) = S (spawned s).
Proof. rewrite SshLogOutput_run. cbn [snd advance spawned]. lia. Qed.

Lemma SshLogOutput_session (s : State) :
  session (snd (_SshLogOutput cmd timeout show_output s)) = session s.
Proof. now rewrite SshLogOutput_run. Qed.

Lemma outcome_for_255 :
  outcome_for 255 cmd
  = Raise (DeviceConnectionError
             ("Failed to send command to instance (" ++ cmd ++ ")")).
Proof. reflexivity. Qed.

Lemma outcome_for_other (c : Z) :
  c <> 255 ->
  outcome_for c cmd
  = if c =? 0 then Ok tt else Raise (CalledProcessError (Some c) cmd).
Proof.
  intros Hc. unfold outcome_for.
  destruct (Z.eqb_spec c 255); [contradiction|reflexivity].
Qed.

(** A first attempt that is no transport failure is the only one. *)
Lemma retry_not_255 (remaining attempt : nat) (st : State) :
  returncode_of (spawned st) cmd timeout <> 255 ->
  retry remaining attempt st
  = (_SshLogOutput cmd timeout show_output st, attempt).
Proof.
  intros Hc. unfold retry. rewrite Retry_from_eq, SshLogOutput_run.
  rewrite (outcome_for_other _ Hc).
  destruct (_ =? 0); reflexivity.
Qed.

(** A transport failure is retried while attempts remain. *)
Lemma retry_255 (remaining attempt : nat) (st : State) :
  returncode_of (spawned st) cmd timeout = 255 ->
  retry (S remaining) attempt st
  = retry remaining (S attempt)
      (advance (snd (_SshLogOutput cmd timeout show_output st)) 0
         [EvSleep (_SSH_CMD_RETRY_SLEEP
                   * DEFAULT_RETRY_BACKOFF_FACTOR ^ Z.of_nat (attempt - 1))]).
Proof.
  intros Hc. unfold retry at 1. rewrite Retry_from_eq, SshLogOutput_run.
  rewrite Hc, outcome_for_255. reflexivity.
Qed.

Lemma retry_255_last (attempt : nat) (st : State) :
  returncode_of (spawned st) cmd timeout = 255 ->
  retry 0 attempt st
  = ((Raise (RetriesExhausted attempt
               (DeviceConnectionError
                  ("Failed to send command to instance (" ++ cmd ++ ")"))),
      snd (_SshLogOutput cmd timeout show_output st)), attempt).
Proof.
  intros Hc. unfold retry. rewrite Retry_from_eq, SshLogOutput_run.
  rewrite Hc, outcome_for_255. reflexivity.
Qed.

Lemma retry_settles (k : nat) :
  forall (remaining attempt : nat) (st : State),
    (k <= remaining)%nat ->
    (forall j, (j < k)%nat ->
               returncode_of (spawned st + j) cmd timeout = 255) ->
    returncode_of (spawned st + k) cmd timeout <> 255 ->
    fst (fst (retry remaining attempt st))
    = outcome_for (returncode_of (spawned st + k) cmd timeout) cmd
    /\ snd (retry remaining attempt st) = (attempt + k)%nat.
Proof.
  induction k as [|k IH]; intros remaining attempt st Hk Hfail Hlast.
  - rewrite Nat.add_0_r in *. rewrite (retry_not_255 _ _ _ Hlast).
    rewrite SshLogOutput_run. cbn [fst snd]. split; [reflexivity|lia].
  - destruct remaining as [|remaining]; [lia|].
    assert (H0 : returncode_of (spawned st) cmd timeout = 255).
    { specialize (Hfail 0%nat). rewrite Nat.add_0_r in Hfail.
      apply Hfail. lia. }
    rewrite (retry_255 _ _ _ H0).
    set (st2 := advance _ 0 _).
    assert (Hsp : spawned st2 = S (spawned st)).
    { subst st2. cbn [advance spawned].
      rewrite SshLogOutput_spawns_one. lia. }
    destruct (IH remaining (S attempt) st2) as [Hr Hn].
    + lia.
    + intros j Hj. rewrite Hsp.
      replace (S (spawned st) + j)%nat with (spawned st + S j)%nat by lia.
      apply Hfail. lia.
    + rewrite Hsp.
      now replace (S (spawned st) + k)%nat with (spawned st + S k)%nat by lia.
    + rewrite Hr, Hn, Hsp.
      replace (S (spawned st) + k)%nat with (spawned st + S k)%nat by lia.
      split; [reflexivity|lia].
Qed.

Lemma retry_exhausts (remaining : nat) :
  forall (attempt : nat) (st : State),
    (forall j, (j <= remaining)%nat ->
               returncode_of (spawned st + j) cmd timeout = 255) ->
    fst (fst (retry remaining attempt st))
    = Raise (RetriesExhausted (attempt + remaining)
               (DeviceConnectionError
                  ("Failed to send command to instance (" ++ cmd ++ ")")))
    /\ snd (retry remaining attempt st) = (attempt + remaining)%nat.
Proof.
  induction remaining as [|remaining IH]; intros attempt st Hfail.
  - assert (H0 : returncode_of (spawned st) cmd timeout = 255).
    { specialize (Hfail 0%nat). rewrite Nat.add_0_r in Hfail.
      apply Hfail. lia. }
    rewrite (retry_255_last _ _ H0). cbn [fst snd].
    rewrite Nat.add_0_r. split; reflexivity.
  - assert (H0 : returncode_of (spawned st) cmd timeout = 255).
    { specialize (Hfail 0%nat). rewrite Nat.add_0_r in Hfail.
      apply Hfail. lia. }
    rewrite (retry_255 _ _ _ H0).
    set (st2 := advance _ 0 _).
    assert (Hsp : spawned st2 = S (spawned st)).
    { subst st2. cbn [advance spawned].
      rewrite SshLogOutput_spawns_one. lia. }
    destruct (IH (S attempt) st2) as [Hr Hn].
    + intros j Hj. rewrite Hsp.
      replace (S (spawned st) + j)%nat with (spawned st + S j)%nat by lia.
      apply Hfail. lia.
    + rewrite Hr, Hn.
      replace (S attempt + remaining)%nat with (attempt + S remaining)%nat
        by lia.
      split; reflexivity.
Qed.

End Shell.

(** ** Building the command line *)

Lemma string_app_assoc (a b c : string) :
  ((a ++ b) ++ c)%string = (a ++ b ++ c)%string.
Proof.
  induction a as [|x a IH]; [reflexivity|].
  cbn [append]. now rewrite IH.
Qed.

(** C4: with the program found at [path], [GetBaseCmd] for the shell kind
    gives the program, the identity-file flag, the options that switch
    host-key checking and the known-hosts file off, the extra tunnel arguments
    when the session has any, and then [-l user address]; for the file-copy
    kind it gives the same without the login arguments; for any other kind it
    raises [UnknownType].  The session and the trace stay as they are. *)
Theorem GetBaseCmd_by_kind (st : State) :
  let self := session st in
  let options (path : string) :=
    (path ++ " -i " ++ _ssh_private_key_path self
     ++ " -q -o UserKnownHostsFile=/dev/null -o StrictHostKeyChecking=no"
     ++ (if truthy (_extra_args_ssh_tunnel self)
         then " " ++ str_of (_extra_args_ssh_tunnel self) else ""))%string in
  (forall path,
      find_executable SSH_BIN = Some path ->
      GetBaseCmd SSH_BIN st
      = (Ok (options path ++ " -l " ++ _gce_user self ++ " "
             ++ str_of (_ip self))%string, st))
  /\ (forall path,
         SCP_BIN <> SSH_BIN ->
         find_executable SCP_BIN = Some path ->
         GetBaseCmd SCP_BIN st = (Ok (options path), st))
  /\ (forall execute_bin,
         execute_bin <> SSH_BIN -> execute_bin <> SCP_BIN ->
         GetBaseCmd execute_bin st
         = (Raise (UnknownType
                     ("Don't support the execute bin " ++ execute_bin ++ ".")),
            st)).
Proof.
  intros self options. subst options. repeat split.
  - intros path Hpath. unfold GetBaseCmd, get_self, bind. fold self.
    rewrite String.eqb_refl, Hpath. unfold _SSH_CMD, _SSH_IDENTITY.
    destruct (_extra_args_ssh_tunnel self) as [[|c extra]|];
      cbn [truthy app join strings_of String.concat str_of ret];
      rewrite ?string_app_assoc; cbn [append];
      rewrite ?string_app_assoc; reflexivity.
  - intros path Hneq Hpath. unfold GetBaseCmd, get_self, bind. fold self.
    apply String.eqb_neq in Hneq. rewrite Hneq, String.eqb_refl, Hpath.
    unfold _SSH_CMD.
    destruct (_extra_args_ssh_tunnel self) as [[|c extra]|];
      cbn [truthy app join strings_of String.concat str_of ret];
      rewrite ?string_app_assoc; cbn [append];
      rewrite ?string_app_assoc; reflexivity.
  - intros execute_bin Hssh Hscp. unfold GetBaseCmd, get_self, bind.
    apply String.eqb_neq in Hssh, Hscp. now rewrite Hssh, Hscp.
Qed.

(** ** Timeouts *)

Lemma ShellCmdWithRetry_eq (cmd : string) (timeout : option Z)
    (show_output : bool) (st : State) :
  ShellCmdWithRetry cmd timeout show_output st
  = fst (Retry_from [DeviceConnectionError_t] _SSH_CMD_RETRY_SLEEP
           DEFAULT_RETRY_BACKOFF_FACTOR (_SshLogOutput cmd timeout show_output)
           3 1 st).
Proof. reflexivity. Qed.

(** C2, as the code has it: when a timeout other than 0 is given and the
    command would run past it, the process is killed at the deadline and its
    return code is -9, the negated kill signal; [_SshLogOutput] raises
    [CalledProcessError] carrying -9, and [ShellCmdWithRetry] lets this
    through after the one attempt, with no retry.  There is no flag for a
    kill by timeout and no failure class of its own for it. *)
Theorem timed_out_command_is_killed_and_not_retried (cmd : string) (t : Z)
    (show_output : bool) (st : State) :
  t <> 0 ->
  t < runtime (os (spawned st) cmd) ->
  exits_at (process_of (spawned st) cmd (Some t)) = t
  /\ returncode_of (spawned st) cmd (Some t) = -9
  /\ fst (_SshLogOutput cmd (Some t) show_output st)
      = Raise (CalledProcessError (Some (-9)) cmd)
  /\ ShellCmdWithRetry cmd (Some t) show_output st
      = _SshLogOutput cmd (Some t) show_output st
  /\ spawned (snd (ShellCmdWithRetry cmd (Some t) show_output st))
      = S (spawned st).
Proof.
  intros Ht Hlate.
  assert (Hp : process_of (spawned st) cmd (Some t)
               = arm_timer t (Popen_of (os (spawned st) cmd))).
  { unfold process_of, truthy_int.
    destruct (Z.eqb_spec t 0); [contradiction|reflexivity]. }
  assert (Hk : (t <? exits_at (Popen_of (os (spawned st) cmd))) = true).
  { apply Z.ltb_lt. exact Hlate. }
  assert (Hrc : returncode_of (spawned st) cmd (Some t) = -9).
  { unfold returncode_of. rewrite Hp. unfold arm_timer. now rewrite Hk. }
  assert (Hone : ShellCmdWithRetry cmd (Some t) show_output st
                 = _SshLogOutput cmd (Some t) show_output st).
  { rewrite ShellCmdWithRetry_eq, retry_not_255; [reflexivity|].
    rewrite Hrc. discriminate. }
  repeat split.
  - rewrite Hp. unfold arm_timer. now rewrite Hk.
  - exact Hrc.
  - rewrite SshLogOutput_run, Hrc. reflexivity.
  - exact Hone.
  - rewrite Hone. apply SshLogOutput_spawns_one.
Qed.

(** ** Retrying *)

(** C3: [ShellCmdWithRetry] makes a further attempt only after an attempt
    whose return code is 255, and makes at most [_SSH_CMD_MAX_RETRY] attempts.
    When the first attempt ends with any other code it is the only one: the
    call is that of [_SshLogOutput], so a nonzero code comes out as
    [CalledProcessError] at once, with one process spawned and no sleep.  When
    attempt k + 1 is the first whose code is not 255 the call ends as that
    attempt does, after k + 1 processes.  When all [_SSH_CMD_MAX_RETRY]
    attempts end with 255 the call raises the engine's failure for used-up
    retries, which holds the [DeviceConnectionError].  [Run] is this call on
    the base command followed by the target command. *)
Theorem ShellCmdWithRetry_retries_only_transport_failure (cmd : string)
    (timeout : option Z) (show_output : bool) (st : State) :
  let c (j : nat) := returncode_of (spawned st + j) cmd timeout in
  let r := ShellCmdWithRetry cmd timeout show_output st in
  (c 0%nat <> 255 -> r = _SshLogOutput cmd timeout show_output st)
  /\ (c 0%nat <> 255 -> c 0%nat <> 0 ->
       fst r = Raise (CalledProcessError (Some (c 0%nat)) cmd)
       /\ spawned (snd r) = S (spawned st)
       /\ sleeps (trace (snd r)) = sleeps (trace st))
  /\ (forall k,
         (k < _SSH_CMD_MAX_RETRY)%nat ->
         (forall j, (j < k)%nat -> c j = 255) ->
         c k <> 255 ->
         fst r = (if c k =? 0 then Ok tt
                  else Raise (CalledProcessError (Some (c k)) cmd))
         /\ spawned (snd r) = (spawned st + k + 1)%nat)
  /\ ((forall j, (j < _SSH_CMD_MAX_RETRY)%nat -> c j = 255) ->
       fst r = Raise (RetriesExhausted _SSH_CMD_MAX_RETRY
                        (DeviceConnectionError
                           ("Failed to send command to instance ("
                            ++ cmd ++ ")")))
       /\ spawned (snd r) = (spawned st + _SSH_CMD_MAX_RETRY)%nat)
  /\ (forall base target_command,
         GetBaseCmd SSH_BIN st = (Ok base, st) ->
         Run target_command timeout show_output st
         = ShellCmdWithRetry (base ++ " " ++ target_command) timeout
             show_output st).
Proof.
  intros c r.
  assert (Hsp : spawned (snd r)
                = (spawned st
                   + (snd (Retry_from [DeviceConnectionError_t]
                             _SSH_CMD_RETRY_SLEEP DEFAULT_RETRY_BACKOFF_FACTOR
                             (_SshLogOutput cmd timeout show_output) 3 1 st)
                      - 1) + 1)%nat).
  { subst r. rewrite ShellCmdWithRetry_eq.
    apply Retry_from_spawned. apply SshLogOutput_spawns_one. }
  assert (Hfirst : c 0%nat <> 255 ->
                   r = _SshLogOutput cmd timeout show_output st).
  { intros H0. subst r c. cbn beta in H0. rewrite Nat.add_0_r in H0.
    rewrite ShellCmdWithRetry_eq, retry_not_255 by exact H0. reflexivity. }
  split; [exact Hfirst|]. split; [|split; [|split]].
  - intros H255 H0. rewrite (Hfirst H255).
    rewrite SshLogOutput_quiet, SshLogOutput_spawns_one, SshLogOutput_run.
    cbn [fst]. subst c. cbn beta in *. rewrite Nat.add_0_r in *.
    rewrite outcome_for_other by exact H255.
    destruct (Z.eqb_spec (returncode_of (spawned st) cmd timeout) 0);
      [contradiction|]. repeat split.
  - intros k Hk Hfail Hlast.
    destruct (retry_settles cmd timeout show_output k 3 1 st) as [Hr Hn];
      [unfold _SSH_CMD_MAX_RETRY in Hk; lia | exact Hfail | exact Hlast |].
    rewrite Hsp, Hn. subst r. rewrite ShellCmdWithRetry_eq, Hr.
    rewrite outcome_for_other by exact Hlast. split; [reflexivity|lia].
  - intros Hfail.
    destruct (retry_exhausts cmd timeout show_output 3 1 st) as [Hr Hn].
    { intros j Hj. apply Hfail. unfold _SSH_CMD_MAX_RETRY. lia. }
    rewrite Hsp, Hn. subst r. rewrite ShellCmdWithRetry_eq, Hr.
    split; [reflexivity|unfold _SSH_CMD_MAX_RETRY; lia].
  - intros base target_command Hbase. unfold Run.
    now rewrite (bind_Ok _ _ _ _ _ Hbase).
Qed.

(** ** Sleeping between attempts *)




(** ** Pushing and pulling files *)

(** C9: with [base] the command line [GetBaseCmd] builds for the file-copy
    kind, [ScpPushFile] runs [base], the local source and then
    [user@address:destination], [ScpPullFile] runs [base],
    [user@address:source] and then the local destination, each through
    [ShellCmdWithRetry] with no timeout and no shown output; [Run] goes
    through the same [ShellCmdWithRetry] with the shell kind's base followed
    by the target command. *)
Theorem scp_commands_run_through_retry (src_file dst_file : string)
    (st : State) :
  let self := session st in
  (forall base,
      GetBaseCmd SCP_BIN st = (Ok base, st) ->
      ScpPushFile src_file dst_file st
      = ShellCmdWithRetry
          (base ++ " " ++ src_file ++ " " ++ _gce_user self ++ "@"
           ++ str_of (_ip self) ++ ":" ++ dst_file) None false st)
  /\ (forall base,
         GetBaseCmd SCP_BIN st = (Ok base, st) ->
         ScpPullFile src_file dst_file st
         = ShellCmdWithRetry
             (base ++ " " ++ _gce_user self ++ "@" ++ str_of (_ip self)
              ++ ":" ++ src_file ++ " " ++ dst_file) None false st)
  /\ (forall base target_command timeout show_output,
         GetBaseCmd SSH_BIN st = (Ok base, st) ->
         Run target_command timeout show_output st
         = ShellCmdWithRetry (base ++ " " ++ target_command) timeout
             show_output st).
Proof.
  intros self. split; [|split].
  - intros base Hbase. unfold ScpPushFile, get_self.
    unfold bind at 1. rewrite (bind_Ok _ _ _ _ _ Hbase).
    cbn [app join strings_of String.concat]. unfold bind, ret.
    fold self. now rewrite ?string_app_assoc.
  - intros base Hbase. unfold ScpPullFile, get_self.
    unfold bind at 1. rewrite (bind_Ok _ _ _ _ _ Hbase).
    cbn [app join strings_of String.concat]. unfold bind, ret.
    fold self. now rewrite ?string_app_assoc.
  - intros base target_command timeout show_output Hbase. unfold Run.
    now rewrite (bind_Ok _ _ _ _ _ Hbase).
Qed.

(** ** Waiting for the SSH server *)

Section Probe.

Variable base : string.
Variable timeout : option Z.

Let cmd : string := (base ++ " uptime")%string.
Let probe (n : nat) : M bool :=
  WaitForSsh_loop n [Some base; Some "uptime"] timeout.

Lemma WaitForSsh_loop_S (n : nat) (st : State) :
  probe (S n) st
  = if returncode_of (spawned st) cmd timeout =? 0
    then (Ok true, advance st 1 (call_events cmd timeout))
    else probe n (advance st 1 (call_events cmd timeout)).
Proof.
  unfold probe. cbn [WaitForSsh_loop join strings_of String.concat].
  unfold bind at 1. unfold ret at 1. fold cmd.
  erewrite bind_Ok by apply SshCall_run. cbn [int_eq].
  destruct (_ =? 0); reflexivity.
Qed.

Lemma WaitForSsh_loop_succeeds (k : nat) :
  forall (n : nat) (st : State),
    (k < n)%nat ->
    (forall j, (j < k)%nat ->
               returncode_of (spawned st + j) cmd timeout <> 0) ->
    returncode_of (spawned st + k) cmd timeout = 0 ->
    probe n st
    = (Ok true,
       advance st (k + 1) (concat (repeat (call_events cmd timeout) (k + 1)))).
Proof.
  induction k as [|k IH]; intros n st Hk Hfail Hok;
    (destruct n as [|n]; [lia|]); rewrite WaitForSsh_loop_S.
  - rewrite Nat.add_0_r in Hok. rewrite Hok. cbn [Z.eqb Nat.add repeat concat].
    now rewrite app_nil_r.
  - assert (H0 : returncode_of (spawned st) cmd timeout <> 0).
    { specialize (Hfail 0%nat). rewrite Nat.add_0_r in Hfail.
      apply Hfail. lia. }
    apply Z.eqb_neq in H0. rewrite H0.
    rewrite IH.
    + rewrite advance_advance. reflexivity.
    + lia.
    + intros j Hj. cbn [advance spawned].
      replace (spawned st + 1 + j)%nat with (spawned st + S j)%nat by lia.
      apply Hfail. lia.
    + cbn [advance spawned].
      now replace (spawned st + 1 + k)%nat with (spawned st + S k)%nat by lia.
Qed.

Lemma WaitForSsh_loop_gives_up (n : nat) :
  forall (st : State),
    (forall j, (j < n)%nat ->
               returncode_of (spawned st + j) cmd timeout <> 0) ->
    probe n st
    = (Ok false, advance st n (concat (repeat (call_events cmd timeout) n))).
Proof.
  induction n as [|n IH]; intros st Hfail.
  - unfold probe. cbn. unfold ret. now rewrite advance_0.
  - rewrite WaitForSsh_loop_S.
    assert (H0 : returncode_of (spawned st) cmd timeout <> 0).
    { specialize (Hfail 0%nat). rewrite Nat.add_0_r in Hfail.
      apply Hfail. lia. }
    apply Z.eqb_neq in H0. rewrite H0.
    rewrite IH.
    + rewrite advance_advance. reflexivity.
    + intros j Hj. cbn [advance spawned].
      replace (spawned st + 1 + j)%nat with (spawned st + S j)%nat by lia.
      apply Hfail. lia.
Qed.

End Probe.

Lemma sleeps_call_events (cmd : string) (timeout : option Z) :
  sleeps (call_events cmd timeout) = [].
Proof.
  unfold call_events, timer_started, timer_cancelled.
  destruct timeout as [t|]; [destruct (truthy_int (Some t))|]; reflexivity.
Qed.

Lemma sleeps_repeat_call_events (cmd : string) (timeout : option Z) (n : nat) :
  sleeps (concat (repeat (call_events cmd timeout) n)) = [].
Proof.
  induction n as [|n IH]; [reflexivity|].
  cbn [repeat concat]. now rewrite sleeps_app, sleeps_call_events, IH.
Qed.

(** C5: with [base] the shell command line of the session, [WaitForSsh] calls
    [_SshCall] on [base uptime] with the timeout it was given, and nothing
    else: no sleep lies between two calls.  When call k + 1 is the first to
    return 0 (and k + 1 is within [max_retry]) it returns after exactly k + 1
    calls; when none of [max_retry] calls returns 0 it raises
    [DeviceConnectionError] after exactly [max_retry] calls. *)
Theorem WaitForSsh_probes_until_success (timeout : option Z) (max_retry : nat)
    (st : State) (base : string) :
  GetBaseCmd SSH_BIN st = (Ok base, st) ->
  let cmd := (base ++ " uptime")%string in
  let c (j : nat) := returncode_of (spawned st + j) cmd timeout in
  let r := WaitForSsh timeout max_retry st in
  let calls (n : nat) := concat (repeat (call_events cmd timeout) n) in
  (forall k,
      (k < max_retry)%nat ->
      (forall j, (j < k)%nat -> c j <> 0) ->
      c k = 0 ->
      fst r = Ok tt
      /\ spawned (snd r) = (spawned st + (k + 1))%nat
      /\ trace (snd r) = trace st ++ calls (k + 1)%nat)
  /\ ((forall j, (j < max_retry)%nat -> c j <> 0) ->
       fst r = Raise (DeviceConnectionError
                        "Ssh isn't ready in the remote instance.")
       /\ spawned (snd r) = (spawned st + max_retry)%nat
       /\ trace (snd r) = trace st ++ calls max_retry)
  /\ call_events cmd timeout
      = [EvInfo ("Running command " ++ dquote ++ cmd ++ dquote); EvPopen cmd]
        ++ timer_started timeout ++ timer_cancelled timeout ++ [EvStdoutClose]
  /\ (forall n, sleeps (calls n) = []).
Proof.
  intros Hbase cmd c r calls. split; [|split; [|split]].
  - intros k Hk Hfail Hok. subst r. unfold WaitForSsh.
    rewrite (bind_Ok _ _ _ _ _ Hbase). cbn [app].
    erewrite bind_Ok
      by (apply (WaitForSsh_loop_succeeds base timeout k); eassumption).
    repeat split.
  - intros Hfail. subst r. unfold WaitForSsh.
    rewrite (bind_Ok _ _ _ _ _ Hbase). cbn [app].
    erewrite bind_Ok
      by (apply (WaitForSsh_loop_gives_up base timeout); eassumption).
    repeat split.
  - reflexivity.
  - intros n. apply sleeps_repeat_call_events.
Qed.

(** ** The session object stays as constructed *)

(** A computation that leaves the session object alone, however it ends. *)
Definition keeps_session {A : Type} (m : M A) : Prop :=
  forall st, session (snd (m st)) = session st.

Lemma keeps_ret {A : Type} (a : A) : keeps_session (ret a).
Proof. intros st. reflexivity. Qed.

Lemma keeps_raise {A : Type} (e : exn) : keeps_session (@raise A e).
Proof. intros st. reflexivity. Qed.

Lemma keeps_get_self : keeps_session get_self.
Proof. intros st. reflexivity. Qed.

Lemma keeps_bind {A B : Type} (m : M A) (k : A -> M B) :
  keeps_session m -> (forall a, keeps_session (k a)) ->
  keeps_session (bind m k).
Proof.
  intros Hm Hk st. unfold bind. specialize (Hm st).
  destruct (m st) as [[a|e|] st']; cbn [snd] in *; try exact Hm.
  now rewrite Hk.
Qed.

Lemma keeps_join (sep : string) (items : list (option string)) :
  keeps_session (join sep items).
Proof.
  unfold join. destruct (strings_of items);
    [apply keeps_ret | apply keeps_raise].
Qed.

Lemma keeps_SshCall (cmd : string) (timeout : option Z) :
  keeps_session (_SshCall cmd timeout).
Proof. intros st. now rewrite SshCall_run. Qed.

Lemma keeps_ShellCmdWithRetry (cmd : string) (timeout : option Z)
    (show_output : bool) :
  keeps_session (ShellCmdWithRetry cmd timeout show_output).
Proof.
  intros st. rewrite ShellCmdWithRetry_eq.
  apply Retry_from_session. apply SshLogOutput_session.
Qed.

Lemma keeps_GetBaseCmd (execute_bin : string) :
  keeps_session (GetBaseCmd execute_bin).
Proof.
  unfold GetBaseCmd. apply keeps_bind; [apply keeps_get_self|].
  intros self.
  destruct (execute_bin =? SSH_BIN)%string; [apply keeps_join|].
  destruct (execute_bin =? SCP_BIN)%string;
    [apply keeps_join | apply keeps_raise].
Qed.

Lemma keeps_WaitForSsh_loop (n : nat) (items : list (option string))
    (timeout : option Z) :
  keeps_session (WaitForSsh_loop n items timeout).
Proof.
  induction n as [|n IH]; cbn [WaitForSsh_loop]; [apply keeps_ret|].
  apply keeps_bind; [apply keeps_join|]. intros cmd.
  apply keeps_bind; [apply keeps_SshCall|]. intros code.
  destruct (int_eq code 0); [apply keeps_ret | exact IH].
Qed.

Lemma keeps_perform (c : public_call) (st : State) :
  session (perform c st) = session st.
Proof.
  destruct c as [target_command timeout show_output | execute_bin
                | timeout max_retry | src_file dst_file | src_file dst_file];
    cbn [perform].
  - apply (keeps_bind (GetBaseCmd SSH_BIN)); [apply keeps_GetBaseCmd|].
    intros base. apply keeps_ShellCmdWithRetry.
  - apply keeps_GetBaseCmd.
  - apply (keeps_bind (GetBaseCmd SSH_BIN)); [apply keeps_GetBaseCmd|].
    intros base. apply keeps_bind; [apply keeps_WaitForSsh_loop|].
    intros returned. destruct returned; [apply keeps_ret | apply keeps_raise].
  - apply (keeps_bind get_self); [apply keeps_get_self|]. intros self.
    apply keeps_bind; [apply keeps_GetBaseCmd|]. intros base.
    apply keeps_bind; [apply keeps_join|]. intros cmd.
    apply keeps_ShellCmdWithRetry.
  - apply (keeps_bind get_self); [apply keeps_get_self|]. intros self.
    apply keeps_bind; [apply keeps_GetBaseCmd|]. intros base.
    apply keeps_bind; [apply keeps_join|]. intros cmd.
    apply keeps_ShellCmdWithRetry.
Qed.

(** C7: the constructor takes the internal address when
    [report_internal_ip] is set and the external one otherwise, and stores the
    user, the key path and the tunnel arguments as given; after any sequence
    of calls of [Run], [GetBaseCmd], [WaitForSsh], [ScpPushFile] and
    [ScpPullFile], however each ends, the four attributes are what the
    constructor made them. *)
Theorem session_attributes_never_change (ip : IP)
    (gce_user ssh_private_key_path : string)
    (extra_args_ssh_tunnel : option string) (report_internal_ip : bool)
    (calls : list public_call) (n : nat) (tr : list event) :
  let self :=
    Ssh__init__ ip gce_user ssh_private_key_path extra_args_ssh_tunnel
      report_internal_ip in
  let after :=
    session (lifetime calls {| session := self; spawned := n; trace := tr |}) in
  _ip self = (if report_internal_ip then internal ip else external ip)
  /\ _ip after = _ip self
  /\ _gce_user after = gce_user
  /\ _ssh_private_key_path after = ssh_private_key_path
  /\ _extra_args_ssh_tunnel after = extra_args_ssh_tunnel.
Proof.
  intros self after.
  assert (Hsame : forall st, session (lifetime calls st) = session st).
  { unfold lifetime. induction calls as [|c calls' IH]; intros st;
      [reflexivity|].
    cbn [fold_left]. rewrite IH. apply keeps_perform. }
  subst after. rewrite Hsame. cbn [session]. repeat split.
Qed.

(** ** Choosing the creator class *)

(** C10: with the two instance types distinct and the two image sources
    distinct, [GetAvdCreatorClass] returns a class exactly for the pair that
    class stands for, so each of the four combinations gets its one class;
    for every pair that is none of the four it raises
    [UnsupportedInstanceImageType]; it ends in no other way. *)
Theorem GetAvdCreatorClass_dispatch (instance_type image_source : string) :
  INSTANCE_TYPE_REMOTE <> INSTANCE_TYPE_LOCAL ->
  IMAGE_SRC_LOCAL <> IMAGE_SRC_REMOTE ->
  (forall c,
      GetAvdCreatorClass instance_type image_source = Ok c
      <-> (instance_type, image_source) = combination c)
  /\ ((forall c, (instance_type, image_source) <> combination c) ->
       GetAvdCreatorClass instance_type image_source
       = Raise (UnsupportedInstanceImageType
                  ("unsupported creation of instance type: " ++ instance_type
                   ++ ", image source: " ++ image_source)))
  /\ ((exists c, GetAvdCreatorClass instance_type image_source = Ok c)
       \/ (exists msg,
             GetAvdCreatorClass instance_type image_source
             = Raise (UnsupportedInstanceImageType msg))).
Proof.
  intros Htype Hsrc. unfold GetAvdCreatorClass.
  destruct (String.eqb_spec instance_type INSTANCE_TYPE_REMOTE) as [Er|Er];
    destruct (String.eqb_spec instance_type INSTANCE_TYPE_LOCAL) as [El|El];
    destruct (String.eqb_spec image_source IMAGE_SRC_LOCAL) as [Sl|Sl];
    destruct (String.eqb_spec image_source IMAGE_SRC_REMOTE) as [Sr|Sr];
    cbn [andb]; try congruence;
    (split; [|split]);
    try (intros c; destruct c; cbn [combination]; split; intros H;
         congruence);
    try (intros Hnone; exfalso;
         first [ apply (Hnone LocalImageRemoteInstance); cbn; congruence
               | apply (Hnone LocalImageLocalInstance); cbn; congruence
               | apply (Hnone RemoteImageRemoteInstance); cbn; congruence
               | apply (Hnone RemoteImageLocalInstance); cbn; congruence ]);
    try (left; eexists; reflexivity);
    try (right; eexists; reflexivity);
    try (intros _; reflexivity).
Qed.

(** ** Further properties of ssh.py *)

(** X1: [_SshCall] never raises: whatever the return code of the one process
    it spawns (0, 255, the -9 of a kill, anything else) it returns that code;
    it hands no line of output on, so what it leaves in the trace does not
    depend on what the command writes; the session object stays as it is. *)
Theorem SshCall_returns_any_code (cmd : string) (timeout : option Z)
    (st : State) :
  fst (_SshCall cmd timeout st)
  = Ok (Some (returncode_of (spawned st) cmd timeout))
  /\ spawned (snd (_SshCall cmd timeout st)) = S (spawned st)
  /\ trace (snd (_SshCall cmd timeout st))
      = trace st
        ++ [EvInfo ("Running command " ++ dquote ++ cmd ++ dquote);
            EvPopen cmd]
        ++ timer_started timeout ++ timer_cancelled timeout
        ++ [EvStdoutClose]
  /\ session (snd (_SshCall cmd timeout st)) = session st.
Proof.
  rewrite SshCall_run. cbn [fst snd advance spawned trace session].
  repeat split. lia.
Qed.

(** X3: a timeout of 0 is no timeout: [if timeout:] arms no timer, so both
    functions behave as with [None], and the command runs to its own end,
    however long it takes: [_SshCall] returns the command's own status and
    the pipe delivers every nonempty line the command writes. *)
Theorem timeout_0_is_no_timeout (cmd : string) (show_output : bool)
    (st : State) :
  _SshCall cmd (Some 0) st = _SshCall cmd None st
  /\ _SshLogOutput cmd (Some 0) show_output st
      = _SshLogOutput cmd None show_output st
  /\ fst (_SshCall cmd (Some 0) st)
      = Ok (Some (status (os (spawned st) cmd)))
  /\ lines_of (spawned st) cmd (Some 0)
      = filter nonempty (map snd (writes (os (spawned st) cmd))).
Proof.
  split; [reflexivity|]. split; [reflexivity|]. split.
  - rewrite SshCall_run. reflexivity.
  - unfold lines_of, process_of. cbn [truthy_int Z.eqb negb Popen_of stdout].
    apply filter_map_snd.
Qed.

Lemma GetBaseCmd_state (execute_bin : string) (st : State) :
  snd (GetBaseCmd execute_bin st) = st.
Proof.
  unfold GetBaseCmd, get_self, bind, join.
  destruct (execute_bin =? SSH_BIN)%string;
    [|destruct (execute_bin =? SCP_BIN)%string]; try reflexivity;
    destruct (strings_of _); reflexivity.
Qed.

Lemma GetBaseCmd_not_found (execute_bin : string) (st : State) :
  find_executable execute_bin = None ->
  execute_bin = SSH_BIN \/ execute_bin = SCP_BIN ->
  GetBaseCmd execute_bin st = (Raise TypeError, st).
Proof.
  intros Hnone Hkind. unfold GetBaseCmd, get_self, bind, join.
  rewrite Hnone.
  destruct (String.eqb_spec execute_bin SSH_BIN) as [E|E];
    [destruct (truthy _); reflexivity|].
  destruct (String.eqb_spec execute_bin SCP_BIN) as [E'|E'];
    [destruct (truthy _); reflexivity|].
  destruct Hkind; contradiction.
Qed.

(** X4: when the program of a known kind is not installed,
    [find_executable] gives None, [" ".join] meets it and [GetBaseCmd] raises
    [TypeError]; then [Run] and [WaitForSsh], and likewise [ScpPushFile] and
    [ScpPullFile], raise [TypeError] before anything is logged or spawned:
    the state is the one they started in. *)
Theorem missing_program_raises_TypeError (st : State) :
  (forall execute_bin,
      find_executable execute_bin = None ->
      execute_bin = SSH_BIN \/ execute_bin = SCP_BIN ->
      GetBaseCmd execute_bin st = (Raise TypeError, st))
  /\ (find_executable SSH_BIN = None ->
       (forall target_command timeout show_output,
           Run target_command timeout show_output st = (Raise TypeError, st))
       /\ (forall timeout max_retry,
              WaitForSsh timeout max_retry st = (Raise TypeError, st)))
  /\ (find_executable SCP_BIN = None ->
       forall src_file dst_file,
         ScpPushFile src_file dst_file st = (Raise TypeError, st)
         /\ ScpPullFile src_file dst_file st = (Raise TypeError, st)).
Proof.
  split; [intros b Hnone Hkind; now apply GetBaseCmd_not_found|].
  split.
  - intros Hnone.
    pose proof (GetBaseCmd_not_found SSH_BIN st Hnone (or_introl eq_refl))
      as Hbase.
    split; intros; [unfold Run | unfold WaitForSsh]; unfold bind;
      now rewrite Hbase.
  - intros Hnone src_file dst_file.
    pose proof (GetBaseCmd_not_found SCP_BIN st Hnone (or_intror eq_refl))
      as Hbase.
    split; [unfold ScpPushFile | unfold ScpPullFile];
      unfold bind at 1; unfold get_self; unfold bind; now rewrite Hbase.
Qed.

(** X5: [GetBaseCmd] only reads: however it ends, for whatever kind, the
    state is untouched, so nothing is logged and no process is spawned; and
    empty tunnel arguments count as none: the command line is the one of a
    session without tunnel arguments, with no doubled blank. *)
Theorem GetBaseCmd_only_reads (execute_bin : string) (ip : option string)
    (gce_user ssh_private_key_path : string) (n : nat) (tr : list event)
    (st : State) :
  snd (GetBaseCmd execute_bin st) = st
  /\ fst (GetBaseCmd execute_bin
            {| session := mkSsh ip gce_user ssh_private_key_path (Some "");
               spawned := n; trace := tr |})
      = fst (GetBaseCmd execute_bin
               {| session := mkSsh ip gce_user ssh_private_key_path None;
                  spawned := n; trace := tr |}).
Proof.
  split; [apply GetBaseCmd_state|].
  unfold GetBaseCmd, get_self, bind, join.
  cbn [session _extra_args_ssh_tunnel truthy].
  destruct (execute_bin =? SSH_BIN)%string;
    [|destruct (execute_bin =? SCP_BIN)%string]; try reflexivity;
    destruct (find_executable execute_bin); reflexivity.
Qed.

(** X6: the constructors [IP] and [Ssh] together: an address that is given
    is the session's address when it is the one asked for, whatever the
    default [ip] is; an address that is not given (None or empty) is
    replaced by the default; so with only the default given the session has
    it whichever address is asked for. *)
Theorem session_address_resolution (external internal ip : option string)
    (gce_user ssh_private_key_path : string)
    (extra_args_ssh_tunnel : option string) (report_internal_ip : bool) :
  let address :=
    _ip (Ssh__init__ (IP__init__ external internal ip) gce_user
           ssh_private_key_path extra_args_ssh_tunnel report_internal_ip) in
  (truthy internal = true -> report_internal_ip = true -> address = internal)
  /\ (truthy external = true -> report_internal_ip = false ->
       address = external)
  /\ (truthy internal = false -> report_internal_ip = true -> address = ip)
  /\ (truthy external = false -> report_internal_ip = false -> address = ip)
  /\ (truthy external = false -> truthy internal = false -> address = ip).
Proof.
  intros address. subst address. unfold Ssh__init__, IP__init__, py_or.
  cbn [_ip].
  repeat split; intros; subst;
    repeat match goal with
           | H : truthy _ = _ |- _ => rewrite H
           end;
    cbn; try reflexivity;
    destruct report_internal_ip; reflexivity.
Qed.

(** X7: a probe that outlives its timeout counts as a failed probe: when
    each of the [max_retry] probes would run past a timeout other than 0,
    each is killed, returns -9, and [WaitForSsh] raises
    [DeviceConnectionError] after exactly [max_retry] calls. *)
Theorem WaitForSsh_gives_up_on_hanging_probes (t : Z) (max_retry : nat)
    (st : State) (base : string) :
  GetBaseCmd SSH_BIN st = (Ok base, st) ->
  t <> 0 ->
  (forall j, (j < max_retry)%nat ->
             t < runtime (os (spawned st + j) (base ++ " uptime"))) ->
  (forall j, (j < max_retry)%nat ->
             returncode_of (spawned st + j) (base ++ " uptime") (Some t) = -9)
  /\ fst (WaitForSsh (Some t) max_retry st)
      = Raise (DeviceConnectionError "Ssh isn't ready in the remote instance.")
  /\ spawned (snd (WaitForSsh (Some t) max_retry st))
      = (spawned st + max_retry)%nat.
Proof.
  intros Hbase Ht Hlate.
  assert (Hkilled : forall j, (j < max_retry)%nat ->
             returncode_of (spawned st + j) (base ++ " uptime") (Some t)
             = -9).
  { intros j Hj. unfold returncode_of, process_of, truthy_int.
    destruct (Z.eqb_spec t 0); [contradiction|]. cbn [negb].
    unfold arm_timer. cbn [Popen_of exits_at].
    specialize (Hlate j Hj). apply Z.ltb_lt in Hlate. now rewrite Hlate. }
  split; [exact Hkilled|].
  unfold WaitForSsh. rewrite (bind_Ok _ _ _ _ _ Hbase). cbn [app].
  erewrite bind_Ok.
  2:{ apply (WaitForSsh_loop_gives_up base (Some t)).
      intros j Hj. rewrite (Hkilled j Hj). discriminate. }
  split; reflexivity.
Qed.

End Acloud.

(** ** Concrete runs *)

(** A host with both programs installed. *)
Definition host_which (program : string) : option string :=
  if (program =? "ssh")%string then Some "/usr/bin/ssh"
  else if (program =? "scp")%string then Some "/usr/bin/scp"
  else None.

(** A session on an instance with both addresses, reported by the external
    one, with extra tunnel arguments. *)
Definition cf_session : Ssh :=
  Ssh__init__ (IP__init__ (Some "35.1.2.3") (Some "10.0.0.7") None)
    "vsoc-01" "/home/dev/.ssh/acloud_rsa" (Some "-o ProxyJump=gw") false.

Definition cf_state : State :=
  {| session := cf_session; spawned := 0; trace := [] |}.

(** The command lines of that session, for the two kinds. *)
Definition cf_options : string :=
  "-q -o UserKnownHostsFile=/dev/null -o StrictHostKeyChecking=no".

Definition cf_ssh_base : string :=
  Eval cbv in
    ("/usr/bin/ssh -i /home/dev/.ssh/acloud_rsa " ++ cf_options
     ++ " -o ProxyJump=gw -l vsoc-01 35.1.2.3")%string.

Definition cf_scp_base : string :=
  Eval cbv in
    ("/usr/bin/scp -i /home/dev/.ssh/acloud_rsa " ++ cf_options
     ++ " -o ProxyJump=gw")%string.

(** A command that writes a line after one second and needs thirty. *)
Definition slow_os (n : nat) (cmd : string) : Behaviour :=
  {| writes := [(1, "starting"); (29, "done")];
     runtime := 30; status := 0; lag := 1 |}.

(** An instance whose SSH server answers from the third connection on. *)
Definition booting_os (n : nat) (cmd : string) : Behaviour :=
  {| writes := []; runtime := 1;
     status := if (n <? 2)%nat then 255 else 0; lag := 0 |}.

(** An instance that is never reached. *)
Definition unreachable_os (n : nat) (cmd : string) : Behaviour :=
  {| writes := [(0, "ssh: connect to host 35.1.2.3 port 22: refused")];
     runtime := 1; status := 255; lag := 0 |}.

(** An instance on which the command itself fails. *)
Definition failing_os (n : nat) (cmd : string) : Behaviour :=
  {| writes := [(0, "launch_cvd: no such file")];
     runtime := 1; status := 1; lag := 2 |}.

(** The claim of C2 fails on a command that runs thirty seconds under a
    timeout of twenty: [_SshLogOutput] ends with a [CalledProcessError] that
    carries the return code -9, the class a failed remote command has and not
    the class [ShellCmdWithRetry] asks to have retried; the call through
    [ShellCmdWithRetry] ends the same way after one process and no sleep. *)
Lemma timeout_is_a_command_failure_and_not_retried :
  truthy_int (Some 20) = true
  /\ (20 <? runtime (slow_os 0 "sleep 30")) = true
  /\ fst (_SshLogOutput slow_os "sleep 30" (Some 20) false cf_state)
      = Raise (CalledProcessError (Some (-9)) "sleep 30")
  /\ class_of (CalledProcessError (Some (-9)) "sleep 30")
      = CalledProcessError_t
  /\ isinstance (CalledProcessError (Some (-9)) "sleep 30")
        [DeviceConnectionError_t] = false
  /\ fst (ShellCmdWithRetry slow_os 1 "sleep 30" (Some 20) false cf_state)
      = Raise (CalledProcessError (Some (-9)) "sleep 30")
  /\ spawned (snd (ShellCmdWithRetry slow_os 1 "sleep 30" (Some 20) false
                     cf_state)) = 1%nat
  /\ sleeps (trace (snd (ShellCmdWithRetry slow_os 1 "sleep 30" (Some 20)
                           false cf_state))) = [].
Proof. repeat split. Qed.

Lemma timed_out_command_witness :
  20 <> 0
  /\ 20 < runtime (slow_os (spawned cf_state) "sleep 30")
  /\ exits_at (process_of slow_os (spawned cf_state) "sleep 30" (Some 20)) = 20
  /\ returncode_of slow_os (spawned cf_state) "sleep 30" (Some 20) = -9
  /\ fst (_SshLogOutput slow_os "sleep 30" (Some 20) false cf_state)
     = Raise (CalledProcessError (Some (-9)) "sleep 30")
  /\ ShellCmdWithRetry slow_os 1 "sleep 30" (Some 20) false cf_state
     = _SshLogOutput slow_os "sleep 30" (Some 20) false cf_state
  /\ spawned (snd (ShellCmdWithRetry slow_os 1 "sleep 30" (Some 20) false
                     cf_state)) = S (spawned cf_state).
Proof.
  split; [lia|]. split; [reflexivity|].
  apply (timed_out_command_is_killed_and_not_retried slow_os 1 "sleep 30" 20
           false cf_state); [lia | reflexivity].
Defined.

Lemma retry_only_transport_failure_witness :
  (returncode_of failing_os (spawned cf_state + 0) "launch_cvd" None <> 255
   /\ returncode_of failing_os (spawned cf_state + 0) "launch_cvd" None <> 0
   /\ ShellCmdWithRetry failing_os 1 "launch_cvd" None false cf_state
       = _SshLogOutput failing_os "launch_cvd" None false cf_state
   /\ fst (ShellCmdWithRetry failing_os 1 "launch_cvd" None false cf_state)
       = Raise (CalledProcessError (Some 1) "launch_cvd")
   /\ spawned (snd (ShellCmdWithRetry failing_os 1 "launch_cvd" None false
                      cf_state)) = 1%nat
   /\ sleeps (trace (snd (ShellCmdWithRetry failing_os 1 "launch_cvd" None
                            false cf_state))) = [])
  /\ (fst (ShellCmdWithRetry booting_os 1 "uptime" None false cf_state)
       = Ok tt
       /\ spawned (snd (ShellCmdWithRetry booting_os 1 "uptime" None false
                          cf_state)) = 3%nat)
  /\ (fst (ShellCmdWithRetry unreachable_os 1 "uptime" None false cf_state)
       = Raise (RetriesExhausted 4
                  (DeviceConnectionError
                     "Failed to send command to instance (uptime)"))
       /\ spawned (snd (ShellCmdWithRetry unreachable_os 1 "uptime" None false
                          cf_state)) = 4%nat)
  /\ (GetBaseCmd host_which "ssh" "scp" "ssh" cf_state
       = (Ok cf_ssh_base, cf_state)
       /\ Run failing_os host_which "ssh" "scp" 1 "launch_cvd" None false
            cf_state
          = ShellCmdWithRetry failing_os 1 (cf_ssh_base ++ " " ++ "launch_cvd")
              None false cf_state).
Proof.
  pose proof (ShellCmdWithRetry_retries_only_transport_failure failing_os
                host_which "ssh" "scp" 1 "launch_cvd" None false cf_state)
    as Hfail.
  pose proof (ShellCmdWithRetry_retries_only_transport_failure booting_os
                host_which "ssh" "scp" 1 "uptime" None false cf_state)
    as Hboot.
  pose proof (ShellCmdWithRetry_retries_only_transport_failure unreachable_os
                host_which "ssh" "scp" 1 "uptime" None false cf_state)
    as Hdown.
  cbv zeta in Hfail, Hboot, Hdown.
  destruct Hfail as (Hsame & Hfirst & _ & _ & Hrun).
  destruct Hboot as (_ & _ & Hthird & _).
  destruct Hdown as (_ & _ & _ & Hall & _).
  assert (H255 : returncode_of failing_os (spawned cf_state + 0) "launch_cvd"
                   None <> 255) by (vm_compute; lia).
  assert (H0 : returncode_of failing_os (spawned cf_state + 0) "launch_cvd"
                 None <> 0) by (vm_compute; lia).
  assert (Hbase : GetBaseCmd host_which "ssh" "scp" "ssh" cf_state
                  = (Ok cf_ssh_base, cf_state)) by reflexivity.
  split; [|split; [|split]].
  - split; [exact H255|]. split; [exact H0|].
    split; [exact (Hsame H255)|]. exact (Hfirst H255 H0).
  - apply (Hthird 2%nat).
    + vm_compute. lia.
    + intros j Hj. destruct j as [|[|j]]; [reflexivity | reflexivity | lia].
    + vm_compute. lia.
  - apply Hall. intros j Hj. reflexivity.
  - split; [exact Hbase|]. exact (Hrun cf_ssh_base "launch_cvd" Hbase).
Defined.

Lemma GetBaseCmd_witness :
  host_which "ssh" = Some "/usr/bin/ssh"
  /\ host_which "scp" = Some "/usr/bin/scp"
  /\ "scp" <> "ssh" /\ "rsync" <> "ssh" /\ "rsync" <> "scp"
  /\ GetBaseCmd host_which "ssh" "scp" "ssh" cf_state
      = (Ok cf_ssh_base, cf_state)
  /\ GetBaseCmd host_which "ssh" "scp" "scp" cf_state
      = (Ok cf_scp_base, cf_state)
  /\ GetBaseCmd host_which "ssh" "scp" "rsync" cf_state
      = (Raise (UnknownType "Don't support the execute bin rsync."), cf_state).
Proof.
  pose proof (GetBaseCmd_by_kind host_which "ssh" "scp" cf_state) as H.
  cbv zeta in H. destruct H as (Hssh & Hscp & Hother).
  assert (Hne : "scp" <> "ssh") by (intros E; discriminate E).
  assert (Hne1 : "rsync" <> "ssh") by (intros E; discriminate E).
  assert (Hne2 : "rsync" <> "scp") by (intros E; discriminate E).
  split; [reflexivity|]. split; [reflexivity|].
  split; [exact Hne|]. split; [exact Hne1|]. split; [exact Hne2|].
  split; [exact (Hssh "/usr/bin/ssh" eq_refl)|].
  split; [exact (Hscp "/usr/bin/scp" Hne eq_refl)|].
  exact (Hother "rsync" Hne1 Hne2).
Defined.

Lemma WaitForSsh_witness :
  GetBaseCmd host_which "ssh" "scp" "ssh" cf_state
  = (Ok cf_ssh_base, cf_state)
  /\ (fst (WaitForSsh booting_os host_which "ssh" "scp" (Some 20) 4 cf_state)
       = Ok tt
       /\ spawned (snd (WaitForSsh booting_os host_which "ssh" "scp" (Some 20)
                          4 cf_state)) = 3%nat)
  /\ (fst (WaitForSsh unreachable_os host_which "ssh" "scp" (Some 20) 4
             cf_state)
       = Raise (DeviceConnectionError
                  "Ssh isn't ready in the remote instance.")
       /\ spawned (snd (WaitForSsh unreachable_os host_which "ssh" "scp"
                          (Some 20) 4 cf_state)) = 4%nat).
Proof.
  assert (Hbase : GetBaseCmd host_which "ssh" "scp" "ssh" cf_state
                  = (Ok cf_ssh_base, cf_state)) by reflexivity.
  pose proof (WaitForSsh_probes_until_success booting_os host_which "ssh"
                "scp" (Some 20) 4 cf_state cf_ssh_base Hbase) as Hboot.
  pose proof (WaitForSsh_probes_until_success unreachable_os host_which "ssh"
                "scp" (Some 20) 4 cf_state cf_ssh_base Hbase) as Hdown.
  cbv zeta in Hboot, Hdown.
  destruct Hboot as (Hthird & _). destruct Hdown as (_ & Hnever & _).
  split; [exact Hbase|]. split.
  - destruct (Hthird 2%nat) as (Hr & Hs & _).
    + lia.
    + intros j Hj. destruct j as [|[|j]];
        [vm_compute; lia | vm_compute; lia | lia].
    + reflexivity.
    + split; [exact Hr | exact Hs].
  - destruct Hnever as (Hr & Hs & _).
    + intros j Hj. vm_compute. lia.
    + split; [exact Hr | exact Hs].
Defined.




Lemma scp_commands_witness :
  GetBaseCmd host_which "ssh" "scp" "scp" cf_state
  = (Ok cf_scp_base, cf_state)
  /\ GetBaseCmd host_which "ssh" "scp" "ssh" cf_state
     = (Ok cf_ssh_base, cf_state)
  /\ ScpPushFile failing_os host_which "ssh" "scp" 1 "/tmp/cvd-host.tar.gz"
       "cvd-host.tar.gz" cf_state
     = ShellCmdWithRetry failing_os 1
         (cf_scp_base ++ " " ++ "/tmp/cvd-host.tar.gz" ++ " "
          ++ "vsoc-01" ++ "@" ++ "35.1.2.3" ++ ":" ++ "cvd-host.tar.gz")
         None false cf_state
  /\ ScpPullFile failing_os host_which "ssh" "scp" 1 "launcher.log"
       "/tmp/launcher.log" cf_state
     = ShellCmdWithRetry failing_os 1
         (cf_scp_base ++ " " ++ "vsoc-01" ++ "@" ++ "35.1.2.3" ++ ":"
          ++ "launcher.log" ++ " " ++ "/tmp/launcher.log")
         None false cf_state
  /\ Run failing_os host_which "ssh" "scp" 1 "launch_cvd" (Some 300) true
       cf_state
     = ShellCmdWithRetry failing_os 1 (cf_ssh_base ++ " " ++ "launch_cvd")
         (Some 300) true cf_state.
Proof.
  assert (Hscp : GetBaseCmd host_which "ssh" "scp" "scp" cf_state
                 = (Ok cf_scp_base, cf_state)) by reflexivity.
  assert (Hssh : GetBaseCmd host_which "ssh" "scp" "ssh" cf_state
                 = (Ok cf_ssh_base, cf_state)) by reflexivity.
  pose proof (scp_commands_run_through_retry failing_os host_which "ssh" "scp"
                1 "/tmp/cvd-host.tar.gz" "cvd-host.tar.gz" cf_state) as Hpush.
  pose proof (scp_commands_run_through_retry failing_os host_which "ssh" "scp"
                1 "launcher.log" "/tmp/launcher.log" cf_state) as Hpull.
  cbv zeta in Hpush, Hpull.
  destruct Hpush as (Hpush & _ & Hrun). destruct Hpull as (_ & Hpull & _).
  split; [exact Hscp|]. split; [exact Hssh|].
  split; [exact (Hpush cf_scp_base Hscp)|].
  split; [exact (Hpull cf_scp_base Hscp)|].
  exact (Hrun cf_ssh_base "launch_cvd" (Some 300) true Hssh).
Defined.

Lemma GetAvdCreatorClass_witness :
  "remote" <> "local"
  /\ "local_image" <> "remote_image"
  /\ GetAvdCreatorClass "remote" "local" "local_image" "remote_image"
       "remote" "local_image" = Ok LocalImageRemoteInstance
  /\ GetAvdCreatorClass "remote" "local" "local_image" "remote_image"
       "local" "local_image" = Ok LocalImageLocalInstance
  /\ GetAvdCreatorClass "remote" "local" "local_image" "remote_image"
       "remote" "remote_image" = Ok RemoteImageRemoteInstance
  /\ GetAvdCreatorClass "remote" "local" "local_image" "remote_image"
       "local" "remote_image" = Ok RemoteImageLocalInstance
  /\ GetAvdCreatorClass "remote" "local" "local_image" "remote_image"
       "gce" "local_image"
     = Raise (UnsupportedInstanceImageType
                ("unsupported creation of instance type: gce, "
                 ++ "image source: local_image")).
Proof.
  assert (Htype : "remote" <> "local") by (intros E; discriminate E).
  assert (Hsrc : "local_image" <> "remote_image")
    by (intros E; discriminate E).
  pose proof (fun it src =>
                GetAvdCreatorClass_dispatch "remote" "local" "local_image"
                  "remote_image" it src Htype Hsrc) as H.
  split; [exact Htype|]. split; [exact Hsrc|].
  split; [apply (proj1 (H "remote" "local_image")); reflexivity|].
  split; [apply (proj1 (H "local" "local_image")); reflexivity|].
  split; [apply (proj1 (H "remote" "remote_image")); reflexivity|].
  split; [apply (proj1 (H "local" "remote_image")); reflexivity|].
  apply (proj1 (proj2 (H "gce" "local_image"))).
  intros c. destruct c; intros E; discriminate E.
Defined.

(** A host with neither program installed. *)
Definition bare_host (program : string) : option string := None.

Lemma missing_program_witness :
  bare_host "ssh" = None
  /\ bare_host "scp" = None
  /\ GetBaseCmd bare_host "ssh" "scp" "scp" cf_state
      = (Raise TypeError, cf_state)
  /\ Run slow_os bare_host "ssh" "scp" 1 "launch_cvd" (Some 300) true cf_state
      = (Raise TypeError, cf_state)
  /\ WaitForSsh slow_os bare_host "ssh" "scp" (Some 20) 4 cf_state
      = (Raise TypeError, cf_state)
  /\ ScpPushFile slow_os bare_host "ssh" "scp" 1 "/tmp/cvd-host.tar.gz"
       "cvd-host.tar.gz" cf_state
      = (Raise TypeError, cf_state)
  /\ ScpPullFile slow_os bare_host "ssh" "scp" 1 "launcher.log"
       "/tmp/launcher.log" cf_state
      = (Raise TypeError, cf_state).
Proof.
  destruct (missing_program_raises_TypeError slow_os bare_host "ssh" "scp" 1
              cf_state) as (Hbase & Hssh & Hscp).
  destruct (Hssh eq_refl) as (Hrun & Hwait).
  split; [reflexivity|]. split; [reflexivity|].
  split; [exact (Hbase "scp" eq_refl (or_intror eq_refl))|].
  split; [exact (Hrun "launch_cvd" (Some 300) true)|].
  split; [exact (Hwait (Some 20) 4%nat)|].
  split.
  - exact (proj1 (Hscp eq_refl "/tmp/cvd-host.tar.gz" "cvd-host.tar.gz")).
  - exact (proj2 (Hscp eq_refl "launcher.log" "/tmp/launcher.log")).
Defined.

Lemma session_address_witness :
  truthy (Some "10.0.0.7") = true
  /\ truthy (Some "") = false
  /\ _ip (Ssh__init__
            (IP__init__ (Some "35.1.2.3") (Some "10.0.0.7") None)
            "vsoc-01" "/home/dev/.ssh/acloud_rsa" None true)
      = Some "10.0.0.7"
  /\ _ip (Ssh__init__
            (IP__init__ (Some "") (Some "10.0.0.7") (Some "192.168.9.2"))
            "vsoc-01" "/home/dev/.ssh/acloud_rsa" None false)
      = Some "192.168.9.2"
  /\ _ip (Ssh__init__
            (IP__init__ None None (Some "192.168.9.2"))
            "vsoc-01" "/home/dev/.ssh/acloud_rsa" None true)
      = Some "192.168.9.2".
Proof.
  pose proof (session_address_resolution (Some "35.1.2.3") (Some "10.0.0.7")
                None "vsoc-01" "/home/dev/.ssh/acloud_rsa" None true)
    as Hboth.
  pose proof (session_address_resolution (Some "") (Some "10.0.0.7")
                (Some "192.168.9.2") "vsoc-01" "/home/dev/.ssh/acloud_rsa"
                None false)
    as Hinternal.
  pose proof (session_address_resolution None None (Some "192.168.9.2")
                "vsoc-01" "/home/dev/.ssh/acloud_rsa" None true)
    as Hdefault.
  cbv zeta in Hboth, Hinternal, Hdefault.
  destruct Hboth as (Hint & _).
  destruct Hinternal as (_ & _ & _ & Hext & _).
  destruct Hdefault as (_ & _ & _ & _ & Hnone).
  split; [reflexivity|]. split; [reflexivity|].
  split; [exact (Hint eq_refl eq_refl)|].
  split; [exact (Hext eq_refl eq_refl)|].
  exact (Hnone eq_refl eq_refl).
Defined.

Lemma hanging_probes_witness :
  GetBaseCmd host_which "ssh" "scp" "ssh" cf_state
  = (Ok cf_ssh_base, cf_state)
  /\ 20 <> 0
  /\ (forall j, (j < 4)%nat ->
                20 < runtime (slow_os (spawned cf_state + j)
                                (cf_ssh_base ++ " uptime")))
  /\ returncode_of slow_os (spawned cf_state + 3) (cf_ssh_base ++ " uptime")
       (Some 20) = -9
  /\ fst (WaitForSsh slow_os host_which "ssh" "scp" (Some 20) 4 cf_state)
      = Raise (DeviceConnectionError
                 "Ssh isn't ready in the remote instance.")
  /\ spawned (snd (WaitForSsh slow_os host_which "ssh" "scp" (Some 20) 4
                     cf_state)) = 4%nat.
Proof.
  assert (Hbase : GetBaseCmd host_which "ssh" "scp" "ssh" cf_state
                  = (Ok cf_ssh_base, cf_state)) by reflexivity.
  assert (Ht : 20 <> 0) by lia.
  assert (Hlate : forall j, (j < 4)%nat ->
                    20 < runtime (slow_os (spawned cf_state + j)
                                    (cf_ssh_base ++ " uptime")))
    by (intros j _; reflexivity).
  destruct (WaitForSsh_gives_up_on_hanging_probes slow_os host_which "ssh"
              "scp" 20 4 cf_state cf_ssh_base Hbase Ht Hlate)
    as (Hkilled & Hraise & Hspawned).
  split; [exact Hbase|]. split; [exact Ht|]. split; [exact Hlate|].
  split; [apply (Hkilled 3%nat); lia|].
  split; [exact Hraise | exact Hspawned].
Defined.

(** * create.py: the checks before a creation, and the run *)

Module create.

(** [args], the [argparse] namespace, with the attributes [create.py] reads
    or sets. *)
Record Namespace : Type := mkNamespace {
  autoconnect : bool;
  gcp_init : bool;
  host : bool;
  force : bool;
  local_instance : bool;
  local_image : option string;
  config_file : option string;
  report_file : option string
}.

(** The colours of [utils.TextColors] the file uses. *)
Inductive TextColors : Type := FAIL | OKGREEN | WARNING.

(** What the checks do to the outside, in order. *)
Inductive console_event : Type :=
| Asked (question : string)
    (* utils.InteractWithQuestion(question) *)
| Coloured (message : string) (colors : option TextColors)
    (end_ : option string)
    (* utils.PrintColorString(message, colors, end=...) *)
| Printed (message : string)
    (* print(message) *)
| Called (cmd : list string)
    (* subprocess.check_call(cmd, stderr=dev_null, stdout=dev_null) *)
| SetupRan (args : Namespace)
    (* setup.Run(args) *)
| SpecBuilt (args : Namespace)
    (* avd_spec.AVDSpec(args) *)
| Created (creator : AvdCreatorClass)
    (* avd_creator_class().Create(spec) *)
| Dumped (file : string).
    (* report.Dump(args.report_file) *)

(** How [subprocess.check_call] ends: exit status 0, another status (it
    raises [CalledProcessError]), or the program could not be started (it
    raises [OSError]). *)
Inductive call_outcome : Type :=
| Exit0
| ExitNonzero (code : Z)
| NotStarted.

(** What ends a call other than a return. *)
Inductive stop : Type :=
| SystemExit                 (* sys.exit() *)
| OSError                    (* from check_call, caught nowhere *)
| Raised (e : exn)           (* an exception of acloud.errors *)
| NoReturn.                  (* a loop that never leaves: none is met here *)

Inductive ending (A : Type) : Type :=
| Returned (a : A)
| Stopped (s : stop).
Arguments Returned {A} a.
Arguments Stopped {A} s.

(** The store: the namespace the functions share, and the console. *)
Record Store : Type := mkStore {
  args : Namespace;
  console : list console_event
}.

Definition CM (A : Type) : Type := Store -> ending A * Store.

Definition creturn {A : Type} (a : A) : CM A := fun st => (Returned a, st).

Definition cstop {A : Type} (s : stop) : CM A := fun st => (Stopped s, st).

Definition cbind {A B : Type} (m : CM A) (k : A -> CM B) : CM B :=
  fun st =>
    match m st with
    | (Returned a, st') => k a st'
    | (Stopped s, st') => (Stopped s, st')
    end.

Declare Scope create_scope.
Delimit Scope create_scope with create.
Notation "x <- m ;; k" := (cbind m (fun x => k))
  (at level 61, m at next level, right associativity) : create_scope.
Notation "m ;; k" := (cbind m (fun _ => k))
  (at level 61, right associativity) : create_scope.
Local Open Scope create_scope.

Definition get_args : CM Namespace := fun st => (Returned (args st), st).

Definition update_args (f : Namespace -> Namespace) : CM unit :=
  fun st => (Returned tt, {| args := f (args st); console := console st |}).

Definition say (e : console_event) : CM unit :=
  fun st =>
    (Returned tt, {| args := args st; console := console st ++ [e] |}).

Definition set_autoconnect (v : bool) (a : Namespace) : Namespace :=
  mkNamespace v (gcp_init a) (host a) (force a) (local_instance a)
    (local_image a) (config_file a) (report_file a).

Definition set_gcp_init (v : bool) (a : Namespace) : Namespace :=
  mkNamespace (autoconnect a) v (host a) (force a) (local_instance a)
    (local_image a) (config_file a) (report_file a).

Definition set_host (v : bool) (a : Namespace) : Namespace :=
  mkNamespace (autoconnect a) (gcp_init a) v (force a) (local_instance a)
    (local_image a) (config_file a) (report_file a).

Definition set_force (v : bool) (a : Namespace) : Namespace :=
  mkNamespace (autoconnect a) (gcp_init a) (host a) v (local_instance a)
    (local_image a) (config_file a) (report_file a).

(** [s.startswith("/")] and [s.endswith("/")]. *)
Definition starts_with_slash (s : string) : bool :=
  match s with
  | String c _ => Ascii.eqb c "/"
  | EmptyString => false
  end.

Fixpoint ends_with_slash (s : string) : bool :=
  match s with
  | EmptyString => false
  | String c EmptyString => Ascii.eqb c "/"
  | String _ rest => ends_with_slash rest
  end.

(** [os.path.join(a, b)] of [posixpath]. *)
Definition os_path_join (a b : string) : string :=
  if starts_with_slash b then b
  else if negb (nonempty a) || ends_with_slash a then (a ++ b)%string
  else (a ++ "/" ++ b)%string.

Definition _MAKE_CMD : string := "build/soong/soong_ui.bash".

Definition _MAKE_ARG : string := "--make-mode".

(** [v == s] for [None] or a [str]. *)
Definition str_eq (v : option string) (s : string) : bool :=
  match v with
  | Some x => (x =? s)%string
  | None => false
  end.

Section Checks.

(** [distutils.spawn.find_executable], [os.environ.get], the user at the
    prompt of [utils.InteractWithQuestion], and [subprocess.check_call]. *)
Variable find_executable : string -> option string.
Variable environ_get : string -> option string.
Variable InteractWithQuestion : string -> string.
Variable check_call : list string -> call_outcome.

(** [ShouldRun()] of [gcp_setup_runner.GcpTaskRunner(config_file)], of
    [host_setup_runner.AvdPkgInstaller()] and of
    [host_setup_runner.CuttlefishHostSetup()]; their modules are not among
    the sources. *)
Variable GcpTaskRunner_ShouldRun : option string -> bool.
Variable AvdPkgInstaller_ShouldRun : bool.
Variable CuttlefishHostSetup_ShouldRun : bool.

(** [setup.Run(args)] is not among the sources: it is taken to return, and
    this is the namespace as it leaves it. *)
Variable setup_Run : Namespace -> Namespace.

(** The constants of [acloud.internal.constants]. *)
Variables ADB_BIN ENV_ANDROID_BUILD_TOP : string.
Variable USER_ANSWER_YES : list string.
Variables INSTANCE_TYPE_REMOTE INSTANCE_TYPE_LOCAL : string.
Variables IMAGE_SRC_LOCAL IMAGE_SRC_REMOTE : string.

(** [avd_spec.AVDSpec] (not among the sources): the objects, the
    constructor, and the two attributes [Run] reads; and whether the report
    that [Create(spec)] of a creator class returns is true. *)
Variable AVDSpec_object : Type.
Variable AVDSpec : Namespace -> AVDSpec_object.
Variables instance_type image_source : AVDSpec_object -> string.
Variable Create_reports : AvdCreatorClass -> AVDSpec_object -> bool.

(** [answer in constants.USER_ANSWER_YES]. *)
Definition answer_yes (answer : string) : bool :=
  existsb (String.eqb answer) USER_ANSWER_YES.

Definition ask (question : string) : CM string :=
  say (Asked question) ;;
  creturn (InteractWithQuestion question).

(** [subprocess.check_call], inside [try: ... except CalledProcessError]:
    true when it returned, false when the handler ran; [OSError] goes
    through. *)
Definition try_check_call (cmd : list string) : CM bool :=
  say (Called cmd) ;;
  match check_call cmd with
  | Exit0 => creturn true
  | ExitNonzero _ => creturn false
  | NotStarted => cstop OSError
  end.

Definition _CheckForAutoconnect : CM unit :=
  a <- get_args ;;
  if negb (autoconnect a) || truthy (find_executable ADB_BIN) then
    creturn tt
  else
    answer <- ask ("adb is required for autoconnect, without it autoconnect "
                   ++ "will be disabled, would you like acloud to build "
                   ++ "it[y]? ") ;;
    disable_autoconnect <-
      (if answer_yes answer then
         say (Coloured "Building adb ... " None (Some "")) ;;
         let android_build_top := environ_get ENV_ANDROID_BUILD_TOP in
         if negb (truthy android_build_top) then
           say (Coloured "Fail! (Not in a lunch'd env)" (Some FAIL) None) ;;
           creturn true
         else
           let make_cmd :=
             os_path_join (str_of android_build_top) _MAKE_CMD in
           let build_adb_cmd := [make_cmd; _MAKE_ARG; "adb"] in
           built <- try_check_call build_adb_cmd ;;
           if built then
             say (Coloured "OK!" (Some OKGREEN) None) ;;
             creturn false
           else
             say (Coloured "Fail! (build failed)" (Some FAIL) None) ;;
             creturn true
       else creturn true) ;;
    if disable_autoconnect then
      say (Coloured "Disabling autoconnect" (Some WARNING) None) ;;
      update_args (set_autoconnect false)
    else creturn tt.

Definition _CheckForSetup : CM unit :=
  let run_setup := false in
  update_args (set_gcp_init false) ;;
  update_args (set_host false) ;;
  update_args (set_force false) ;;
  a <- get_args ;;
  run_setup <-
    (if negb (local_instance a) || str_eq (local_image a) "" then
       if GcpTaskRunner_ShouldRun (config_file a) then
         update_args (set_gcp_init true) ;;
         creturn true
       else creturn run_setup
     else creturn run_setup) ;;
  run_setup <-
    (if local_instance a then
       if AvdPkgInstaller_ShouldRun || CuttlefishHostSetup_ShouldRun then
         update_args (set_host true) ;;
         creturn true
       else creturn run_setup
     else creturn run_setup) ;;
  if run_setup then
    answer <- ask ("Missing necessary acloud setup, "
                   ++ "would you like to run setup[y]?") ;;
    if answer_yes answer then
      a <- get_args ;;
      say (SetupRan a) ;;
      update_args setup_Run
    else
      say (Printed "Please run '#acloud setup' so we can get your host setup")
      ;;
      cstop SystemExit
  else creturn tt.

Definition PreRunCheck : CM unit :=
  _CheckForSetup ;;
  _CheckForAutoconnect.

(** [GetAvdCreatorClass], its exception going through. *)
Definition call_GetAvdCreatorClass (instance_type image_source : string)
    : CM AvdCreatorClass :=
  match GetAvdCreatorClass INSTANCE_TYPE_REMOTE INSTANCE_TYPE_LOCAL
          IMAGE_SRC_LOCAL IMAGE_SRC_REMOTE instance_type image_source with
  | Ok c => creturn c
  | Raise e => cstop (Raised e)
  | Hang => cstop NoReturn
  end.

Definition Run : CM unit :=
  PreRunCheck ;;
  a <- get_args ;;
  say (SpecBuilt a) ;;
  let spec := AVDSpec a in
  avd_creator_class <-
    call_GetAvdCreatorClass (instance_type spec) (image_source spec) ;;
  say (Created avd_creator_class) ;;
  let report := Create_reports avd_creator_class spec in
  if report && truthy (report_file a) then
    say (Dumped (str_of (report_file a)))
  else creturn tt.

(** ** Vocabulary of the statements *)

Definition adb_question : string :=
  ("adb is required for autoconnect, without it autoconnect "
   ++ "will be disabled, would you like acloud to build it[y]? ")%string.

Definition setup_question : string :=
  "Missing necessary acloud setup, would you like to run setup[y]?".

(** The command that builds adb. *)
Definition build_adb_cmd : list string :=
  [os_path_join (str_of (environ_get ENV_ANDROID_BUILD_TOP)) _MAKE_CMD;
   "--make-mode"; "adb"].

(** adb is there, or the user had it built and the build succeeded. *)
Definition adb_available : bool :=
  truthy (find_executable ADB_BIN)
  || (answer_yes (InteractWithQuestion adb_question)
      && truthy (environ_get ENV_ANDROID_BUILD_TOP)
      && match check_call build_adb_cmd with
         | Exit0 => true
         | _ => false
         end).

(** What the checks of [_CheckForSetup] find for a namespace. *)
Definition needs_gcp (a : Namespace) : bool :=
  (negb (local_instance a) || str_eq (local_image a) "")
  && GcpTaskRunner_ShouldRun (config_file a).

Definition needs_host (a : Namespace) : bool :=
  local_instance a
  && (AvdPkgInstaller_ShouldRun || CuttlefishHostSetup_ShouldRun).

(** The namespace with the three flags as [_CheckForSetup] sets them. *)
Definition flagged (a : Namespace) : Namespace :=
  mkNamespace (autoconnect a) (needs_gcp a) (needs_host a) false
    (local_instance a) (local_image a) (config_file a) (report_file a).

(** ** The checks, case by case *)

Lemma CheckForAutoconnect_cases (st : Store) :
  _CheckForAutoconnect st
  = if negb (autoconnect (args st)) || truthy (find_executable ADB_BIN) then
      (Returned tt, st)
    else if negb (answer_yes (InteractWithQuestion adb_question)) then
      (Returned tt,
       {| args := set_autoconnect false (args st);
          console := console st
                     ++ [Asked adb_question;
                         Coloured "Disabling autoconnect" (Some WARNING)
                           None] |})
    else if negb (truthy (environ_get ENV_ANDROID_BUILD_TOP)) then
      (Returned tt,
       {| args := set_autoconnect false (args st);
          console := console st
                     ++ [Asked adb_question;
                         Coloured "Building adb ... " None (Some "");
                         Coloured "Fail! (Not in a lunch'd env)" (Some FAIL)
                           None;
                         Coloured "Disabling autoconnect" (Some WARNING)
                           None] |})
    else
      match check_call build_adb_cmd with
      | Exit0 =>
          (Returned tt,
           {| args := args st;
              console := console st
                         ++ [Asked adb_question;
                             Coloured "Building adb ... " None (Some "");
                             Called build_adb_cmd;
                             Coloured "OK!" (Some OKGREEN) None] |})
      | ExitNonzero _ =>
          (Returned tt,
           {| args := set_autoconnect false (args st);
              console := console st
                         ++ [Asked adb_question;
                             Coloured "Building adb ... " None (Some "");
                             Called build_adb_cmd;
                             Coloured "Fail! (build failed)" (Some FAIL) None;
                             Coloured "Disabling autoconnect" (Some WARNING)
                               None] |})
      | NotStarted =>
          (Stopped OSError,
           {| args := args st;
              console := console st
                         ++ [Asked adb_question;
                             Coloured "Building adb ... " None (Some "");
                             Called build_adb_cmd] |})
      end.
Proof.
  unfold _CheckForAutoconnect, adb_available, adb_question, build_adb_cmd,
    _MAKE_ARG, cbind, get_args.
  cbn [append].
  destruct (negb (autoconnect (args st)) || truthy (find_executable ADB_BIN));
    [reflexivity|].
  unfold ask, cbind, say, creturn. cbn [args console].
  destruct (answer_yes (InteractWithQuestion _)); cbn [negb].
  - destruct (truthy (environ_get ENV_ANDROID_BUILD_TOP)); cbn [negb].
    + unfold try_check_call, cbind, say. cbn [args console].
      destruct (check_call _); unfold creturn, cstop,
        update_args; cbn [args console]; rewrite <- ?app_assoc; reflexivity.
    + unfold update_args. cbn [args console].
      rewrite <- ?app_assoc. reflexivity.
  - unfold update_args. cbn [args console].
    rewrite <- ?app_assoc. reflexivity.
Qed.

Lemma CheckForSetup_cases (st : Store) :
  _CheckForSetup st
  = let a := flagged (args st) in
    if negb (needs_gcp (args st) || needs_host (args st)) then
      (Returned tt, {| args := a; console := console st |})
    else if answer_yes (InteractWithQuestion setup_question) then
      (Returned tt,
       {| args := setup_Run a;
          console := console st ++ [Asked setup_question; SetupRan a] |})
    else
      (Stopped SystemExit,
       {| args := a;
          console := console st
                     ++ [Asked setup_question;
                         Printed
                           "Please run '#acloud setup' so we can get your host setup"
                        ] |}).
Proof.
  destruct st as [[ac gi ho fo li im cf rf] out].
  unfold _CheckForSetup, flagged, needs_gcp, needs_host, ask.
  unfold cbind, update_args, get_args, creturn, say, cstop, set_gcp_init,
    set_host, set_force.
  cbn [args console autoconnect gcp_init host force local_instance
       local_image config_file report_file].
  unfold setup_question. cbn [append].
  destruct li; cbn [negb orb andb];
    destruct (str_eq im ""); cbn [negb orb andb];
    destruct (GcpTaskRunner_ShouldRun cf); cbn [negb orb andb];
    destruct AvdPkgInstaller_ShouldRun; cbn [negb orb andb];
    destruct CuttlefishHostSetup_ShouldRun; cbn [negb orb andb];
    cbn [args console autoconnect gcp_init host force local_instance
         local_image config_file report_file];
    try reflexivity;
    destruct (answer_yes (InteractWithQuestion _));
    cbn [args console]; rewrite <- ?app_assoc; reflexivity.
Qed.

Lemma CheckForAutoconnect_returned (st : Store) :
  fst (_CheckForAutoconnect st) = Returned tt ->
  autoconnect (args (snd (_CheckForAutoconnect st)))
  = autoconnect (args st) && adb_available.
Proof.
  rewrite CheckForAutoconnect_cases. unfold adb_available.
  destruct (autoconnect (args st)) eqn:Ea;
    destruct (truthy (find_executable ADB_BIN));
    cbn [negb orb andb fst snd args]; try (intros _; now rewrite Ea);
    destruct (answer_yes (InteractWithQuestion adb_question));
    cbn [negb orb andb fst snd args]; try (intros _; reflexivity);
    destruct (truthy (environ_get ENV_ANDROID_BUILD_TOP));
    cbn [negb orb andb fst snd args]; try (intros _; reflexivity);
    destruct (check_call build_adb_cmd);
    cbn [fst snd args set_autoconnect autoconnect];
    intros H; try discriminate H; try reflexivity; exact Ea.
Qed.

Lemma CheckForAutoconnect_frame (st : Store) :
  args (snd (_CheckForAutoconnect st)) = args st
  \/ args (snd (_CheckForAutoconnect st)) = set_autoconnect false (args st).
Proof.
  rewrite CheckForAutoconnect_cases.
  destruct (negb (autoconnect (args st)) || truthy (find_executable ADB_BIN));
    [now left|].
  destruct (negb (answer_yes (InteractWithQuestion adb_question)));
    [now right|].
  destruct (negb (truthy (environ_get ENV_ANDROID_BUILD_TOP)));
    [now right|].
  destruct (check_call build_adb_cmd); [now left | now right | now left].
Qed.

(** X8: [_CheckForAutoconnect] never switches autoconnect on and touches no
    other attribute of the namespace; when autoconnect is off, or adb is
    found, it asks nothing, prints nothing and changes nothing. *)
Theorem CheckForAutoconnect_never_enables (st : Store) :
  let r := _CheckForAutoconnect st in
  (args (snd r) = args st
   \/ args (snd r) = set_autoconnect false (args st))
  /\ (autoconnect (args (snd r)) = true -> autoconnect (args st) = true)
  /\ (autoconnect (args st) = false -> r = (Returned tt, st))
  /\ (truthy (find_executable ADB_BIN) = true -> r = (Returned tt, st)).
Proof.
  intros r. subst r. split; [apply CheckForAutoconnect_frame|].
  split; [|split].
  - destruct (CheckForAutoconnect_frame st) as [H|H]; rewrite H;
      [tauto|]. cbn. discriminate.
  - intros Hoff. rewrite CheckForAutoconnect_cases, Hoff. reflexivity.
  - intros Hadb. rewrite CheckForAutoconnect_cases, Hadb.
    now rewrite orb_true_r.
Qed.

(** X9: when [_CheckForAutoconnect] returns, autoconnect is still set exactly
    when it was set and adb is available: found, or built on the user's yes,
    with ANDROID_BUILD_TOP set, by a [soong_ui.bash --make-mode adb] that
    exits with 0.  It does not return only when that build cannot be
    started: the [OSError] is caught nowhere, and autoconnect stays as it
    was. *)
Theorem CheckForAutoconnect_outcome (st : Store) :
  let r := _CheckForAutoconnect st in
  (fst r = Returned tt ->
   autoconnect (args (snd r)) = autoconnect (args st) && adb_available)
  /\ (fst r <> Returned tt ->
       fst r = Stopped OSError
       /\ check_call build_adb_cmd = NotStarted
       /\ args (snd r) = args st
       /\ autoconnect (args st) = true)
  /\ build_adb_cmd
      = [os_path_join (str_of (environ_get ENV_ANDROID_BUILD_TOP))
           "build/soong/soong_ui.bash"; "--make-mode"; "adb"].
Proof.
  intros r. subst r. split; [apply CheckForAutoconnect_returned|].
  split; [|reflexivity].
  rewrite CheckForAutoconnect_cases.
  destruct (autoconnect (args st)); cbn [negb orb];
    [|intros H; now contradiction H].
  destruct (truthy (find_executable ADB_BIN));
    [intros H; now contradiction H|].
  destruct (negb (answer_yes (InteractWithQuestion adb_question)));
    [intros H; now contradiction H|].
  destruct (negb (truthy (environ_get ENV_ANDROID_BUILD_TOP)));
    [intros H; now contradiction H|].
  destruct (check_call build_adb_cmd);
    intros H; try (now contradiction H). repeat split.
Qed.

(** X10: [_CheckForSetup] first clears [gcp_init], [host] and [force], then
    sets [gcp_init] exactly when the instance is remote or the local image is
    the empty string, and the GCP runner says it should run, and [host]
    exactly when the instance is local and a host runner says so; [force]
    stays off and no other attribute changes.  With nothing to set up it asks
    nothing.  Otherwise it asks once: on a yes it runs setup on that
    namespace, on anything else it prints the hint and exits, setup not
    run. *)
Theorem CheckForSetup_flags_and_prompt (st : Store) :
  let a := flagged (args st) in
  let needed := needs_gcp (args st) || needs_host (args st) in
  let yes := answer_yes (InteractWithQuestion setup_question) in
  let r := _CheckForSetup st in
  (needed = false ->
   r = (Returned tt, {| args := a; console := console st |}))
  /\ (needed = true -> yes = true ->
       r = (Returned tt,
            {| args := setup_Run a;
               console := console st ++ [Asked setup_question; SetupRan a]
            |}))
  /\ (needed = true -> yes = false ->
       r = (Stopped SystemExit,
            {| args := a;
               console :=
                 console st
                 ++ [Asked setup_question;
                     Printed
                       "Please run '#acloud setup' so we can get your host setup"
                    ] |}))
  /\ (local_instance (args st) = true ->
       str_eq (local_image (args st)) "" = false -> gcp_init a = false)
  /\ (local_instance (args st) = false -> host a = false)
  /\ force a = false.
Proof.
  intros a needed yes r. subst a needed yes r.
  rewrite CheckForSetup_cases. cbv zeta.
  split; [intros ->; reflexivity|].
  split; [intros -> ->; reflexivity|].
  split; [intros -> ->; reflexivity|].
  split; [|split; [|reflexivity]].
  - intros Hl He. cbn [flagged gcp_init]. unfold needs_gcp.
    now rewrite Hl, He.
  - intros Hl. cbn [flagged host]. unfold needs_host. now rewrite Hl.
Qed.

(** X11: [PreRunCheck] runs the autoconnect check only when the setup check
    returns: when setup is needed and the user does not say yes, the exit
    goes through and the question about adb is never asked.  And when
    [PreRunCheck] returns with autoconnect set, adb is available, whatever
    setup did. *)
Theorem PreRunCheck_order (st : Store) :
  let r := PreRunCheck st in
  (forall s, fst (_CheckForSetup st) = Stopped s ->
             r = (Stopped s, snd (_CheckForSetup st)))
  /\ (needs_gcp (args st) || needs_host (args st) = true ->
       answer_yes (InteractWithQuestion setup_question) = false ->
       fst r = Stopped SystemExit
       /\ console (snd r)
           = console st
             ++ [Asked setup_question;
                 Printed
                   "Please run '#acloud setup' so we can get your host setup"]
       /\ autoconnect (args (snd r)) = autoconnect (args st))
  /\ (fst r = Returned tt -> autoconnect (args (snd r)) = true ->
       adb_available = true).
Proof.
  intros r. subst r. unfold PreRunCheck, cbind. split; [|split].
  - intros s Hs. destruct (_CheckForSetup st) as [[[]|s'] st1];
      cbn [fst snd] in *; [discriminate|]. now injection Hs as ->.
  - intros Hneed Hno. rewrite CheckForSetup_cases. cbv zeta.
    rewrite Hneed, Hno. cbn. repeat split.
  - destruct (_CheckForSetup st) as [[[]|s'] st1]; cbn [fst snd].
    + intros Hret Hauto.
      rewrite (CheckForAutoconnect_returned st1 Hret) in Hauto.
      apply andb_true_iff in Hauto. tauto.
    + discriminate.
Qed.

Lemma GetAvdCreatorClass_known (c : AvdCreatorClass) :
  INSTANCE_TYPE_REMOTE <> INSTANCE_TYPE_LOCAL ->
  IMAGE_SRC_LOCAL <> IMAGE_SRC_REMOTE ->
  GetAvdCreatorClass INSTANCE_TYPE_REMOTE INSTANCE_TYPE_LOCAL IMAGE_SRC_LOCAL
    IMAGE_SRC_REMOTE
    (fst (combination INSTANCE_TYPE_REMOTE INSTANCE_TYPE_LOCAL IMAGE_SRC_LOCAL
            IMAGE_SRC_REMOTE c))
    (snd (combination INSTANCE_TYPE_REMOTE INSTANCE_TYPE_LOCAL IMAGE_SRC_LOCAL
            IMAGE_SRC_REMOTE c))
  = Ok c.
Proof.
  intros Htype Hsrc. unfold GetAvdCreatorClass.
  assert (Htype' : INSTANCE_TYPE_LOCAL <> INSTANCE_TYPE_REMOTE)
    by congruence.
  assert (Hsrc' : IMAGE_SRC_REMOTE <> IMAGE_SRC_LOCAL) by congruence.
  apply String.eqb_neq in Htype, Hsrc, Htype', Hsrc'.
  destruct c; cbn [combination fst snd];
    rewrite ?String.eqb_refl, ?Htype, ?Hsrc, ?Htype', ?Hsrc';
    reflexivity.
Qed.

Lemma GetAvdCreatorClass_unknown (it src : string) :
  (forall c, (it, src)
             <> combination INSTANCE_TYPE_REMOTE INSTANCE_TYPE_LOCAL
                  IMAGE_SRC_LOCAL IMAGE_SRC_REMOTE c) ->
  GetAvdCreatorClass INSTANCE_TYPE_REMOTE INSTANCE_TYPE_LOCAL IMAGE_SRC_LOCAL
    IMAGE_SRC_REMOTE it src
  = Raise (UnsupportedInstanceImageType
             ("unsupported creation of instance type: " ++ it
              ++ ", image source: " ++ src)).
Proof.
  intros Hnone. unfold GetAvdCreatorClass.
  destruct (String.eqb_spec it INSTANCE_TYPE_REMOTE) as [Er|Er];
    destruct (String.eqb_spec it INSTANCE_TYPE_LOCAL) as [El|El];
    destruct (String.eqb_spec src IMAGE_SRC_LOCAL) as [Sl|Sl];
    destruct (String.eqb_spec src IMAGE_SRC_REMOTE) as [Sr|Sr];
    cbn [andb]; try reflexivity; exfalso;
    first [ apply (Hnone LocalImageRemoteInstance); cbn; congruence
          | apply (Hnone LocalImageLocalInstance); cbn; congruence
          | apply (Hnone RemoteImageRemoteInstance); cbn; congruence
          | apply (Hnone RemoteImageLocalInstance); cbn; congruence ].
Qed.

(** X12: [Run] creates nothing unless [PreRunCheck] returns and the spec's
    pair of instance type and image source is one of the four: when
    [PreRunCheck] stops, [Run] stops the same way with nothing more done;
    for a pair that is none of the four it raises
    [UnsupportedInstanceImageType] once the spec is built, no creator run;
    for the pair of a class it runs that class on the spec built from the
    namespace as [PreRunCheck] left it, and dumps the report exactly when
    the report is true and a report file is given. *)
Theorem Run_creates_only_after_checks (st : Store) :
  let r1 := PreRunCheck st in
  let a1 := args (snd r1) in
  let spec := AVDSpec a1 in
  let pair := (instance_type spec, image_source spec) in
  let known := combination INSTANCE_TYPE_REMOTE INSTANCE_TYPE_LOCAL
                 IMAGE_SRC_LOCAL IMAGE_SRC_REMOTE in
  (forall s, fst r1 = Stopped s -> Run st = (Stopped s, snd r1))
  /\ (fst r1 = Returned tt ->
       (forall c, pair <> known c) ->
       Run st
       = (Stopped
            (Raised
               (UnsupportedInstanceImageType
                  ("unsupported creation of instance type: "
                   ++ instance_type spec ++ ", image source: "
                   ++ image_source spec))),
          {| args := a1; console := console (snd r1) ++ [SpecBuilt a1] |}))
  /\ (INSTANCE_TYPE_REMOTE <> INSTANCE_TYPE_LOCAL ->
       IMAGE_SRC_LOCAL <> IMAGE_SRC_REMOTE ->
       forall c,
         fst r1 = Returned tt ->
         pair = known c ->
         Run st
         = (Returned tt,
            {| args := a1;
               console :=
                 console (snd r1)
                 ++ [SpecBuilt a1; Created c]
                 ++ (if Create_reports c spec && truthy (report_file a1)
                     then [Dumped (str_of (report_file a1))] else []) |})).
Proof.
  intros r1 a1 spec pair known. subst r1 a1 spec pair known.
  unfold Run, cbind, get_args, say, call_GetAvdCreatorClass. cbv beta.
  destruct (PreRunCheck st) as [[[]|s'] st1]; cbn [fst snd].
  - split; [discriminate|]. split.
    + intros _ Hnone. cbn [args console].
      rewrite (GetAvdCreatorClass_unknown _ _ Hnone). reflexivity.
    + intros Htype Hsrc c _ Hpair. cbn [args console].
      pose proof (GetAvdCreatorClass_known c Htype Hsrc) as Hc.
      rewrite <- Hpair in Hc. cbn [fst snd] in Hc. rewrite Hc.
      unfold creturn. cbn [args console].
      destruct (Create_reports c (AVDSpec (args st1))
                && truthy (report_file (args st1)));
        cbn [args console]; rewrite <- ?app_assoc; cbn [app];
        rewrite ?app_nil_r; reflexivity.
  - split; [intros s Hs; now injection Hs as ->|].
    split; [discriminate|]. intros _ _ c H. discriminate H.
Qed.

End Checks.

(** ** Concrete runs *)

(** A host without adb, and one with it. *)
Definition no_adb (program : string) : option string := None.

Definition with_adb (program : string) : option string :=
  if (program =? "adb")%string then Some "/usr/bin/adb" else None.

(** The environment after lunch. *)
Definition lunched (name : string) : option string :=
  if (name =? "ANDROID_BUILD_TOP")%string then Some "/src/aosp" else None.

(** A user who answers every question the same way. *)
Definition always (answer question : string) : string := answer.

(** A build that succeeds, and a build script that cannot be started. *)
Definition build_ok (cmd : list string) : call_outcome := Exit0.

Definition build_not_started (cmd : list string) : call_outcome :=
  NotStarted.

(** A host on which the GCP setup is due for every config file. *)
Definition gcp_due (config_file : option string) : bool := true.

Definition gcp_done (config_file : option string) : bool := false.

(** A setup that leaves the namespace as it finds it. *)
Definition setup_keeps (a : Namespace) : Namespace := a.

Definition yes_answers : list string := ["y"; "Y"; "yes"; "Yes"].

(** [acloud create --autoconnect] for a remote instance. *)
Definition remote_args : Namespace :=
  {| autoconnect := true; gcp_init := true; host := true; force := true;
     local_instance := false; local_image := None; config_file := None;
     report_file := Some "/tmp/report.json" |}.

Definition remote_store : Store := {| args := remote_args; console := [] |}.

Definition quiet_store : Store :=
  {| args := set_autoconnect false remote_args; console := [] |}.

(** A spec that is its instance type and its image source. *)
Definition spec_of (it src : string) (a : Namespace) : string * string :=
  (it, src).

Definition always_reports (c : AvdCreatorClass) (spec : string * string)
    : bool := true.

Lemma CheckForAutoconnect_never_enables_witness :
  autoconnect (args quiet_store) = false
  /\ truthy (with_adb "adb") = true
  /\ _CheckForAutoconnect no_adb lunched (always "n") build_ok "adb"
       "ANDROID_BUILD_TOP" yes_answers quiet_store
      = (Returned tt, quiet_store)
  /\ _CheckForAutoconnect with_adb lunched (always "n") build_ok "adb"
       "ANDROID_BUILD_TOP" yes_answers remote_store
      = (Returned tt, remote_store).
Proof.
  pose proof (CheckForAutoconnect_never_enables no_adb lunched (always "n")
                build_ok "adb" "ANDROID_BUILD_TOP" yes_answers quiet_store)
    as Hoff.
  pose proof (CheckForAutoconnect_never_enables with_adb lunched (always "n")
                build_ok "adb" "ANDROID_BUILD_TOP" yes_answers remote_store)
    as Hadb.
  cbv zeta in Hoff, Hadb.
  destruct Hoff as (_ & _ & Hoff & _). destruct Hadb as (_ & _ & _ & Hadb).
  split; [reflexivity|]. split; [reflexivity|].
  split; [exact (Hoff eq_refl) | exact (Hadb eq_refl)].
Defined.

Lemma CheckForAutoconnect_outcome_witness :
  (fst (_CheckForAutoconnect no_adb lunched (always "y") build_ok "adb"
          "ANDROID_BUILD_TOP" yes_answers remote_store) = Returned tt
   /\ autoconnect
        (args (snd (_CheckForAutoconnect no_adb lunched (always "y") build_ok
                      "adb" "ANDROID_BUILD_TOP" yes_answers remote_store)))
      = true)
  /\ (fst (_CheckForAutoconnect no_adb lunched (always "n") build_ok "adb"
             "ANDROID_BUILD_TOP" yes_answers remote_store) = Returned tt
      /\ autoconnect
           (args (snd (_CheckForAutoconnect no_adb lunched (always "n")
                         build_ok "adb" "ANDROID_BUILD_TOP" yes_answers
                         remote_store)))
         = false)
  /\ (fst (_CheckForAutoconnect no_adb lunched (always "y") build_not_started
             "adb" "ANDROID_BUILD_TOP" yes_answers remote_store)
      <> Returned tt
      /\ fst (_CheckForAutoconnect no_adb lunched (always "y")
                build_not_started "adb" "ANDROID_BUILD_TOP" yes_answers
                remote_store)
         = Stopped OSError
      /\ args (snd (_CheckForAutoconnect no_adb lunched (always "y")
                      build_not_started "adb" "ANDROID_BUILD_TOP" yes_answers
                      remote_store))
         = remote_args)
  /\ build_adb_cmd lunched "ANDROID_BUILD_TOP"
     = ["/src/aosp/build/soong/soong_ui.bash"; "--make-mode"; "adb"].
Proof.
  pose proof (CheckForAutoconnect_outcome no_adb lunched (always "y")
                build_ok "adb" "ANDROID_BUILD_TOP" yes_answers remote_store)
    as Hbuilt.
  pose proof (CheckForAutoconnect_outcome no_adb lunched (always "n")
                build_ok "adb" "ANDROID_BUILD_TOP" yes_answers remote_store)
    as Hno.
  pose proof (CheckForAutoconnect_outcome no_adb lunched (always "y")
                build_not_started "adb" "ANDROID_BUILD_TOP" yes_answers
                remote_store)
    as Hfail.
  cbv zeta in Hbuilt, Hno, Hfail.
  destruct Hbuilt as (Hbuilt & _ & Hcmd). destruct Hno as (Hno & _).
  destruct Hfail as (_ & Hfail & _).
  assert (Hne : fst (_CheckForAutoconnect no_adb lunched (always "y")
                       build_not_started "adb" "ANDROID_BUILD_TOP"
                       yes_answers remote_store)
                <> Returned tt)
    by (intros E; discriminate E).
  split; [split; [reflexivity | exact (Hbuilt eq_refl)]|].
  split; [split; [reflexivity | exact (Hno eq_refl)]|].
  split.
  - destruct (Hfail Hne) as (Hos & _ & Hargs & _).
    split; [exact Hne|]. split; [exact Hos | exact Hargs].
  - exact Hcmd.
Defined.

Lemma CheckForSetup_witness :
  (needs_gcp gcp_done (args remote_store)
   || needs_host false false (args remote_store) = false
   /\ _CheckForSetup (always "n") gcp_done false false setup_keeps
        yes_answers remote_store
      = (Returned tt,
         {| args := flagged gcp_done false false remote_args;
            console := [] |}))
  /\ (needs_gcp gcp_due (args remote_store)
      || needs_host false false (args remote_store) = true
      /\ answer_yes yes_answers (always "y" setup_question) = true
      /\ answer_yes yes_answers (always "n" setup_question) = false
      /\ _CheckForSetup (always "y") gcp_due false false setup_keeps
           yes_answers remote_store
         = (Returned tt,
            {| args := flagged gcp_due false false remote_args;
               console :=
                 [Asked setup_question;
                  SetupRan (flagged gcp_due false false remote_args)] |})
      /\ _CheckForSetup (always "n") gcp_due false false setup_keeps
           yes_answers remote_store
         = (Stopped SystemExit,
            {| args := flagged gcp_due false false remote_args;
               console :=
                 [Asked setup_question;
                  Printed
                    "Please run '#acloud setup' so we can get your host setup"]
            |}))
  /\ local_instance (args remote_store) = false
  /\ host (flagged gcp_due true true (args remote_store)) = false
  /\ gcp_init (flagged gcp_due false false remote_args) = true.
Proof.
  pose proof (CheckForSetup_flags_and_prompt (always "n") gcp_done false
                false setup_keeps yes_answers remote_store) as Hdone.
  pose proof (CheckForSetup_flags_and_prompt (always "y") gcp_due false
                false setup_keeps yes_answers remote_store) as Hyes.
  pose proof (CheckForSetup_flags_and_prompt (always "n") gcp_due false
                false setup_keeps yes_answers remote_store) as Hno.
  pose proof (CheckForSetup_flags_and_prompt (always "n") gcp_due true
                true setup_keeps yes_answers remote_store) as Hhost.
  cbv zeta in Hdone, Hyes, Hno, Hhost.
  destruct Hdone as (Hdone & _). destruct Hyes as (_ & Hyes & _).
  destruct Hno as (_ & _ & Hno & _).
  destruct Hhost as (_ & _ & _ & _ & Hhost & _).
  split; [split; [reflexivity | exact (Hdone eq_refl)]|].
  split.
  - split; [reflexivity|]. split; [reflexivity|]. split; [reflexivity|].
    split; [exact (Hyes eq_refl eq_refl) | exact (Hno eq_refl eq_refl)].
  - split; [reflexivity|]. split; [exact (Hhost eq_refl) | reflexivity].
Defined.

Lemma PreRunCheck_witness :
  (needs_gcp gcp_due (args remote_store)
   || needs_host false false (args remote_store) = true
   /\ answer_yes yes_answers (always "n" setup_question) = false
   /\ fst (PreRunCheck no_adb lunched (always "n") build_ok gcp_due false
             false setup_keeps "adb" "ANDROID_BUILD_TOP" yes_answers
             remote_store)
      = Stopped SystemExit
   /\ console (snd (PreRunCheck no_adb lunched (always "n") build_ok gcp_due
                      false false setup_keeps "adb" "ANDROID_BUILD_TOP"
                      yes_answers remote_store))
      = [Asked setup_question;
         Printed "Please run '#acloud setup' so we can get your host setup"])
  /\ (fst (PreRunCheck no_adb lunched (always "y") build_ok gcp_due false
             false setup_keeps "adb" "ANDROID_BUILD_TOP" yes_answers
             remote_store)
      = Returned tt
      /\ autoconnect
           (args (snd (PreRunCheck no_adb lunched (always "y") build_ok
                         gcp_due false false setup_keeps "adb"
                         "ANDROID_BUILD_TOP" yes_answers remote_store)))
         = true
      /\ adb_available no_adb lunched (always "y") build_ok "adb"
           "ANDROID_BUILD_TOP" yes_answers = true).
Proof.
  pose proof (PreRunCheck_order no_adb lunched (always "n") build_ok gcp_due
                false false setup_keeps "adb" "ANDROID_BUILD_TOP" yes_answers
                remote_store) as Hno.
  pose proof (PreRunCheck_order no_adb lunched (always "y") build_ok gcp_due
                false false setup_keeps "adb" "ANDROID_BUILD_TOP" yes_answers
                remote_store) as Hyes.
  cbv zeta in Hno, Hyes.
  destruct Hno as (_ & Hno & _). destruct Hyes as (_ & _ & Hyes).
  split.
  - destruct (Hno eq_refl eq_refl) as (Hexit & Hconsole & _).
    split; [reflexivity|]. split; [reflexivity|].
    split; [exact Hexit | exact Hconsole].
  - split; [reflexivity|]. split; [reflexivity|].
    exact (Hyes eq_refl eq_refl).
Defined.

Lemma Run_witness :
  "remote" <> "local"
  /\ "local_image" <> "remote_image"
  /\ Run no_adb lunched (always "n") build_ok gcp_due false false
       setup_keeps "adb" "ANDROID_BUILD_TOP" yes_answers "remote" "local"
       "local_image" "remote_image" (string * string)
       (spec_of "remote" "remote_image") fst snd always_reports remote_store
     = (Stopped SystemExit,
        {| args := flagged gcp_due false false remote_args;
           console :=
             [Asked setup_question;
              Printed
                "Please run '#acloud setup' so we can get your host setup"]
        |})
  /\ fst (Run with_adb lunched (always "n") build_ok gcp_done false false
            setup_keeps "adb" "ANDROID_BUILD_TOP" yes_answers "remote" "local"
            "local_image" "remote_image" (string * string)
            (spec_of "gce" "remote_image") fst snd always_reports
            remote_store)
     = Stopped
         (Raised
            (UnsupportedInstanceImageType
               "unsupported creation of instance type: gce, image source: remote_image"))
  /\ Run with_adb lunched (always "n") build_ok gcp_done false false
       setup_keeps "adb" "ANDROID_BUILD_TOP" yes_answers "remote" "local"
       "local_image" "remote_image" (string * string)
       (spec_of "remote" "remote_image") fst snd always_reports remote_store
     = (Returned tt,
        {| args := flagged gcp_done false false remote_args;
           console :=
             [SpecBuilt (flagged gcp_done false false remote_args);
              Created RemoteImageRemoteInstance;
              Dumped "/tmp/report.json"] |}).
Proof.
  assert (Htype : "remote" <> "local") by (intros E; discriminate E).
  assert (Hsrc : "local_image" <> "remote_image")
    by (intros E; discriminate E).
  pose proof (Run_creates_only_after_checks no_adb lunched (always "n")
                build_ok gcp_due false false setup_keeps "adb"
                "ANDROID_BUILD_TOP" yes_answers "remote" "local"
                "local_image" "remote_image" (string * string)
                (spec_of "remote" "remote_image") fst snd always_reports
                remote_store) as Hstop.
  pose proof (Run_creates_only_after_checks with_adb lunched (always "n")
                build_ok gcp_done false false setup_keeps "adb"
                "ANDROID_BUILD_TOP" yes_answers "remote" "local"
                "local_image" "remote_image" (string * string)
                (spec_of "gce" "remote_image") fst snd always_reports
                remote_store) as Hgce.
  pose proof (Run_creates_only_after_checks with_adb lunched (always "n")
                build_ok gcp_done false false setup_keeps "adb"
                "ANDROID_BUILD_TOP" yes_answers "remote" "local"
                "local_image" "remote_image" (string * string)
                (spec_of "remote" "remote_image") fst snd always_reports
                remote_store) as Hrun.
  cbv zeta in Hstop, Hgce, Hrun.
  destruct Hstop as (Hstop & _). destruct Hgce as (_ & Hgce & _).
  destruct Hrun as (_ & _ & Hrun).
  split; [exact Htype|]. split; [exact Hsrc|].
  split; [exact (Hstop SystemExit eq_refl)|].
  split.
  - rewrite (Hgce eq_refl); [reflexivity|].
    intros c. destruct c; intros E; discriminate E.
  - exact (Hrun Htype Hsrc RemoteImageRemoteInstance eq_refl eq_refl).
Defined.

End create.

(** * config.py: the configuration object *)

Module config.

(** A scalar field of a protobuf message, or what takes its place in an
    attribute: a string or an integer.  The message declarations are not
    among the sources; the code only tests such fields for truth, copies
    them, or puts a string of the command line in their place. *)
Inductive value : Type :=
| VStr (s : string)
| VInt (z : Z).

(** [bool(v)]. *)
Definition is_true (v : value) : bool :=
  match v with
  | VStr s => nonempty s
  | VInt z => negb (z =? 0)
  end.

(** [a or b]. *)
Definition or_ (a b : value) : value := if is_true a then a else b.

(** [a or b] on integers. *)
Definition or_int (a b : Z) : Z := if a =? 0 then b else a.

(** A dict, as the list of its items. *)
Definition dict (K V : Type) : Type := list (K * V).

Section Dict.

Context {K V : Type}.
Variable eqb : K -> K -> bool.

(** [d.get(k)], None when the key is missing. *)
Fixpoint dict_get (k : K) (d : dict K V) : option V :=
  match d with
  | [] => None
  | (k', v) :: rest => if eqb k k' then Some v else dict_get k rest
  end.

(** [k in d]. *)
Definition dict_in (k : K) (d : dict K V) : bool :=
  match dict_get k d with
  | Some _ => true
  | None => false
  end.

(** [d.get(k, default)]. *)
Definition dict_get_default (k : K) (d : dict K V) (default : V) : V :=
  match dict_get k d with
  | Some v => v
  | None => default
  end.

(** [d[k] = v]. *)
Fixpoint dict_set (k : K) (v : V) (d : dict K V) : dict K V :=
  match d with
  | [] => [(k, v)]
  | (k', v') :: rest =>
      if eqb k k' then (k, v) :: rest else (k', v') :: dict_set k v rest
  end.

(** [d.update(other)]. *)
Definition dict_update (d other : dict K V) : dict K V :=
  fold_left (fun acc item => dict_set (fst item) (snd item) acc) other d.

(** [del d[k]]. *)
Definition dict_del (k : K) (d : dict K V) : dict K V :=
  filter (fun item => negb (eqb k (fst item))) d.

(** [d.keys()]. *)
Definition dict_keys (d : dict K V) : list K := map fst d.

End Dict.

Record DefaultUserConfig : Type := mkDefaultUserConfig {
  def_machine_type : value;
  def_network : value;
  def_metadata_variable : dict string value;
  def_extra_data_disk_size_gb : Z;
  def_stable_host_image_name : value;
  def_stable_host_image_project : value;
  def_stable_goldfish_host_image_name : value;
  def_stable_goldfish_host_image_project : value
}.

Record UserConfig : Type := mkUserConfig {
  usr_service_account_name : value;
  usr_service_account_private_key_path : value;
  usr_service_account_json_private_key_path : value;
  usr_client_id : value;
  usr_client_secret : value;
  usr_project : value;
  usr_zone : value;
  usr_machine_type : value;
  usr_network : value;
  usr_ssh_private_key_path : value;
  usr_ssh_public_key_path : value;
  usr_storage_bucket_name : value;
  usr_metadata_variable : dict string value;
  usr_extra_data_disk_size_gb : Z;
  usr_orientation : value;
  usr_resolution : value;
  usr_stable_host_image_name : value;
  usr_stable_host_image_project : value;
  usr_stable_goldfish_host_image_name : value;
  usr_stable_goldfish_host_image_project : value;
  usr_hw_property : value
}.

Record InternalConfig : Type := mkInternalConfig {
  int_creds_cache_file : value;
  int_user_agent : value;
  int_default_usr_cfg : DefaultUserConfig;
  int_device_resolution_map : dict string value;
  int_device_default_orientation_map : dict string value;
  int_no_project_access_msg_map : dict string value;
  int_min_machine_size : value;
  int_disk_image_name : value;
  int_disk_image_mime_type : value;
  int_disk_image_extension : value;
  int_disk_raw_image_name : value;
  int_disk_raw_image_extension : value;
  int_valid_branch_and_min_build_id : dict string value;
  int_precreated_data_image : dict Z value;
  int_default_extra_data_disk_device : value;
  int_kernel_build_target : value;
  int_emulator_build_target : value;
  int_common_hw_property_map : dict string value
}.

Record AcloudConfig : Type := mkAcloudConfig {
  service_account_name : value;
  service_account_private_key_path : value;
  service_account_json_private_key_path : value;
  creds_cache_file : value;
  user_agent : value;
  client_id : value;
  client_secret : value;
  project : value;
  zone : value;
  machine_type : value;
  network : value;
  ssh_private_key_path : value;
  ssh_public_key_path : value;
  storage_bucket_name : value;
  metadata_variable : dict string value;
  device_resolution_map : dict string value;
  device_default_orientation_map : dict string value;
  no_project_access_msg_map : dict string value;
  min_machine_size : value;
  disk_image_name : value;
  disk_image_mime_type : value;
  disk_image_extension : value;
  disk_raw_image_name : value;
  disk_raw_image_extension : value;
  valid_branch_and_min_build_id : dict string value;
  precreated_data_image_map : dict Z value;
  extra_data_disk_size_gb : Z;
  orientation : value;
  resolution : value;
  stable_host_image_name : value;
  stable_host_image_project : value;
  kernel_build_target : value;
  emulator_build_target : value;
  stable_goldfish_host_image_name : value;
  stable_goldfish_host_image_project : value;
  common_hw_property_map : dict string value;
  hw_property : value
}.

(** [errors.ConfigError], by the place that raises it, with the values its
    message is formatted from. *)
Inductive ConfigError : Type :=
| MissingRequired (missing : list string)
    (* "Missing required configuration fields: %s" % missing *)
| UnsupportedDiskSize (supported : list Z) (size : Z)
    (* "Supported extra_data_disk_size_gb options(gb): %s, invalid value: %d" *)
| DiskSizeWithEphemeralSize.
    (* "The following settings can't be set at the same time: ..." *)

Definition set_service_account_name (v : value) (self : AcloudConfig)
    : AcloudConfig :=
  mkAcloudConfig
    v (service_account_private_key_path self)
    (service_account_json_private_key_path self) (creds_cache_file self)
    (user_agent self) (client_id self) (client_secret self) (project self)
    (zone self) (machine_type self) (network self) (ssh_private_key_path
    self) (ssh_public_key_path self) (storage_bucket_name self)
    (metadata_variable self) (device_resolution_map self)
    (device_default_orientation_map self) (no_project_access_msg_map self)
    (min_machine_size self) (disk_image_name self) (disk_image_mime_type
    self) (disk_image_extension self) (disk_raw_image_name self)
    (disk_raw_image_extension self) (valid_branch_and_min_build_id self)
    (precreated_data_image_map self) (extra_data_disk_size_gb self)
    (orientation self) (resolution self) (stable_host_image_name self)
    (stable_host_image_project self) (kernel_build_target self)
    (emulator_build_target self) (stable_goldfish_host_image_name self)
    (stable_goldfish_host_image_project self) (common_hw_property_map self)
    (hw_property self).

Definition set_service_account_json_private_key_path (v : value)
    (self : AcloudConfig) : AcloudConfig :=
  mkAcloudConfig
    (service_account_name self) (service_account_private_key_path self) v
    (creds_cache_file self) (user_agent self) (client_id self) (client_secret
    self) (project self) (zone self) (machine_type self) (network self)
    (ssh_private_key_path self) (ssh_public_key_path self)
    (storage_bucket_name self) (metadata_variable self)
    (device_resolution_map self) (device_default_orientation_map self)
    (no_project_access_msg_map self) (min_machine_size self) (disk_image_name
    self) (disk_image_mime_type self) (disk_image_extension self)
    (disk_raw_image_name self) (disk_raw_image_extension self)
    (valid_branch_and_min_build_id self) (precreated_data_image_map self)
    (extra_data_disk_size_gb self) (orientation self) (resolution self)
    (stable_host_image_name self) (stable_host_image_project self)
    (kernel_build_target self) (emulator_build_target self)
    (stable_goldfish_host_image_name self)
    (stable_goldfish_host_image_project self) (common_hw_property_map self)
    (hw_property self).

Definition set_network (v : value) (self : AcloudConfig)
    : AcloudConfig :=
  mkAcloudConfig
    (service_account_name self) (service_account_private_key_path self)
    (service_account_json_private_key_path self) (creds_cache_file self)
    (user_agent self) (client_id self) (client_secret self) (project self)
    (zone self) (machine_type self) v (ssh_private_key_path self)
    (ssh_public_key_path self) (storage_bucket_name self) (metadata_variable
    self) (device_resolution_map self) (device_default_orientation_map self)
    (no_project_access_msg_map self) (min_machine_size self) (disk_image_name
    self) (disk_image_mime_type self) (disk_image_extension self)
    (disk_raw_image_name self) (disk_raw_image_extension self)
    (valid_branch_and_min_build_id self) (precreated_data_image_map self)
    (extra_data_disk_size_gb self) (orientation self) (resolution self)
    (stable_host_image_name self) (stable_host_image_project self)
    (kernel_build_target self) (emulator_build_target self)
    (stable_goldfish_host_image_name self)
    (stable_goldfish_host_image_project self) (common_hw_property_map self)
    (hw_property self).

Definition set_metadata_variable (v : dict string value) (self : AcloudConfig)
    : AcloudConfig :=
  mkAcloudConfig
    (service_account_name self) (service_account_private_key_path self)
    (service_account_json_private_key_path self) (creds_cache_file self)
    (user_agent self) (client_id self) (client_secret self) (project self)
    (zone self) (machine_type self) (network self) (ssh_private_key_path
    self) (ssh_public_key_path self) (storage_bucket_name self) v
    (device_resolution_map self) (device_default_orientation_map self)
    (no_project_access_msg_map self) (min_machine_size self) (disk_image_name
    self) (disk_image_mime_type self) (disk_image_extension self)
    (disk_raw_image_name self) (disk_raw_image_extension self)
    (valid_branch_and_min_build_id self) (precreated_data_image_map self)
    (extra_data_disk_size_gb self) (orientation self) (resolution self)
    (stable_host_image_name self) (stable_host_image_project self)
    (kernel_build_target self) (emulator_build_target self)
    (stable_goldfish_host_image_name self)
    (stable_goldfish_host_image_project self) (common_hw_property_map self)
    (hw_property self).

Definition set_orientation (v : value) (self : AcloudConfig)
    : AcloudConfig :=
  mkAcloudConfig
    (service_account_name self) (service_account_private_key_path self)
    (service_account_json_private_key_path self) (creds_cache_file self)
    (user_agent self) (client_id self) (client_secret self) (project self)
    (zone self) (machine_type self) (network self) (ssh_private_key_path
    self) (ssh_public_key_path self) (storage_bucket_name self)
    (metadata_variable self) (device_resolution_map self)
    (device_default_orientation_map self) (no_project_access_msg_map self)
    (min_machine_size self) (disk_image_name self) (disk_image_mime_type
    self) (disk_image_extension self) (disk_raw_image_name self)
    (disk_raw_image_extension self) (valid_branch_and_min_build_id self)
    (precreated_data_image_map self) (extra_data_disk_size_gb self) v
    (resolution self) (stable_host_image_name self)
    (stable_host_image_project self) (kernel_build_target self)
    (emulator_build_target self) (stable_goldfish_host_image_name self)
    (stable_goldfish_host_image_project self) (common_hw_property_map self)
    (hw_property self).

Definition set_resolution (v : value) (self : AcloudConfig)
    : AcloudConfig :=
  mkAcloudConfig
    (service_account_name self) (service_account_private_key_path self)
    (service_account_json_private_key_path self) (creds_cache_file self)
    (user_agent self) (client_id self) (client_secret self) (project self)
    (zone self) (machine_type self) (network self) (ssh_private_key_path
    self) (ssh_public_key_path self) (storage_bucket_name self)
    (metadata_variable self) (device_resolution_map self)
    (device_default_orientation_map self) (no_project_access_msg_map self)
    (min_machine_size self) (disk_image_name self) (disk_image_mime_type
    self) (disk_image_extension self) (disk_raw_image_name self)
    (disk_raw_image_extension self) (valid_branch_and_min_build_id self)
    (precreated_data_image_map self) (extra_data_disk_size_gb self)
    (orientation self) v (stable_host_image_name self)
    (stable_host_image_project self) (kernel_build_target self)
    (emulator_build_target self) (stable_goldfish_host_image_name self)
    (stable_goldfish_host_image_project self) (common_hw_property_map self)
    (hw_property self).

Definition set_stable_goldfish_host_image_name (v : value) (self : AcloudConfig)
    : AcloudConfig :=
  mkAcloudConfig
    (service_account_name self) (service_account_private_key_path self)
    (service_account_json_private_key_path self) (creds_cache_file self)
    (user_agent self) (client_id self) (client_secret self) (project self)
    (zone self) (machine_type self) (network self) (ssh_private_key_path
    self) (ssh_public_key_path self) (storage_bucket_name self)
    (metadata_variable self) (device_resolution_map self)
    (device_default_orientation_map self) (no_project_access_msg_map self)
    (min_machine_size self) (disk_image_name self) (disk_image_mime_type
    self) (disk_image_extension self) (disk_raw_image_name self)
    (disk_raw_image_extension self) (valid_branch_and_min_build_id self)
    (precreated_data_image_map self) (extra_data_disk_size_gb self)
    (orientation self) (resolution self) (stable_host_image_name self)
    (stable_host_image_project self) (kernel_build_target self)
    (emulator_build_target self) v (stable_goldfish_host_image_project self)
    (common_hw_property_map self) (hw_property self).

Definition set_hw_property (v : value) (self : AcloudConfig)
    : AcloudConfig :=
  mkAcloudConfig
    (service_account_name self) (service_account_private_key_path self)
    (service_account_json_private_key_path self) (creds_cache_file self)
    (user_agent self) (client_id self) (client_secret self) (project self)
    (zone self) (machine_type self) (network self) (ssh_private_key_path
    self) (ssh_public_key_path self) (storage_bucket_name self)
    (metadata_variable self) (device_resolution_map self)
    (device_default_orientation_map self) (no_project_access_msg_map self)
    (min_machine_size self) (disk_image_name self) (disk_image_mime_type
    self) (disk_image_extension self) (disk_raw_image_name self)
    (disk_raw_image_extension self) (valid_branch_and_min_build_id self)
    (precreated_data_image_map self) (extra_data_disk_size_gb self)
    (orientation self) (resolution self) (stable_host_image_name self)
    (stable_host_image_project self) (kernel_build_target self)
    (emulator_build_target self) (stable_goldfish_host_image_name self)
    (stable_goldfish_host_image_project self) (common_hw_property_map self) v.


(** [AcloudConfig.REQUIRED_FIELD]. *)
Definition REQUIRED_FIELD : list string :=
  ["machine_type"; "network"; "min_machine_size"; "disk_image_name";
   "disk_image_mime_type"].

(** [getattr(self, f)] for the names of [REQUIRED_FIELD]. *)
Definition getattr (self : AcloudConfig) (f : string) : option value :=
  if (f =? "machine_type")%string then Some (machine_type self)
  else if (f =? "network")%string then Some (network self)
  else if (f =? "min_machine_size")%string then Some (min_machine_size self)
  else if (f =? "disk_image_name")%string then Some (disk_image_name self)
  else if (f =? "disk_image_mime_type")%string then
    Some (disk_image_mime_type self)
  else None.

(** [not getattr(self, f)]. *)
Definition is_missing (self : AcloudConfig) (f : string) : bool :=
  match getattr self f with
  | Some v => negb (is_true v)
  | None => true
  end.

(** [AcloudConfig.Verify]. *)
Definition Verify (self : AcloudConfig) : ConfigError + unit :=
  let missing := filter (is_missing self) REQUIRED_FIELD in
  match missing with
  | _ :: _ => inl (MissingRequired missing)
  | [] =>
      if negb (extra_data_disk_size_gb self =? 0)
         && negb (dict_in Z.eqb (extra_data_disk_size_gb self)
                    (precreated_data_image_map self))
      then inl (UnsupportedDiskSize
                  (dict_keys (precreated_data_image_map self))
                  (extra_data_disk_size_gb self))
      else inr tt
  end.

(** The metadata variables as [__init__] leaves them: the defaults, updated
    with the user's, and then, with an extra data disk, the default device
    unless the user names one, and no ephemeral data size (an error when the
    user sets one). *)
Definition init_metadata_variable (usr_cfg : UserConfig)
    (internal_cfg : InternalConfig) (extra_data_disk_size_gb : Z)
    : ConfigError + dict string value :=
  let metadata_variable :=
    def_metadata_variable (int_default_usr_cfg internal_cfg) in
  let metadata_variable :=
    dict_update String.eqb metadata_variable
      (usr_metadata_variable usr_cfg) in
  if 0 <? extra_data_disk_size_gb then
    let metadata_variable :=
      if negb (dict_in String.eqb "cfg_sta_persistent_data_device"
                 (usr_metadata_variable usr_cfg))
      then dict_set String.eqb "cfg_sta_persistent_data_device"
             (int_default_extra_data_disk_device internal_cfg)
             metadata_variable
      else metadata_variable in
    if dict_in String.eqb "cfg_sta_ephemeral_data_size_mb"
         (usr_metadata_variable usr_cfg)
    then inl DiskSizeWithEphemeralSize
    else
      inr (if dict_in String.eqb "cfg_sta_ephemeral_data_size_mb"
                metadata_variable
           then dict_del String.eqb "cfg_sta_ephemeral_data_size_mb"
                  metadata_variable
           else metadata_variable)
  else inr metadata_variable.

(** [AcloudConfig.__init__]: the object, or the [ConfigError] raised on the
    way. *)
Definition AcloudConfig__init__ (usr_cfg : UserConfig)
    (internal_cfg : InternalConfig) : ConfigError + AcloudConfig :=
  let default_usr_cfg := int_default_usr_cfg internal_cfg in
  let extra_data_disk_size_gb :=
    or_int (usr_extra_data_disk_size_gb usr_cfg)
      (def_extra_data_disk_size_gb default_usr_cfg) in
  match init_metadata_variable usr_cfg internal_cfg extra_data_disk_size_gb
  with
  | inl e => inl e
  | inr metadata_variable =>
      let self :=
        mkAcloudConfig
      (usr_service_account_name usr_cfg)
      (usr_service_account_private_key_path usr_cfg)
      (usr_service_account_json_private_key_path usr_cfg)
      (int_creds_cache_file internal_cfg)
      (int_user_agent internal_cfg)
      (usr_client_id usr_cfg)
      (usr_client_secret usr_cfg)
      (usr_project usr_cfg)
      (usr_zone usr_cfg)
      (or_ (usr_machine_type usr_cfg) (def_machine_type default_usr_cfg))
      (or_ (usr_network usr_cfg) (def_network default_usr_cfg))
      (usr_ssh_private_key_path usr_cfg)
      (usr_ssh_public_key_path usr_cfg)
      (usr_storage_bucket_name usr_cfg)
      metadata_variable
      (int_device_resolution_map internal_cfg)
      (int_device_default_orientation_map internal_cfg)
      (int_no_project_access_msg_map internal_cfg)
      (int_min_machine_size internal_cfg)
      (int_disk_image_name internal_cfg)
      (int_disk_image_mime_type internal_cfg)
      (int_disk_image_extension internal_cfg)
      (int_disk_raw_image_name internal_cfg)
      (int_disk_raw_image_extension internal_cfg)
      (int_valid_branch_and_min_build_id internal_cfg)
      (int_precreated_data_image internal_cfg)
      extra_data_disk_size_gb
      (usr_orientation usr_cfg)
      (usr_resolution usr_cfg)
      (or_ (usr_stable_host_image_name usr_cfg)
         (def_stable_host_image_name default_usr_cfg))
      (or_ (usr_stable_host_image_project usr_cfg)
         (def_stable_host_image_project default_usr_cfg))
      (int_kernel_build_target internal_cfg)
      (int_emulator_build_target internal_cfg)
      (or_ (usr_stable_goldfish_host_image_name usr_cfg)
         (def_stable_goldfish_host_image_name default_usr_cfg))
      (or_ (usr_stable_goldfish_host_image_project usr_cfg)
         (def_stable_goldfish_host_image_project default_usr_cfg))
      (int_common_hw_property_map internal_cfg)
      (usr_hw_property usr_cfg) in
      match Verify self with
      | inl e => inl e
      | inr _ => inr self
      end
  end.

(** [parsed_args], with the attributes [OverrideWithArgs] reads. *)
Record ParsedArgs : Type := mkParsedArgs {
  arg_which : string;
  arg_spec : option string;
  arg_email : option string;
  arg_service_account_json_private_key_path : option string;
  arg_base_image : option string;
  arg_flavor : option string;
  arg_network : option string
}.

(** [d.get(key, "")] for a key of the command line, which may be None. *)
Definition get_or_empty (key : option string) (d : dict string value)
    : value :=
  match key with
  | Some k => dict_get_default String.eqb k d (VStr "")
  | None => VStr ""
  end.

Section Override.

(** [create_args.CMD_CREATE]; its module is not among the sources. *)
Variable CMD_CREATE : string.

(** [AcloudConfig.OverrideWithArgs]. *)
Definition OverrideWithArgs (self : AcloudConfig) (parsed_args : ParsedArgs)
    : AcloudConfig :=
  let self :=
    if (arg_which parsed_args =? CMD_CREATE)%string
       && truthy (arg_spec parsed_args)
    then
      let self :=
        if negb (is_true (resolution self)) then
          set_resolution
            (get_or_empty (arg_spec parsed_args) (device_resolution_map self))
            self
        else self in
      if negb (is_true (orientation self)) then
        set_orientation
          (get_or_empty (arg_spec parsed_args)
             (device_default_orientation_map self))
          self
      else self
    else self in
  let self :=
    if truthy (arg_email parsed_args) then
      set_service_account_name (VStr (str_of (arg_email parsed_args))) self
    else self in
  let self :=
    if truthy (arg_service_account_json_private_key_path parsed_args) then
      set_service_account_json_private_key_path
        (VStr (str_of (arg_service_account_json_private_key_path parsed_args)))
        self
    else self in
  let self :=
    if (arg_which parsed_args =? "create_gf")%string
       && truthy (arg_base_image parsed_args)
    then
      set_stable_goldfish_host_image_name
        (VStr (str_of (arg_base_image parsed_args))) self
    else self in
  let self :=
    if (arg_which parsed_args =? CMD_CREATE)%string
       && negb (is_true (hw_property self))
    then
      set_hw_property
        (get_or_empty (arg_flavor parsed_args) (common_hw_property_map self))
        self
    else self in
  if ((arg_which parsed_args =? CMD_CREATE)
      || (arg_which parsed_args =? "create_cf"))%string
  then
    if truthy (arg_network parsed_args) then
      set_network (VStr (str_of (arg_network parsed_args))) self
    else self
  else self.

End Override.

(** ** Lookups after the dict operations *)

Section DictFacts.

Context {K V : Type}.
Variable eqb : K -> K -> bool.
Hypothesis eqb_spec : forall a b, reflect (a = b) (eqb a b).

Lemma dict_get_set_same (k : K) (v : V) (d : dict K V) :
  dict_get eqb k (dict_set eqb k v d) = Some v.
Proof.
  induction d as [|[k' v'] d IH]; cbn [dict_set dict_get].
  - destruct (eqb_spec k k); [reflexivity|contradiction].
  - destruct (eqb_spec k k') as [E|E]; cbn [dict_get].
    + destruct (eqb_spec k k); [reflexivity|contradiction].
    + destruct (eqb_spec k k'); [contradiction|exact IH].
Qed.

Lemma dict_get_set_other (k k' : K) (v : V) (d : dict K V) :
  k <> k' ->
  dict_get eqb k' (dict_set eqb k v d) = dict_get eqb k' d.
Proof.
  intros Hne. induction d as [|[k0 v0] d IH]; cbn [dict_set dict_get].
  - destruct (eqb_spec k' k); [congruence|reflexivity].
  - destruct (eqb_spec k k0) as [E|E]; cbn [dict_get].
    + subst k0. destruct (eqb_spec k' k); [congruence|reflexivity].
    + destruct (eqb_spec k' k0); [reflexivity|exact IH].
Qed.

Lemma dict_get_del_same (k : K) (d : dict K V) :
  dict_get eqb k (dict_del eqb k d) = None.
Proof.
  induction d as [|[k' v'] d IH]; [reflexivity|].
  unfold dict_del in *. cbn [filter fst].
  destruct (eqb_spec k k') as [E|E]; cbn [negb]; [exact IH|].
  cbn [dict_get]. destruct (eqb_spec k k'); [contradiction|exact IH].
Qed.

Lemma dict_get_del_other (k k' : K) (d : dict K V) :
  k <> k' ->
  dict_get eqb k' (dict_del eqb k d) = dict_get eqb k' d.
Proof.
  intros Hne. induction d as [|[k0 v0] d IH]; [reflexivity|].
  unfold dict_del in *. cbn [filter fst].
  destruct (eqb_spec k k0) as [E|E]; cbn [negb dict_get].
  - subst k0. destruct (eqb_spec k' k); [congruence|exact IH].
  - destruct (eqb_spec k' k0); [reflexivity|exact IH].
Qed.

Lemma dict_get_absent (k : K) (d : dict K V) :
  ~ In k (dict_keys d) -> dict_get eqb k d = None.
Proof.
  induction d as [|[k' v'] d IH]; [reflexivity|].
  cbn [dict_keys map fst In dict_get]. intros Hnot.
  destruct (eqb_spec k k') as [E|E]; [exfalso; apply Hnot; now left|].
  apply IH. intros Hin. apply Hnot. now right.
Qed.

(** After [d.update(other)] a key has the value [other] gives it, and else
    the one it had. *)
Lemma dict_get_update (k : K) (other : dict K V) :
  NoDup (dict_keys other) ->
  forall d,
    dict_get eqb k (dict_update eqb d other)
    = match dict_get eqb k other with
      | Some v => Some v
      | None => dict_get eqb k d
      end.
Proof.
  unfold dict_update.
  induction other as [|[k' v'] other IH]; intros Hnodup d; [reflexivity|].
  cbn [dict_keys map fst] in Hnodup. inversion Hnodup as [|x l Hnot Hrest].
  subst. cbn [fold_left fst snd dict_get].
  rewrite (IH Hrest). destruct (eqb_spec k k') as [E|E].
  - subst k'. rewrite (dict_get_absent _ _ Hnot).
    apply dict_get_set_same.
  - destruct (dict_get eqb k other); [reflexivity|].
    apply dict_get_set_other. congruence.
Qed.

End DictFacts.

(** ** The object [__init__] returns *)

Lemma Verify_ok (self : AcloudConfig) :
  Verify self = inr tt
  <-> (is_true (machine_type self) = true
       /\ is_true (network self) = true
       /\ is_true (min_machine_size self) = true
       /\ is_true (disk_image_name self) = true
       /\ is_true (disk_image_mime_type self) = true
       /\ (extra_data_disk_size_gb self = 0
           \/ dict_in Z.eqb (extra_data_disk_size_gb self)
                (precreated_data_image_map self) = true)).
Proof.
  unfold Verify, REQUIRED_FIELD. cbn [filter].
  unfold is_missing, getattr. cbn [String.eqb Ascii.eqb Bool.eqb].
  destruct (is_true (machine_type self));
    destruct (is_true (network self));
    destruct (is_true (min_machine_size self));
    destruct (is_true (disk_image_name self));
    destruct (is_true (disk_image_mime_type self)); cbn [negb];
    try (split; [discriminate | intros H; decompose [and] H; discriminate]).
  destruct (Z.eqb_spec (extra_data_disk_size_gb self) 0) as [E|E];
    cbn [negb andb].
  - split; [intros _; repeat split; now left | reflexivity].
  - destruct (dict_in Z.eqb (extra_data_disk_size_gb self)
                (precreated_data_image_map self)); cbn [negb].
    + split; [intros _; repeat split; now right | reflexivity].
    + split; [discriminate|]. intros H. decompose [and] H.
      match goal with
      | Hd : _ \/ _ |- _ => destruct Hd; [contradiction|discriminate]
      end.
Qed.

Lemma init_returns (usr_cfg : UserConfig) (internal_cfg : InternalConfig)
    (cfg : AcloudConfig) :
  AcloudConfig__init__ usr_cfg internal_cfg = inr cfg ->
  Verify cfg = inr tt
  /\ init_metadata_variable usr_cfg internal_cfg (extra_data_disk_size_gb cfg)
     = inr (metadata_variable cfg)
  /\ extra_data_disk_size_gb cfg
     = or_int (usr_extra_data_disk_size_gb usr_cfg)
         (def_extra_data_disk_size_gb (int_default_usr_cfg internal_cfg))
  /\ machine_type cfg
     = or_ (usr_machine_type usr_cfg)
         (def_machine_type (int_default_usr_cfg internal_cfg))
  /\ network cfg
     = or_ (usr_network usr_cfg)
         (def_network (int_default_usr_cfg internal_cfg)).
Proof.
  unfold AcloudConfig__init__. cbv zeta.
  destruct (init_metadata_variable usr_cfg internal_cfg _) as [e|md] eqn:Emd;
    [discriminate|].
  match goal with
  | |- match Verify ?x with _ => _ end = _ -> _ =>
      destruct (Verify x) as [e|[]] eqn:Ev; [discriminate|]
  end.
  intros H. injection H as <-. cbn [extra_data_disk_size_gb
    metadata_variable machine_type network].
  repeat split; assumption.
Qed.

(** X13: every object [__init__] returns has passed [Verify]: its machine
    type, network, minimum machine size, disk image name and disk image MIME
    type are all true, and its extra data disk size is 0 or one of the
    precreated sizes.  Its machine type and network are the user's when the
    user gives one, and the defaults otherwise. *)
Theorem init_returns_verified_config (usr_cfg : UserConfig)
    (internal_cfg : InternalConfig) (cfg : AcloudConfig) :
  AcloudConfig__init__ usr_cfg internal_cfg = inr cfg ->
  is_true (machine_type cfg) = true
  /\ is_true (network cfg) = true
  /\ is_true (min_machine_size cfg) = true
  /\ is_true (disk_image_name cfg) = true
  /\ is_true (disk_image_mime_type cfg) = true
  /\ (extra_data_disk_size_gb cfg = 0
      \/ dict_in Z.eqb (extra_data_disk_size_gb cfg)
           (precreated_data_image_map cfg) = true)
  /\ machine_type cfg
     = (if is_true (usr_machine_type usr_cfg) then usr_machine_type usr_cfg
        else def_machine_type (int_default_usr_cfg internal_cfg))
  /\ network cfg
     = (if is_true (usr_network usr_cfg) then usr_network usr_cfg
        else def_network (int_default_usr_cfg internal_cfg)).
Proof.
  intros Hinit. destruct (init_returns _ _ _ Hinit) as (Hv & _ & _ & Hm & Hn).
  apply Verify_ok in Hv. decompose [and] Hv. repeat split; assumption.
Qed.

(** X14: the metadata variables of the object [__init__] returns, key by
    key: a key the user sets has the user's value, any other the default's;
    with an extra data disk (a size above 0) the ephemeral data size is not
    there, and the persistent data device is the default device unless the
    user sets it. *)
Theorem init_metadata_by_key (usr_cfg : UserConfig)
    (internal_cfg : InternalConfig) (cfg : AcloudConfig) (k : string) :
  NoDup (dict_keys (usr_metadata_variable usr_cfg)) ->
  AcloudConfig__init__ usr_cfg internal_cfg = inr cfg ->
  let merged :=
    match dict_get String.eqb k (usr_metadata_variable usr_cfg) with
    | Some v => Some v
    | None =>
        dict_get String.eqb k
          (def_metadata_variable (int_default_usr_cfg internal_cfg))
    end in
  dict_get String.eqb k (metadata_variable cfg)
  = if 0 <? extra_data_disk_size_gb cfg then
      if (k =? "cfg_sta_ephemeral_data_size_mb")%string then None
      else if (k =? "cfg_sta_persistent_data_device")%string
              && negb (dict_in String.eqb k (usr_metadata_variable usr_cfg))
      then Some (int_default_extra_data_disk_device internal_cfg)
      else merged
    else merged.
Proof.
  intros Hnodup Hinit merged.
  destruct (init_returns _ _ _ Hinit) as (_ & Hmd & _).
  unfold init_metadata_variable in Hmd. cbv zeta in Hmd.
  set (md0 := dict_update String.eqb
                (def_metadata_variable (int_default_usr_cfg internal_cfg))
                (usr_metadata_variable usr_cfg)) in *.
  assert (H0 : dict_get String.eqb k md0 = merged).
  { subst md0 merged. now apply dict_get_update; [apply String.eqb_spec|]. }
  destruct (0 <? extra_data_disk_size_gb cfg).
  2:{ injection Hmd as <-. exact H0. }
  set (md1 := if negb (dict_in String.eqb "cfg_sta_persistent_data_device"
                         (usr_metadata_variable usr_cfg))
              then dict_set String.eqb "cfg_sta_persistent_data_device"
                     (int_default_extra_data_disk_device internal_cfg) md0
              else md0) in *.
  destruct (dict_in String.eqb "cfg_sta_ephemeral_data_size_mb"
              (usr_metadata_variable usr_cfg)); [discriminate|].
  injection Hmd as Hmd.
  destruct (String.eqb_spec k "cfg_sta_ephemeral_data_size_mb") as [Ee|Ee].
  - subst k. rewrite <- Hmd.
    destruct (dict_in String.eqb "cfg_sta_ephemeral_data_size_mb" md1)
      eqn:Ein.
    + apply dict_get_del_same. apply String.eqb_spec.
    + unfold dict_in in Ein.
      destruct (dict_get String.eqb "cfg_sta_ephemeral_data_size_mb" md1);
        [discriminate|reflexivity].
  - assert (H1 : dict_get String.eqb k (metadata_variable cfg)
                 = dict_get String.eqb k md1).
    { rewrite <- Hmd.
      destruct (dict_in String.eqb "cfg_sta_ephemeral_data_size_mb" md1);
        [|reflexivity].
      apply dict_get_del_other; [apply String.eqb_spec|congruence]. }
    rewrite H1. subst md1.
    destruct (String.eqb_spec k "cfg_sta_persistent_data_device") as [Ep|Ep].
    + subst k. cbn [andb].
      destruct (dict_in String.eqb "cfg_sta_persistent_data_device"
                  (usr_metadata_variable usr_cfg)); cbn [negb].
      * exact H0.
      * apply dict_get_set_same. apply String.eqb_spec.
    + cbn [andb].
      destruct (negb (dict_in String.eqb "cfg_sta_persistent_data_device"
                        (usr_metadata_variable usr_cfg))); [|exact H0].
      rewrite dict_get_set_other;
        [exact H0 | apply String.eqb_spec | congruence].
Qed.

(** X15: an extra data disk and an ephemeral data size cannot go together:
    when the size in effect (the user's, or the default when the user's is
    0) is above 0 and the user sets cfg_sta_ephemeral_data_size_mb,
    [__init__] raises that [ConfigError], whatever else is in the two
    messages. *)
Theorem init_rejects_disk_with_ephemeral_size (usr_cfg : UserConfig)
    (internal_cfg : InternalConfig) :
  0 < or_int (usr_extra_data_disk_size_gb usr_cfg)
        (def_extra_data_disk_size_gb (int_default_usr_cfg internal_cfg)) ->
  dict_in String.eqb "cfg_sta_ephemeral_data_size_mb"
    (usr_metadata_variable usr_cfg) = true ->
  AcloudConfig__init__ usr_cfg internal_cfg = inl DiskSizeWithEphemeralSize.
Proof.
  intros Hsize Hin. unfold AcloudConfig__init__, init_metadata_variable.
  cbv zeta. apply Z.ltb_lt in Hsize. now rewrite Hsize, Hin.
Qed.

(** ** Overriding with the command line *)

Section OverrideFacts.

Variable CMD_CREATE : string.

Ltac reduce_config :=
  cbv [set_service_account_name set_service_account_json_private_key_path
       set_network set_orientation set_resolution
       set_stable_goldfish_host_image_name set_hw_property
       service_account_name service_account_private_key_path
       service_account_json_private_key_path creds_cache_file user_agent
       client_id client_secret project zone machine_type network
       ssh_private_key_path ssh_public_key_path storage_bucket_name
       metadata_variable device_resolution_map
       device_default_orientation_map no_project_access_msg_map
       min_machine_size disk_image_name disk_image_mime_type
       disk_image_extension disk_raw_image_name disk_raw_image_extension
       valid_branch_and_min_build_id precreated_data_image_map
       extra_data_disk_size_gb orientation resolution stable_host_image_name
       stable_host_image_project kernel_build_target emulator_build_target
       stable_goldfish_host_image_name stable_goldfish_host_image_project
       common_hw_property_map hw_property].

(** The object [OverrideWithArgs] returns, attribute by attribute. *)
Definition overridden (self : AcloudConfig) (parsed_args : ParsedArgs)
    : AcloudConfig :=
  let create := (arg_which parsed_args =? CMD_CREATE)%string in
  let with_spec := create && truthy (arg_spec parsed_args) in
  set_network
    (if (create || (arg_which parsed_args =? "create_cf")%string)
        && truthy (arg_network parsed_args)
     then VStr (str_of (arg_network parsed_args)) else network self)
    (set_hw_property
       (if create && negb (is_true (hw_property self))
        then get_or_empty (arg_flavor parsed_args)
               (common_hw_property_map self)
        else hw_property self)
       (set_stable_goldfish_host_image_name
          (if (arg_which parsed_args =? "create_gf")%string
              && truthy (arg_base_image parsed_args)
           then VStr (str_of (arg_base_image parsed_args))
           else stable_goldfish_host_image_name self)
          (set_service_account_json_private_key_path
             (if truthy (arg_service_account_json_private_key_path parsed_args)
              then VStr (str_of (arg_service_account_json_private_key_path
                                   parsed_args))
              else service_account_json_private_key_path self)
             (set_service_account_name
                (if truthy (arg_email parsed_args)
                 then VStr (str_of (arg_email parsed_args))
                 else service_account_name self)
                (set_orientation
                   (if with_spec && negb (is_true (orientation self))
                    then get_or_empty (arg_spec parsed_args)
                           (device_default_orientation_map self)
                    else orientation self)
                   (set_resolution
                      (if with_spec && negb (is_true (resolution self))
                       then get_or_empty (arg_spec parsed_args)
                              (device_resolution_map self)
                       else resolution self)
                      self)))))).

Lemma if_set_service_account_name (c : bool) (v : value)
    (self : AcloudConfig) :
  (if c then set_service_account_name v self else self)
  = set_service_account_name (if c then v else service_account_name self)
      self.
Proof. destruct c, self; reflexivity. Qed.

Lemma if_set_service_account_json_private_key_path (c : bool) (v : value)
    (self : AcloudConfig) :
  (if c then set_service_account_json_private_key_path v self else self)
  = set_service_account_json_private_key_path
      (if c then v else service_account_json_private_key_path self) self.
Proof. destruct c, self; reflexivity. Qed.

Lemma if_set_stable_goldfish_host_image_name (c : bool) (v : value)
    (self : AcloudConfig) :
  (if c then set_stable_goldfish_host_image_name v self else self)
  = set_stable_goldfish_host_image_name
      (if c then v else stable_goldfish_host_image_name self) self.
Proof. destruct c, self; reflexivity. Qed.

Lemma if_set_hw_property (c : bool) (v : value) (self : AcloudConfig) :
  (if c then set_hw_property v self else self)
  = set_hw_property (if c then v else hw_property self) self.
Proof. destruct c, self; reflexivity. Qed.

Lemma if_set_network (c c' : bool) (v : value) (self : AcloudConfig) :
  (if c then if c' then set_network v self else self else self)
  = set_network (if c && c' then v else network self) self.
Proof. destruct c, c', self; reflexivity. Qed.

Lemma if_set_resolution_orientation (c : bool) (rv ov : value)
    (self : AcloudConfig) :
  (if c then
     if negb (is_true
                (orientation
                   (if negb (is_true (resolution self))
                    then set_resolution rv self else self)))
     then set_orientation ov
            (if negb (is_true (resolution self))
             then set_resolution rv self else self)
     else (if negb (is_true (resolution self))
           then set_resolution rv self else self)
   else self)
  = set_orientation
      (if c && negb (is_true (orientation self)) then ov
       else orientation self)
      (set_resolution
         (if c && negb (is_true (resolution self)) then rv
          else resolution self)
         self).
Proof.
  destruct self. cbn [resolution orientation].
  destruct c; [|reflexivity].
  destruct (is_true resolution0); unfold set_resolution;
    cbn [negb andb orientation];
    destruct (is_true orientation0); reflexivity.
Qed.

Lemma if_set_resolution_map (c : bool) (v : value) (self : AcloudConfig) :
  device_default_orientation_map
    (if c then set_resolution v self else self)
  = device_default_orientation_map self.
Proof. destruct c; reflexivity. Qed.

Lemma OverrideWithArgs_overridden (self : AcloudConfig)
    (parsed_args : ParsedArgs) :
  OverrideWithArgs CMD_CREATE self parsed_args = overridden self parsed_args.
Proof.
  unfold OverrideWithArgs, overridden. cbv zeta.
  rewrite if_set_resolution_orientation, if_set_resolution_map.
  rewrite if_set_network, if_set_hw_property,
    if_set_stable_goldfish_host_image_name,
    if_set_service_account_json_private_key_path,
    if_set_service_account_name.
  destruct self; reduce_config. reflexivity.
Qed.

Lemma truthy_str_of (v : option string) :
  truthy v = true -> is_true (VStr (str_of v)) = true.
Proof. destruct v as [[|c s]|]; [discriminate|reflexivity|discriminate]. Qed.

(** X16: [OverrideWithArgs] does not call [Verify] again and does not need
    to: a configuration that passes [Verify] still passes it after any
    override, since of the attributes [Verify] reads only the network can
    change, and only to a network that is given. *)
Theorem OverrideWithArgs_keeps_verified (self : AcloudConfig)
    (parsed_args : ParsedArgs) :
  Verify self = inr tt ->
  Verify (OverrideWithArgs CMD_CREATE self parsed_args) = inr tt.
Proof.
  rewrite OverrideWithArgs_overridden, !Verify_ok.
  destruct self, parsed_args. unfold overridden. reduce_config.
  cbn [arg_which arg_network].
  intros (Hm & Hn & Hs & Hd & Ht & He). repeat split; try assumption.
  destruct (((arg_which0 =? CMD_CREATE)%string
             || (arg_which0 =? "create_cf")%string)
            && truthy arg_network0) eqn:E; [|exact Hn].
  apply andb_true_iff in E. apply truthy_str_of. tauto.
Qed.

Lemma keep_or_fill_twice (c : bool) (v x : value) :
  (if c && negb (is_true (if c && negb (is_true x) then v else x)) then v
   else (if c && negb (is_true x) then v else x))
  = (if c && negb (is_true x) then v else x).
Proof.
  destruct c, (is_true x) eqn:E; cbn [andb negb]; rewrite ?E;
    try reflexivity.
  destruct (is_true v); reflexivity.
Qed.

Lemma replace_twice (c : bool) (v x : value) :
  (if c then v else (if c then v else x)) = (if c then v else x).
Proof. destruct c; reflexivity. Qed.

(** X17: overriding twice with the same arguments is overriding once. *)
Theorem OverrideWithArgs_idempotent (self : AcloudConfig)
    (parsed_args : ParsedArgs) :
  OverrideWithArgs CMD_CREATE (OverrideWithArgs CMD_CREATE self parsed_args)
    parsed_args
  = OverrideWithArgs CMD_CREATE self parsed_args.
Proof.
  rewrite !OverrideWithArgs_overridden.
  destruct self, parsed_args. unfold overridden. reduce_config.
  cbn [arg_which arg_spec arg_email
       arg_service_account_json_private_key_path arg_base_image arg_flavor
       arg_network].
  rewrite !keep_or_fill_twice, !replace_twice. reflexivity.
Qed.

(** X18: what the configuration already says wins over the tables: a
    resolution, an orientation or a hardware property that is true is never
    replaced, and for a command other than [CMD_CREATE] none of the three
    changes.  The machine type, the metadata variables and the extra data
    disk size are never changed, and the network only by a network given
    for [CMD_CREATE] or "create_cf". *)
Theorem OverrideWithArgs_respects_config (self : AcloudConfig)
    (parsed_args : ParsedArgs) :
  let after := OverrideWithArgs CMD_CREATE self parsed_args in
  (is_true (resolution self) = true -> resolution after = resolution self)
  /\ (is_true (orientation self) = true ->
      orientation after = orientation self)
  /\ (is_true (hw_property self) = true ->
      hw_property after = hw_property self)
  /\ (arg_which parsed_args <> CMD_CREATE ->
      resolution after = resolution self
      /\ orientation after = orientation self
      /\ hw_property after = hw_property self)
  /\ machine_type after = machine_type self
  /\ metadata_variable after = metadata_variable self
  /\ extra_data_disk_size_gb after = extra_data_disk_size_gb self
  /\ network after
     = (if ((arg_which parsed_args =? CMD_CREATE)%string
            || (arg_which parsed_args =? "create_cf")%string)
           && truthy (arg_network parsed_args)
        then VStr (str_of (arg_network parsed_args)) else network self).
Proof.
  intros after. subst after. rewrite OverrideWithArgs_overridden.
  destruct self, parsed_args. unfold overridden. reduce_config.
  cbn [arg_which arg_spec arg_flavor arg_network].
  split; [intros ->; now rewrite andb_false_r|].
  split; [intros ->; now rewrite andb_false_r|].
  split; [intros ->; now rewrite andb_false_r|].
  split; [|repeat split].
  intros Hne. apply String.eqb_neq in Hne. rewrite Hne. repeat split.
Qed.

End OverrideFacts.

(** ** Concrete configurations *)

(** The internal configuration, with the defaults of the user's. *)
Definition sample_internal_cfg : InternalConfig :=
  {| int_creds_cache_file := VStr ".acloud_oauth2.dat";
     int_user_agent := VStr "acloud";
     int_default_usr_cfg :=
       {| def_machine_type := VStr "n1-standard-4";
          def_network := VStr "default";
          def_metadata_variable :=
            [("camera_front", VStr "1,32,24,checker-sliding");
             ("cfg_sta_ephemeral_data_size_mb", VStr "2048")];
          def_extra_data_disk_size_gb := 0;
          def_stable_host_image_name := VStr "";
          def_stable_host_image_project := VStr "";
          def_stable_goldfish_host_image_name := VStr "";
          def_stable_goldfish_host_image_project := VStr "" |};
     int_device_resolution_map := [("nexus5", VStr "1080x1920x32x480")];
     int_device_default_orientation_map := [("nexus5", VStr "portrait")];
     int_no_project_access_msg_map := [];
     int_min_machine_size := VStr "n1-standard-1";
     int_disk_image_name := VStr "avd-system.tar.gz";
     int_disk_image_mime_type := VStr "application/x-tar";
     int_disk_image_extension := VStr ".tar.gz";
     int_disk_raw_image_name := VStr "disk.raw";
     int_disk_raw_image_extension := VStr ".img";
     int_valid_branch_and_min_build_id := [];
     int_precreated_data_image :=
       [(4, VStr "extradisk-image-4gb"); (10, VStr "extradisk-image-10gb")];
     int_default_extra_data_disk_device := VStr "/dev/block/sdb";
     int_kernel_build_target := VStr "kernel";
     int_emulator_build_target := VStr "sdk_tools_linux";
     int_common_hw_property_map :=
       [("phone", VStr "cpu:2,resolution:720x1280,dpi:320,memory:4g")] |}.

(** A user who names a project, a zone and a camera, and asks for an extra
    data disk of [size] GB. *)
Definition sample_usr_cfg (size : Z) (metadata : dict string value)
    : UserConfig :=
  {| usr_service_account_name := VStr "";
     usr_service_account_private_key_path := VStr "";
     usr_service_account_json_private_key_path := VStr "";
     usr_client_id := VStr "";
     usr_client_secret := VStr "";
     usr_project := VStr "my-project";
     usr_zone := VStr "us-central1-f";
     usr_machine_type := VStr "";
     usr_network := VStr "";
     usr_ssh_private_key_path := VStr "";
     usr_ssh_public_key_path := VStr "";
     usr_storage_bucket_name := VStr "";
     usr_metadata_variable := metadata;
     usr_extra_data_disk_size_gb := size;
     usr_orientation := VStr "";
     usr_resolution := VStr "";
     usr_stable_host_image_name := VStr "";
     usr_stable_host_image_project := VStr "";
     usr_stable_goldfish_host_image_name := VStr "";
     usr_stable_goldfish_host_image_project := VStr "";
     usr_hw_property := VStr "" |}.

Definition sample_metadata : dict string value :=
  [("camera_front", VStr "1,64,48,checker-fixed")].

(** What [__init__] makes of the two with a disk of 4 GB. *)
Definition sample_cfg : AcloudConfig :=
  {| service_account_name := VStr "";
     service_account_private_key_path := VStr "";
     service_account_json_private_key_path := VStr "";
     creds_cache_file := VStr ".acloud_oauth2.dat";
     user_agent := VStr "acloud";
     client_id := VStr "";
     client_secret := VStr "";
     project := VStr "my-project";
     zone := VStr "us-central1-f";
     machine_type := VStr "n1-standard-4";
     network := VStr "default";
     ssh_private_key_path := VStr "";
     ssh_public_key_path := VStr "";
     storage_bucket_name := VStr "";
     metadata_variable :=
       [("camera_front", VStr "1,64,48,checker-fixed");
        ("cfg_sta_persistent_data_device", VStr "/dev/block/sdb")];
     device_resolution_map := [("nexus5", VStr "1080x1920x32x480")];
     device_default_orientation_map := [("nexus5", VStr "portrait")];
     no_project_access_msg_map := [];
     min_machine_size := VStr "n1-standard-1";
     disk_image_name := VStr "avd-system.tar.gz";
     disk_image_mime_type := VStr "application/x-tar";
     disk_image_extension := VStr ".tar.gz";
     disk_raw_image_name := VStr "disk.raw";
     disk_raw_image_extension := VStr ".img";
     valid_branch_and_min_build_id := [];
     precreated_data_image_map :=
       [(4, VStr "extradisk-image-4gb"); (10, VStr "extradisk-image-10gb")];
     extra_data_disk_size_gb := 4;
     orientation := VStr "";
     resolution := VStr "";
     stable_host_image_name := VStr "";
     stable_host_image_project := VStr "";
     kernel_build_target := VStr "kernel";
     emulator_build_target := VStr "sdk_tools_linux";
     stable_goldfish_host_image_name := VStr "";
     stable_goldfish_host_image_project := VStr "";
     common_hw_property_map :=
       [("phone", VStr "cpu:2,resolution:720x1280,dpi:320,memory:4g")];
     hw_property := VStr "" |}.

(** [acloud create --spec nexus5 --flavor phone --network acloud-net], and
    [acloud create_gf --base_image goldfish-base]. *)
Definition create_args : ParsedArgs :=
  {| arg_which := "create";
     arg_spec := Some "nexus5";
     arg_email := Some "dev@example.com";
     arg_service_account_json_private_key_path := None;
     arg_base_image := None;
     arg_flavor := Some "phone";
     arg_network := Some "acloud-net" |}.

Definition create_gf_args : ParsedArgs :=
  {| arg_which := "create_gf";
     arg_spec := Some "nexus5";
     arg_email := None;
     arg_service_account_json_private_key_path := None;
     arg_base_image := Some "goldfish-base";
     arg_flavor := Some "phone";
     arg_network := Some "acloud-net" |}.

Lemma init_returns_verified_witness :
  AcloudConfig__init__ (sample_usr_cfg 4 sample_metadata) sample_internal_cfg
  = inr sample_cfg
  /\ is_true (machine_type sample_cfg) = true
  /\ is_true (network sample_cfg) = true
  /\ is_true (min_machine_size sample_cfg) = true
  /\ is_true (disk_image_name sample_cfg) = true
  /\ is_true (disk_image_mime_type sample_cfg) = true
  /\ (extra_data_disk_size_gb sample_cfg = 0
      \/ dict_in Z.eqb (extra_data_disk_size_gb sample_cfg)
           (precreated_data_image_map sample_cfg) = true)
  /\ machine_type sample_cfg = VStr "n1-standard-4"
  /\ network sample_cfg = VStr "default".
Proof.
  split; [reflexivity|].
  exact (init_returns_verified_config (sample_usr_cfg 4 sample_metadata)
           sample_internal_cfg sample_cfg eq_refl).
Defined.

Lemma init_metadata_witness :
  NoDup (dict_keys sample_metadata)
  /\ AcloudConfig__init__ (sample_usr_cfg 4 sample_metadata)
       sample_internal_cfg
     = inr sample_cfg
  /\ dict_get String.eqb "camera_front" (metadata_variable sample_cfg)
     = Some (VStr "1,64,48,checker-fixed")
  /\ dict_get String.eqb "cfg_sta_persistent_data_device"
       (metadata_variable sample_cfg)
     = Some (VStr "/dev/block/sdb")
  /\ dict_get String.eqb "cfg_sta_ephemeral_data_size_mb"
       (metadata_variable sample_cfg)
     = None.
Proof.
  assert (Hnodup : NoDup (dict_keys sample_metadata))
    by (cbn; constructor; [intros H; destruct H | constructor]).
  pose proof (fun k =>
                init_metadata_by_key (sample_usr_cfg 4 sample_metadata)
                  sample_internal_cfg sample_cfg k Hnodup eq_refl) as H.
  cbv zeta in H.
  split; [exact Hnodup|]. split; [reflexivity|].
  split; [exact (H "camera_front")|].
  split; [exact (H "cfg_sta_persistent_data_device")|].
  exact (H "cfg_sta_ephemeral_data_size_mb").
Defined.

Lemma init_rejects_witness :
  0 < or_int 4 0
  /\ dict_in String.eqb "cfg_sta_ephemeral_data_size_mb"
       [("cfg_sta_ephemeral_data_size_mb", VStr "1024")] = true
  /\ AcloudConfig__init__
       (sample_usr_cfg 4 [("cfg_sta_ephemeral_data_size_mb", VStr "1024")])
       sample_internal_cfg
     = inl DiskSizeWithEphemeralSize.
Proof.
  split; [reflexivity|]. split; [reflexivity|].
  exact (init_rejects_disk_with_ephemeral_size
           (sample_usr_cfg 4
              [("cfg_sta_ephemeral_data_size_mb", VStr "1024")])
           sample_internal_cfg eq_refl eq_refl).
Defined.

Lemma OverrideWithArgs_keeps_verified_witness :
  Verify sample_cfg = inr tt
  /\ Verify (OverrideWithArgs "create" sample_cfg create_args) = inr tt
  /\ network (OverrideWithArgs "create" sample_cfg create_args)
     = VStr "acloud-net".
Proof.
  split; [reflexivity|].
  split; [|reflexivity].
  exact (OverrideWithArgs_keeps_verified "create" sample_cfg create_args
           eq_refl).
Defined.

Lemma OverrideWithArgs_respects_config_witness :
  is_true (resolution (set_resolution (VStr "720x1280x32x320") sample_cfg))
  = true
  /\ resolution
       (OverrideWithArgs "create"
          (set_resolution (VStr "720x1280x32x320") sample_cfg) create_args)
     = VStr "720x1280x32x320"
  /\ arg_which create_gf_args <> "create"
  /\ resolution (OverrideWithArgs "create" sample_cfg create_gf_args)
     = VStr ""
  /\ hw_property (OverrideWithArgs "create" sample_cfg create_gf_args)
     = VStr ""
  /\ network (OverrideWithArgs "create" sample_cfg create_args)
     = VStr "acloud-net"
  /\ network (OverrideWithArgs "create" sample_cfg create_gf_args)
     = VStr "default".
Proof.
  pose proof (OverrideWithArgs_respects_config "create"
                (set_resolution (VStr "720x1280x32x320") sample_cfg)
                create_args) as Hset.
  pose proof (OverrideWithArgs_respects_config "create" sample_cfg
                create_gf_args) as Hgf.
  pose proof (OverrideWithArgs_respects_config "create" sample_cfg
                create_args) as Hcreate.
  cbv zeta in Hset, Hgf, Hcreate.
  destruct Hset as (Hres & _).
  destruct Hgf as (_ & _ & _ & Hother & _ & _ & _ & Hnet_gf).
  destruct Hcreate as (_ & _ & _ & _ & _ & _ & _ & Hnet).
  assert (Hne : arg_which create_gf_args <> "create")
    by (intros E; discriminate E).
  destruct (Hother Hne) as (Hr & _ & Hhw).
  split; [reflexivity|]. split; [exact (Hres eq_refl)|].
  split; [exact Hne|]. split; [exact Hr|]. split; [exact Hhw|].
  split; [exact Hnet | exact Hnet_gf].
Defined.

End config.
